(** * DiscordRoleRotator: rotation scheduling, fairness queue and hold-time
    accounting

    A shallow embedding of the three bot scripts of the repository
    ([bot2.0.py], [bot3.0.py], [bot3.1.py]) and the properties their
    specification states about them.

    - [PyDatetime]: the part of Python's [datetime] the schedule calculators
      use ([replace], [+ timedelta(days=n)], comparison, [weekday],
      [timestamp]), with the exceptions [replace] and the addition raise.
    - [Bot30]: [bot3.0.py] ([next_run_from_now], the stats records, the
      removal of the previous holders, [pick_next_batch], [run_rotation],
      the total of the [stats] command).  The same functions of [bot2.0.py]
      have the same bodies; where they differ it is said at the definition.
    - [Bot31]: [bot3.1.py] ([compute_next_run], [perform_run]).
    - [Bot20]: [bot2.0.py] where it differs (the removal of the previous
      holders, the default pick count, the run of its scheduler).
    - [Commands30], [Commands31]: the permission, status and schedule
      commands of [bot3.0.py] and [bot3.1.py], and one turn of the scheduler
      loop of [bot3.0.py].
    - [Asyncio], [Tasks20], [Tasks31]: coroutines cut at their awaits, the
      lock, and the runs of [bot2.0.py] and [bot3.1.py] as tasks that the
      event loop may interleave.

    What lies outside the scripts is an input of the model: the guild
    (members, who has which role), the outcome of each Discord call, the
    clock, and the permutations [random.shuffle] draws. *)

From Stdlib Require Import ZArith Lia.
From stdpp Require Import gmap list strings sorting.

Local Open Scope Z_scope.

(** ** Outcomes of fallible Python code *)

Inductive exn : Set := ValueError | OverflowError.

(** [Ret v]: the code returns [v]; [Raise e]: it raises [e]; [Fuel]: the
    model of a [while] loop ran out of steps (shown not to happen). *)
Inductive outcome (A : Type) : Type :=
| Ret (v : A)
| Raise (e : exn)
| Fuel.
Arguments Ret {A} v.
Arguments Raise {A} e.
Arguments Fuel {A}.

Global Instance outcome_bind : MBind outcome := fun A B k x =>
  match x with
  | Ret v => k v
  | Raise e => Raise e
  | Fuel => Fuel
  end.

(** [try: x = c except ValueError: continue]: the variable keeps its old
    value when the body raises [ValueError]. *)
Definition except_ValueError_keep {A} (old : A) (c : outcome A) : outcome A :=
  match c with
  | Raise ValueError => Ret old
  | r => r
  end.

(** ** Python slices *)

(** The position a slice bound [i] denotes in a list of [len] elements:
    negative bounds count from the end, all bounds are clamped. *)
Definition py_bound (len : nat) (i : Z) : nat :=
  Z.to_nat (if i <? 0 then Z.max 0 (Z.of_nat len + i)
            else Z.min i (Z.of_nat len)).

(** [l[i:]], [l[:j]] and [l[i:j]]. *)
Definition slice_from {A} (l : list A) (i : Z) : list A :=
  drop (py_bound (length l) i) l.
Definition slice_to {A} (l : list A) (j : Z) : list A :=
  take (py_bound (length l) j) l.
Definition slice {A} (l : list A) (i j : Z) : list A :=
  drop (py_bound (length l) i) (take (py_bound (length l) j) l).

(** [len(l)] as a Python integer. *)
Definition len {A} (l : list A) : Z := Z.of_nat (length l).

(** ** The guild, as the scripts read it *)

Module Discord.

Record Member : Set := mkMember {
  m_id : Z;
  m_bot : bool;
  m_roles : list Z   (* ids of the roles the member has *)
}.

(** [guild.members]. *)
Definition Guild : Set := list Member.

(** [guild.get_member(uid)]. *)
Definition get_member (g : Guild) (uid : Z) : option Member :=
  find (fun m => bool_decide (m_id m = uid)) g.

(** [role in m.roles]. *)
Definition has_role (role : Z) (m : Member) : bool :=
  bool_decide (role ∈ m_roles m).

End Discord.

(** ** Python's [datetime] *)

Module PyDatetime.

Definition MINYEAR : Z := 1.
Definition MAXYEAR : Z := 9999.
Definition MAXORDINAL : Z := 3652059.

Definition is_leap (y : Z) : bool :=
  (y mod 4 =? 0) && (negb (y mod 100 =? 0) || (y mod 400 =? 0)).

Definition days_before_year (y : Z) : Z :=
  let p := y - 1 in p * 365 + p / 4 - p / 100 + p / 400.

Definition days_in_month (y m : Z) : Z :=
  if m =? 2 then (if is_leap y then 29 else 28)
  else if (m =? 4) || (m =? 6) || (m =? 9) || (m =? 11) then 30
  else 31.

(** [_DAYS_BEFORE_MONTH[m]], for a common year. *)
Definition DAYS_BEFORE_MONTH (m : Z) : Z :=
  match m with
  | 1 => 0 | 2 => 31 | 3 => 59 | 4 => 90 | 5 => 120 | 6 => 151
  | 7 => 181 | 8 => 212 | 9 => 243 | 10 => 273 | 11 => 304 | 12 => 334
  | _ => 0
  end.

Definition days_before_month (y m : Z) : Z :=
  DAYS_BEFORE_MONTH m + (if (2 <? m) && is_leap y then 1 else 0).

Definition ymd2ord (y m d : Z) : Z :=
  days_before_year y + days_before_month y m + d.

(** The end of [_ord2ymd]: month and day of the [n]-th day (from 0) of a
    year, by the estimate [(n + 50) >> 5] and its correction. *)
Definition month_day (leapyear : bool) (n : Z) : Z * Z :=
  let month := Z.shiftr (n + 50) 5 in
  let preceding :=
    DAYS_BEFORE_MONTH month + (if (2 <? month) && leapyear then 1 else 0) in
  if n <? preceding then
    let month := month - 1 in
    let preceding :=
      preceding - (days_in_month 1 month
                   + (if (month =? 2) && leapyear then 1 else 0)) in
    (month, n - preceding + 1)
  else (month, n - preceding + 1).

(** [_ord2ymd], with the 400/100/4/1-year cycles of the library. *)
Definition ord2ymd (n0 : Z) : Z * Z * Z :=
  let n := n0 - 1 in
  let n400 := n / 146097 in
  let n := n mod 146097 in
  let year := n400 * 400 + 1 in
  let n100 := n / 36524 in
  let n := n mod 36524 in
  let n4 := n / 1461 in
  let n := n mod 1461 in
  let n1 := n / 365 in
  let n := n mod 365 in
  let year := year + n100 * 100 + n4 * 4 + n1 in
  if (n1 =? 4) || (n100 =? 4) then (year - 1, 12, 31)
  else
    let leapyear := (n1 =? 3) && (negb (n4 =? 24) || (n100 =? 3)) in
    let '(month, day) := month_day leapyear n in
    (year, month, day).

(** An aware datetime in the guild's time zone.  The zone is taken at a
    fixed UTC offset [utcoffset] (seconds): daylight-saving transitions are
    not modelled. *)
Record datetime : Set := mkdt {
  year : Z; month : Z; day : Z;
  hour : Z; minute : Z; second : Z; microsecond : Z;
  utcoffset : Z
}.

Definition in_range (lo hi x : Z) : bool := (lo <=? x) && (x <=? hi).

(** The checks of the [datetime] constructor. *)
Definition check_fields (y m d hh mi s us : Z) : bool :=
  in_range MINYEAR MAXYEAR y && in_range 1 12 m
  && in_range 1 (days_in_month y m) d
  && in_range 0 23 hh && in_range 0 59 mi && in_range 0 59 s
  && in_range 0 999999 us.

Definition valid (dt : datetime) : bool :=
  check_fields (year dt) (month dt) (day dt)
               (hour dt) (minute dt) (second dt) (microsecond dt).

(** The range of a C [int], to which CPython converts the arguments of
    [replace] before anything else. *)
Definition INT_MIN : Z := -2147483648.
Definition INT_MAX : Z := 2147483647.

(** An argument that is given converts to a C [int]. *)
Definition fits_int (x : option Z) : bool :=
  match x with
  | Some v => in_range INT_MIN INT_MAX v
  | None => true
  end.

(** [dt.replace(...)]: every field is optional.  An argument outside the
    range of a C [int] raises [OverflowError]; then the new value is checked
    like a fresh datetime and [ValueError] is raised when it is not one. *)
Definition replace (dt : datetime)
    (y m d hh mi s us : option Z) : outcome datetime :=
  if negb (fits_int y && fits_int m && fits_int d && fits_int hh
           && fits_int mi && fits_int s && fits_int us)
  then Raise OverflowError
  else
    let y' := default (year dt) y in
    let m' := default (month dt) m in
    let d' := default (day dt) d in
    let hh' := default (hour dt) hh in
    let mi' := default (minute dt) mi in
    let s' := default (second dt) s in
    let us' := default (microsecond dt) us in
    if check_fields y' m' d' hh' mi' s' us'
    then Ret (mkdt y' m' d' hh' mi' s' us' (utcoffset dt))
    else Raise ValueError.

Definition toordinal (dt : datetime) : Z :=
  ymd2ord (year dt) (month dt) (day dt).

(** Monday is 0, Sunday is 6. *)
Definition weekday (dt : datetime) : Z := (toordinal dt + 6) mod 7.

(** The wall-clock fields as one count of microseconds; two datetimes of
    one zone are compared by their wall-clock fields. *)
Definition wall_us (dt : datetime) : Z :=
  ((toordinal dt * 86400
    + hour dt * 3600 + minute dt * 60 + second dt) * 1000000)
  + microsecond dt.

Definition dt_le (a b : datetime) : bool := wall_us a <=? wall_us b.

(** [dt + timedelta(days=n)]: [timedelta] itself refuses more than
    999999999 days, the sum must stay within the years 1..9999; both raise
    [OverflowError]. *)
Definition add_days (dt : datetime) (n : Z) : outcome datetime :=
  if negb (in_range (-999999999) 999999999 n) then Raise OverflowError
  else
    let o := toordinal dt + n in
    if (0 <? o) && (o <=? MAXORDINAL) then
      let '(y, m, d) := ord2ymd o in
      Ret (mkdt y m d (hour dt) (minute dt) (second dt) (microsecond dt)
                (utcoffset dt))
    else Raise OverflowError.

(** [dt.timestamp()] in microseconds: the distance to 1970-01-01 00:00 UTC
    (ordinal 719163). *)
Definition timestamp_us (dt : datetime) : Z :=
  wall_us dt - (719163 * 86400 + utcoffset dt) * 1000000.

(** [int(dt.timestamp())]: truncation towards zero. *)
Definition int_timestamp (dt : datetime) : Z :=
  Z.quot (timestamp_us dt) 1000000.

End PyDatetime.

(** ** bot3.0.py *)

Module Bot30.
Import PyDatetime Discord.

Definition DEFAULT_PICKS_Y : Z := 3.

(** [config["schedule"]].  Every key is read with [s.get(key, default)], so
    a key may be missing.  [s_time] is the pair [parse_hhmm] returns for the
    ["time"] entry (the parsing of the text is not modelled). *)
Record Schedule : Set := mkSchedule {
  s_enabled : option bool;
  s_type : option string;
  s_n_days : option Z;
  s_weekday : option Z;
  s_dom : option Z;
  s_time : Z * Z
}.

(** [now.replace(hour=hh, minute=mm, second=0, microsecond=0)]. *)
Definition at_time (now : datetime) (hh mm : Z) : outcome datetime :=
  replace now None None None (Some hh) (Some mm) (Some 0) (Some 0).

(** [for d in range(28, 32): try: cand = cand.replace(day=min(dom, d))
    except ValueError: continue]. *)
Definition fix_day (dom : Z) (cand : datetime) : outcome datetime :=
  foldl (fun c d =>
           cand ← c;
           except_ValueError_keep cand
             (replace cand None None (Some (Z.min dom d)) None None None None))
        (Ret cand) [28; 29; 30; 31].

(** [while cand <= now: cand += timedelta(days=n)]. *)
Fixpoint advance_past (fuel : nat) (cand now : datetime) (n : Z)
  : outcome datetime :=
  if dt_le cand now then
    match fuel with
    | O => Fuel
    | S fuel' => cand' ← add_days cand n; advance_past fuel' cand' now n
    end
  else Ret cand.

(** Steps granted to the loop: one more than the days that separate the
    candidate from [now]; every step adds at least one day. *)
Definition advance_fuel (cand now : datetime) : nat :=
  S (Z.to_nat (toordinal now - toordinal cand + 1)).

Definition next_run_from_now (s : Schedule) (now : datetime)
  : outcome (option Z) :=
  if negb (default false (s_enabled s)) then Ret None
  else
    let '(hh, mm) := s_time s in
    let typ := default "every_n_days"%string (s_type s) in
    if String.eqb typ "daily" then
      cand ← at_time now hh mm;
      cand ← (if dt_le cand now then add_days cand 1 else Ret cand);
      Ret (Some (int_timestamp cand))
    else if String.eqb typ "weekly" then
      let weekday := default 0 (s_weekday s) in
      cand ← at_time now hh mm;
      let days_ahead := (weekday - PyDatetime.weekday cand) mod 7 in
      let days_ahead :=
        if (days_ahead =? 0) && dt_le cand now then 7 else days_ahead in
      cand ← add_days cand days_ahead;
      Ret (Some (int_timestamp cand))
    else if String.eqb typ "monthly" then
      let dom := default 1 (s_dom s) in
      let y := year now in
      let m := month now in
      cand ← replace now None None (Some (Z.min dom 28))
                     (Some hh) (Some mm) (Some 0) (Some 0);
      cand ← fix_day dom cand;
      cand ← (if dt_le cand now then
                let '(y, m2) := if m =? 12 then (y + 1, 1) else (y, m + 1) in
                cand ← replace cand (Some y) (Some m2)
                               None None None None None;
                fix_day dom cand
              else Ret cand);
      Ret (Some (int_timestamp cand))
    else if String.eqb typ "every_n_days" then
      let n := Z.max 1 (default 3 (s_n_days s)) in
      cand ← at_time now hh mm;
      cand ← advance_past (advance_fuel cand now) cand now n;
      Ret (Some (int_timestamp cand))
    else Ret None.

(** One entry of [data["stats"]]. *)
Record UserStat : Set := mkStat {
  seconds_total : Z;
  hold_started_ts : option Z
}.

(** [data["current_cycle"]]. *)
Record Cycle : Set := mkCycle {
  queue : list Z;
  index : Z
}.

(** The persisted blob [data.json], without the permissions and the
    texts.  [stats] is keyed by the member id (its decimal text in the
    file). *)
Record Data : Type := mkData {
  picks_y : option Z;
  schedule : Schedule;
  current_holders : list Z;
  stats : gmap Z UserStat;
  current_cycle : Cycle;
  next_run_ts : option Z
}.

Definition set_stats (d : Data) (st : gmap Z UserStat) : Data :=
  mkData (picks_y d) (schedule d) (current_holders d) st
         (current_cycle d) (next_run_ts d).
Definition set_current_holders (d : Data) (h : list Z) : Data :=
  mkData (picks_y d) (schedule d) h (stats d)
         (current_cycle d) (next_run_ts d).
Definition set_current_cycle (d : Data) (c : Cycle) : Data :=
  mkData (picks_y d) (schedule d) (current_holders d) (stats d)
         c (next_run_ts d).
Definition set_next_run_ts (d : Data) (t : option Z) : Data :=
  mkData (picks_y d) (schedule d) (current_holders d) (stats d)
         (current_cycle d) t.

Definition default_data (s : Schedule) : Data :=
  mkData (Some DEFAULT_PICKS_Y) s [] ∅ (mkCycle [] 0) None.

Definition ensure_user_stat (uid : Z) (st : gmap Z UserStat)
  : gmap Z UserStat :=
  match st !! uid with
  | None => <[uid := mkStat 0 None]> st
  | Some _ => st
  end.

(** Python's truth value of [stats.get("hold_started_ts")]: [None] and [0]
    are false. *)
Definition truthy (t : option Z) : bool :=
  match t with
  | Some v => negb (v =? 0)
  | None => false
  end.

(** The "finalize stats" step of [remove_role_b_from_current_holders] for
    one holder. *)
Definition finalize_stats (now uid : Z) (st : gmap Z UserStat)
  : gmap Z UserStat :=
  let st := ensure_user_stat uid st in
  match st !! uid with
  | Some rec =>
      match hold_started_ts rec with
      | Some started =>
          if truthy (Some started) then
            let dur := now - started in
            <[uid := mkStat (seconds_total rec + Z.max 0 dur) None]> st
          else st
      | None => st
      end
  | None => st
  end.

(** The outcome of the Discord calls of one run: whether [add_roles] and
    [remove_roles] succeed for a member. *)
Record Api : Type := mkApi {
  add_ok : Z -> bool;
  remove_ok : Z -> bool
}.

(** [member and role_b in member.roles], then [remove_roles] succeeds. *)
Definition revoked_ok (guild : Guild) (role_b : Z) (api : Api) (uid : Z)
  : bool :=
  match get_member guild uid with
  | Some m => has_role role_b m && remove_ok api uid
  | None => false
  end.

(** [remove_role_b_from_current_holders]: the new data and the members the
    role was taken from.  (In bot2.0.py a holder who left the guild gets no
    stats entry created; an entry it has is finalized the same way.) *)
Definition remove_role_b_from_current_holders
    (guild : Guild) (role_b : Z) (api : Api) (now : Z) (data : Data)
  : Data * list Z :=
  let current_ids := current_holders data in
  match current_ids with
  | [] => (data, [])
  | _ =>
      let st := foldl (fun st uid => finalize_stats now uid st)
                      (stats data) current_ids in
      let revoked :=
        filter (fun uid => Is_true (revoked_ok guild role_b api uid))
               current_ids in
      (set_current_holders (set_stats data st) [], revoked)
  end.

(** [eligible_members_with_role_a], as member ids: the members of role A
    that are not bots, sorted by id. *)
Definition eligible_members_with_role_a (guild : Guild) (role_a : Z)
  : list Z :=
  merge_sort Z.le
    (m_id <$> filter (fun m => Is_true (has_role role_a m && negb (m_bot m)))
                     guild).

Definition repair_cycle_with_current_a
    (current_queue : list Z) (current_index : Z) (a_ids_now : list Z)
  : list Z * Z :=
  let remaining := slice_from current_queue current_index in
  let remaining := filter (fun uid => uid ∈ a_ids_now) remaining in
  (remaining, 0).

(** [y = int(cfg.get("picks_y", DEFAULT_PICKS_Y)); if y < 1: y = 1]. *)
Definition effective_picks (data : Data) : Z :=
  let y := default DEFAULT_PICKS_Y (picks_y data) in
  if y <? 1 then 1 else y.

(** The "assign role B" loop of [pick_next_batch] on the stats. *)
Definition open_holds (api : Api) (now_ts : Z) (selected : list Z)
    (st : gmap Z UserStat) : gmap Z UserStat :=
  foldl (fun st uid =>
           if add_ok api uid then
             let st := ensure_user_stat uid st in
             match st !! uid with
             | Some rec => <[uid := mkStat (seconds_total rec) (Some now_ts)]> st
             | None => st
             end
           else st)
        st selected.

Section WithRandom.
Context {RNG : Type}.
(** [random.shuffle] on the generator state. *)
Context (shuffle : RNG -> list Z -> list Z * RNG).

(** [shuffle_cycle_queue], on the ids of the members. *)
Definition shuffle_cycle_queue (rng : RNG) (ids : list Z) : list Z * RNG :=
  shuffle rng ids.

(** The selection of [pick_next_batch]: the ids selected and the new
    cycle. *)
Definition select_ids (y : Z) (a_ids_now : list Z) (cycle : Cycle)
    (rng : RNG) : list Z * Cycle * RNG :=
  let queue0 := queue cycle in
  let index0 := index cycle in
  let '(leftovers, _) := repair_cycle_with_current_a queue0 index0 a_ids_now in
  let '(queue1, index1, rng) :=
    match leftovers with
    | [] => let '(newq, rng) := shuffle_cycle_queue rng a_ids_now in
            (newq, 0, rng)
    | _ => (leftovers, 0, rng)
    end in
  let remaining := len queue1 - index1 in
  if y <=? remaining then
    (slice queue1 index1 (index1 + y), mkCycle queue1 (index1 + y), rng)
  else
    let z_take := slice_from queue1 index1 in
    let '(new_cycle_ids, rng) := shuffle_cycle_queue rng a_ids_now in
    let needed := y - len z_take in
    let topup := slice_to new_cycle_ids needed in
    (z_take ++ topup, mkCycle (slice_from new_cycle_ids needed) 0, rng).

(** [pick_next_batch]: the ids of the members returned, the new data and
    the generator state. *)
Definition pick_next_batch
    (guild : Guild) (role_a role_b : Z) (api : Api) (now_ts : Z)
    (data : Data) (rng : RNG) : list Z * Data * RNG :=
  let y := effective_picks data in
  let a_ids_now := eligible_members_with_role_a guild role_a in
  let '(selected_ids, cycle, rng) :=
    select_ids y a_ids_now (current_cycle data) rng in
  let data := set_current_cycle data cycle in
  let selected_members := filter (fun uid => uid ∈ a_ids_now) selected_ids in
  let data := set_stats data (open_holds api now_ts selected_members
                                          (stats data)) in
  let data := set_current_holders data selected_members in
  (selected_members, data, rng).

(** What one run sees of the world: the guild, the resolved roles A and B
    ([None] when a role of that name does not exist), the outcome of the
    Discord calls, and the clock read by the removal and by the pick. *)
Record World : Type := mkWorld {
  w_guild : Guild;
  w_role_a : option Z;
  w_role_b : option Z;
  w_api : Api;
  w_now_remove : Z;
  w_now_pick : Z
}.

Inductive run_error : Set := missing_roles.

(** [run_rotation], for an interaction that has a guild. *)
Definition run_rotation (w : World) (data : Data) (rng : RNG)
  : list Z * option run_error * Data * RNG :=
  match w_role_a w, w_role_b w with
  | Some role_a, Some role_b =>
      let '(data, _) :=
        remove_role_b_from_current_holders
          (w_guild w) role_b (w_api w) (w_now_remove w) data in
      let '(selected, data, rng) :=
        pick_next_batch (w_guild w) role_a role_b (w_api w)
                        (w_now_pick w) data rng in
      (selected, None, data, rng)
  | _, _ => ([], Some missing_roles, data, rng)
  end.

(** What [/run] answers once the caller is admitted: the error text, the
    "no eligible users" text or the list of the members assigned.  There is
    no other message. *)
Inductive run_reply : Set :=
| reply_error (e : run_error)
| reply_run_none
| reply_run_done (mentions : list Z).

Definition cmd_run (w : World) (data : Data) (rng : RNG)
  : run_reply * Data * RNG :=
  let '(selected, err, data, rng) := run_rotation w data rng in
  match err with
  | Some e => (reply_error e, data, rng)
  | None =>
      match selected with
      | [] => (reply_run_none, data, rng)
      | _ => (reply_run_done selected, data, rng)
      end
  end.

(** [n] runs in a row, each in its own world; the holders recorded after
    each run, oldest first. *)
Fixpoint rotations (ws : list World) (data : Data) (rng : RNG)
  : list (list Z) * Data * RNG :=
  match ws with
  | [] => ([], data, rng)
  | w :: ws' =>
      let '(_, _, data, rng) := run_rotation w data rng in
      let holders := current_holders data in
      let '(hs, data, rng) := rotations ws' data rng in
      (holders :: hs, data, rng)
  end.

End WithRandom.

(** The total the [stats] command shows for one entry at [now]. *)
Definition stats_total (now : Z) (rec : UserStat) : Z :=
  let total := seconds_total rec in
  match hold_started_ts rec with
  | Some start =>
      if truthy (Some start) then total + Z.max 0 (now - start) else total
  | None => total
  end.

(** [save_and_reschedule]. *)
Definition save_and_reschedule (now : datetime) (data : Data)
  : outcome Data :=
  t ← next_run_from_now (schedule data) now;
  Ret (set_next_run_ts data t).

End Bot30.

(** ** bot3.1.py *)

Module Bot31.
Import PyDatetime Discord.

Record ScheduleConfig : Set := mkScheduleConfig {
  sc_mode : string;
  sc_preset : string;
  sc_every_days : Z;
  sc_hour : Z;
  sc_minute : Z
}.

(** [GuildConfig], without the command name, the language and the flags of
    the command registration. *)
Record GuildConfig : Set := mkGuildConfig {
  role_a_id : Z;
  role_b_id : Z;
  picks_number : Z;
  announcement_channel_id : option Z;
  schedule : ScheduleConfig
}.

(** [total_seconds_with_b] is an integer number of seconds.
    [last_assigned_at] is a POSIX timestamp, a float in the script: the
    model has it in microseconds, the resolution of
    [datetime.now().timestamp()].  (The difference of two such floats is
    computed exactly, and truncates like the difference of the
    microsecond counts, for clock readings between 2004 and 2038, which
    share a binade.) *)
Record UserStats : Set := mkUserStats {
  total_seconds_with_b : Z;
  last_assigned_at : option Z
}.

(** [GuildState], without the permission sets. *)
Record GuildState : Type := mkGuildState {
  current_cycle_pool : list Z;
  stats : gmap Z UserStats
}.

Definition at_time (now : datetime) (hh mm : Z) : outcome datetime :=
  replace now None None None (Some hh) (Some mm) (Some 0) (Some 0).

(** [target = now.replace(...); if target <= now: target += timedelta(days)]. *)
Definition next_after (now : datetime) (hh mm days : Z) : outcome datetime :=
  target ← at_time now hh mm;
  if dt_le target now then add_days target days else Ret target.

Definition compute_next_run (cfg : GuildConfig) (now : datetime)
  : outcome datetime :=
  let hour := sc_hour (schedule cfg) in
  let minute := sc_minute (schedule cfg) in
  if String.eqb (sc_mode (schedule cfg)) "preset" then
    if String.eqb (sc_preset (schedule cfg)) "daily" then
      next_after now hour minute 1
    else if String.eqb (sc_preset (schedule cfg)) "weekly" then
      next_after now hour minute 7
    else if String.eqb (sc_preset (schedule cfg)) "monthly" then
      next_after now hour minute 30
    else
      (* fallback daily *)
      next_after now hour minute 1
  else
    next_after now hour minute (Z.max 1 (sc_every_days (schedule cfg))).

(** [y = max(1, int(cfg.picks_number))]. *)
Definition effective_picks (cfg : GuildConfig) : Z :=
  Z.max 1 (picks_number cfg).

(** What one run sees of the world: the members and the roles of the guild,
    the channel the announcement goes to (the configured one, else the
    system channel, else none), the outcome of the Discord calls and the
    clock (in microseconds). *)
Record World : Type := mkWorld {
  w_members : Guild;
  w_roles : list Z;
  w_channel : option Z;
  w_add_ok : Z -> bool;
  w_remove_ok : Z -> bool;
  w_now_ts : Z
}.

(** [guild.get_role(id)]. *)
Definition get_role (w : World) (id : Z) : option Z :=
  if bool_decide (id ∈ w_roles w) then Some id else None.

(** Where the "not enough users" note of a run went. *)
Inductive note_target : Set := to_channel (c : Z) | to_log.

(** What a run announces: the members role B was given to and taken from,
    and whether (and where) the [run_insufficient] note was issued. *)
Record Report : Set := mkReport {
  assigned : list Z;
  removed : list Z;
  run_insufficient : option note_target
}.

(** [int(now_ts - us.last_assigned_at)], the timestamps in microseconds:
    the seconds between the two, truncated towards zero. *)
Definition int_seconds (now_ts started : Z) : Z :=
  Z.quot (now_ts - started) 1000000.

(** The stats update for one previous holder. *)
Definition finalize_stats (now_ts uid : Z) (st : gmap Z UserStats)
  : gmap Z UserStats :=
  let us := default (mkUserStats 0 None) (st !! uid) in
  let us :=
    match last_assigned_at us with
    | Some started =>
        mkUserStats (total_seconds_with_b us + int_seconds now_ts started)
                    None
    | None => us
    end in
  <[uid := us]> st.

(** The stats update for one member role B was given to. *)
Definition open_stats (now_ts uid : Z) (st : gmap Z UserStats)
  : gmap Z UserStats :=
  let us := default (mkUserStats 0 None) (st !! uid) in
  <[uid := mkUserStats (total_seconds_with_b us) (Some now_ts)]> st.

Section WithRandom.
Context {RNG : Type}.
Context (shuffle : RNG -> list Z -> list Z * RNG).

(** The selection of [perform_run]: the picks and the pool that remains. *)
Definition select_picks (y : Z) (a_ids : list Z) (pool0 : list Z)
    (rng : RNG) : list Z * list Z * RNG :=
  let pool := filter (fun uid => uid ∈ a_ids) pool0 in
  let '(pool, rng) :=
    match pool with
    | [] => shuffle rng a_ids
    | _ => (pool, rng)
    end in
  let take := Z.min y (len pool) in
  let picks := slice_to pool take in
  let pool := slice_from pool take in
  let need := y - len picks in
  if 0 <? need then
    let '(new_cycle, rng) := shuffle rng a_ids in
    let new_cycle := filter (fun uid => uid ∉ picks) new_cycle in
    if need <=? len new_cycle then
      (picks ++ slice_to new_cycle need, slice_from new_cycle need, rng)
    else
      (picks ++ new_cycle, [], rng)
  else (picks, pool, rng).

(** [perform_run]; [None] as report when a role is not configured (the run
    returns before it touches anything). *)
Definition perform_run (w : World) (cfg : GuildConfig) (st : GuildState)
    (rng : RNG) : option Report * GuildState * RNG :=
  match get_role w (role_a_id cfg), get_role w (role_b_id cfg) with
  | Some role_a, Some role_b =>
      let members_with_a :=
        filter (fun m => Is_true (has_role role_a m && negb (m_bot m)))
               (w_members w) in
      let prev_b_holders :=
        filter (fun m => Is_true (has_role role_b m)) (w_members w) in
      let now_ts := w_now_ts w in
      let '(stats1, removed_mentions) :=
        foldl (fun '(s, removed_mentions) m =>
                 let s := finalize_stats now_ts (m_id m) s in
                 if w_remove_ok w (m_id m)
                 then (s, removed_mentions ++ [m_id m])
                 else (s, removed_mentions))
              (stats st, []) prev_b_holders in
      let y := effective_picks cfg in
      let '(picks, pool, rng) :=
        select_picks y (m_id <$> members_with_a)
                     (current_cycle_pool st) rng in
      let '(stats2, assigned_mentions) :=
        foldl (fun '(s, assigned_mentions) uid =>
                 match get_member (w_members w) uid with
                 | None => (s, assigned_mentions)
                 | Some member =>
                     if w_add_ok w (m_id member)
                     then (open_stats now_ts (m_id member) s,
                           assigned_mentions ++ [m_id member])
                     else (s, assigned_mentions)
                 end)
              (stats1, []) picks in
      let note :=
        if len members_with_a <? y then
          Some (match w_channel w with
                | Some c => to_channel c
                | None => to_log
                end)
        else None in
      (Some (mkReport assigned_mentions removed_mentions note),
       mkGuildState pool stats2, rng)
  | _, _ => (None, st, rng)
  end.

(** Runs in a row, each in its own world; the members role B was given to
    in each run, oldest first. *)
Fixpoint runs (ws : list World) (cfg : GuildConfig) (st : GuildState)
    (rng : RNG) : list (list Z) * GuildState * RNG :=
  match ws with
  | [] => ([], st, rng)
  | w :: ws' =>
      let '(rep, st, rng) := perform_run w cfg st rng in
      let '(hs, st, rng) := runs ws' cfg st rng in
      (from_option assigned [] rep :: hs, st, rng)
  end.

End WithRandom.

End Bot31.

(** ** [chunked], in all three scripts *)

(** [range(0, stop, step)]: [ValueError] for a step of 0. *)
Definition py_range0 (stop step : Z) : outcome (list Z) :=
  if step =? 0 then Raise ValueError
  else
    let count :=
      if 0 <? step then (stop + step - 1) / step
      else (- stop - step - 1) / (- step) in
    Ret ((fun k => Z.of_nat k * step) <$> seq 0 (Z.to_nat count)).

(** [[lst[i:i+n] for i in range(0, len(lst), n)]]. *)
Definition chunked {A} (lst : list A) (n : Z) : outcome (list (list A)) :=
  match py_range0 (len lst) n with
  | Ret r => Ret ((fun i => slice lst i (i + n)) <$> r)
  | Raise e => Raise e
  | Fuel => Fuel
  end.

(** ** bot2.0.py, where it differs from bot3.0.py

    The selection ([select_ids]), [eligible_members_with_role_a] and the
    stats steps of a member who is in the guild have the bodies of
    bot3.0.py and are taken from [Bot30]. *)

Module Bot20.
Import PyDatetime Discord Bot30.

(** The stats step of [remove_role_b_from_current_holders] for a holder
    who left the guild: an entry that exists is finalized, none is
    created. *)
Definition finalize_stats_left (now uid : Z) (st : gmap Z UserStat)
  : gmap Z UserStat :=
  match st !! uid with
  | Some rec =>
      match hold_started_ts rec with
      | Some started =>
          if truthy (Some started) then
            let dur := now - started in
            <[uid := mkStat (seconds_total rec + Z.max 0 dur) None]> st
          else st
      | None => st
      end
  | None => st
  end.

Definition remove_role_b_from_current_holders
    (guild : Guild) (role_b : Z) (api : Api) (now : Z) (data : Data)
  : Data * list Z :=
  let current_ids := current_holders data in
  match current_ids with
  | [] => (data, [])
  | _ =>
      let st := foldl (fun st uid =>
                         match get_member guild uid with
                         | None => finalize_stats_left now uid st
                         | Some _ => finalize_stats now uid st
                         end)
                      (stats data) current_ids in
      let revoked :=
        filter (fun uid => Is_true (revoked_ok guild role_b api uid))
               current_ids in
      (set_current_holders (set_stats data st) [], revoked)
  end.

(** [DEFAULT_PICKS_Y] of bot2.0.py. *)
Definition DEFAULT_PICKS_Y : Z := 1.

(** [y = int(cfg.get("picks_y", DEFAULT_PICKS_Y)); if y < 1: y = 1]. *)
Definition effective_picks (data : Data) : Z :=
  let y := default DEFAULT_PICKS_Y (picks_y data) in
  if y <? 1 then 1 else y.

Section WithRandom.
Context {RNG : Type}.
Context (shuffle : RNG -> list Z -> list Z * RNG).

(** [pick_next_batch] of bot2.0.py: the body of bot3.0.py, with the
    default pick count of bot2.0.py. *)
Definition pick_next_batch
    (guild : Guild) (role_a role_b : Z) (api : Api) (now_ts : Z)
    (data : Data) (rng : RNG) : list Z * Data * RNG :=
  let y := effective_picks data in
  let a_ids_now := eligible_members_with_role_a guild role_a in
  let '(selected_ids, cycle, rng) :=
    select_ids shuffle y a_ids_now (current_cycle data) rng in
  let data := set_current_cycle data cycle in
  let selected_members := filter (fun uid => uid ∈ a_ids_now) selected_ids in
  let data := set_stats data (open_holds api now_ts selected_members
                                          (stats data)) in
  let data := set_current_holders data selected_members in
  (selected_members, data, rng).

(** [run_rotation] of bot2.0.py. *)
Definition run_rotation (w : World) (data : Data) (rng : RNG)
  : list Z * option run_error * Data * RNG :=
  match w_role_a w, w_role_b w with
  | Some role_a, Some role_b =>
      let '(data, _) :=
        remove_role_b_from_current_holders
          (w_guild w) role_b (w_api w) (w_now_remove w) data in
      let '(selected, data, rng) :=
        pick_next_batch (w_guild w) role_a role_b (w_api w)
                        (w_now_pick w) data rng in
      (selected, None, data, rng)
  | _, _ => ([], Some missing_roles, data, rng)
  end.

(** What [scheduler_loop] does for one guild when a run is due: under the
    lock it removes and picks when both roles resolve; then, outside the
    lock, it reports missing roles and goes to the next guild, or else
    removes and picks again and announces that second batch.  [w1] and
    [w2] are the world at the first and at the second rotation. *)
Definition scheduled_run (w1 w2 : World) (data : Data) (rng : RNG)
  : run_reply * Data * RNG :=
  match w_role_a w1, w_role_b w1 with
  | Some role_a, Some role_b =>
      let '(data, _) :=
        remove_role_b_from_current_holders
          (w_guild w1) role_b (w_api w1) (w_now_remove w1) data in
      let '(_, data, rng) :=
        pick_next_batch (w_guild w1) role_a role_b (w_api w1)
                        (w_now_pick w1) data rng in
      let '(data, _) :=
        remove_role_b_from_current_holders
          (w_guild w2) role_b (w_api w2) (w_now_remove w2) data in
      let '(selected, data, rng) :=
        pick_next_batch (w_guild w2) role_a role_b (w_api w2)
                        (w_now_pick w2) data rng in
      match selected with
      | [] => (reply_run_none, data, rng)
      | _ => (reply_run_done selected, data, rng)
      end
  | _, _ => (reply_error missing_roles, data, rng)
  end.

End WithRandom.

End Bot20.

(** ** The commands of bot3.0.py *)

Module Commands30.
Import PyDatetime Discord Bot30.

(** [data["permissions"]]. *)
Record Permissions : Set := mkPermissions {
  users : list Z;
  roles : list Z
}.

(** The member who issues a command. *)
Record Caller : Set := mkCaller {
  c_id : Z;
  c_administrator : bool;
  c_roles : list Z
}.

Definition is_admin_or_permitted (perm : Permissions) (member : Caller)
  : bool :=
  if c_administrator member then true
  else if bool_decide (c_id member ∈ users perm) then true
  else existsb (fun r => bool_decide (r ∈ roles perm)) (c_roles member).

(** [arr.remove(x)]: the first occurrence goes ([x] is in [arr] where the
    commands call it). *)
Fixpoint list_remove_first (x : Z) (arr : list Z) : list Z :=
  match arr with
  | [] => []
  | y :: arr' => if bool_decide (y = x) then arr'
                 else y :: list_remove_first x arr'
  end.

Definition add_if_absent (x : Z) (arr : list Z) : list Z :=
  if bool_decide (x ∈ arr) then arr else arr ++ [x].

Definition remove_if_present (x : Z) (arr : list Z) : list Z :=
  if bool_decide (x ∈ arr) then list_remove_first x arr else arr.

Definition perm_add_user (caller : Caller) (user : Z) (perm : Permissions)
  : Permissions :=
  if negb (is_admin_or_permitted perm caller) then perm
  else mkPermissions (add_if_absent user (users perm)) (roles perm).

Definition perm_remove_user (caller : Caller) (user : Z) (perm : Permissions)
  : Permissions :=
  if negb (is_admin_or_permitted perm caller) then perm
  else mkPermissions (remove_if_present user (users perm)) (roles perm).

Definition perm_add_role (caller : Caller) (role : Z) (perm : Permissions)
  : Permissions :=
  if negb (is_admin_or_permitted perm caller) then perm
  else mkPermissions (users perm) (add_if_absent role (roles perm)).

Definition perm_remove_role (caller : Caller) (role : Z) (perm : Permissions)
  : Permissions :=
  if negb (is_admin_or_permitted perm caller) then perm
  else mkPermissions (users perm) (remove_if_present role (roles perm)).

(** The groups [/status] and [/schedule show] list as upcoming:
    [chunked(queue[index:] if index < len(queue) else [], y)] with the
    configured [y] as it is. *)
Definition upcoming_groups (data : Data) : outcome (list (list Z)) :=
  let y := default DEFAULT_PICKS_Y (picks_y data) in
  let queue := queue (current_cycle data) in
  let index := index (current_cycle data) in
  let upcoming_ids :=
    if index <? len queue then slice_from queue index else [] in
  chunked upcoming_ids y.

Definition set_schedule (d : Data) (s : Schedule) : Data :=
  mkData (picks_y d) s (current_holders d) (stats d)
         (current_cycle d) (next_run_ts d).

(** [/schedule stop]. *)
Definition schedule_stop (data : Data) : Data :=
  let s := schedule data in
  let s := mkSchedule (Some false) (s_type s) (s_n_days s) (s_weekday s)
                      (s_dom s) (s_time s) in
  set_next_run_ts (set_schedule data s) None.

(** [x or 3] for an optional integer. *)
Definition or_3 (x : option Z) : Z :=
  match x with
  | Some v => if v =? 0 then 3 else v
  | None => 3
  end.

(** The schedule [/schedule set] writes before it reschedules; [time] is
    what [parse_hhmm] makes of the text given. *)
Definition schedule_set_fields (kind : string) (time : Z * Z)
    (n_days weekday day_of_month : option Z) (s : Schedule) : Schedule :=
  let s := mkSchedule (Some true) (Some kind) (s_n_days s) (s_weekday s)
                      (s_dom s) time in
  if String.eqb kind "every_n_days" then
    mkSchedule (s_enabled s) (s_type s) (Some (or_3 n_days)) (s_weekday s)
               (s_dom s) (s_time s)
  else if String.eqb kind "weekly" then
    mkSchedule (s_enabled s) (s_type s) (s_n_days s)
               (Some (default 0 weekday)) (s_dom s) (s_time s)
  else if String.eqb kind "monthly" then
    mkSchedule (s_enabled s) (s_type s) (s_n_days s) (s_weekday s)
               (Some (default 1 day_of_month)) (s_time s)
  else s.

(** [/schedule set]: the data as the command leaves it, and the exception
    that ends it when [save_and_reschedule] raises (the schedule is then
    written, the next run is not). *)
Definition schedule_set (now : datetime) (kind : string) (time : Z * Z)
    (n_days weekday day_of_month : option Z) (data : Data)
  : Data * option exn :=
  let data :=
    set_schedule data
      (schedule_set_fields kind time n_days weekday day_of_month
                           (schedule data)) in
  match save_and_reschedule now data with
  | Ret data' => (data', None)
  | Raise e => (data, Some e)
  | Fuel => (data, None)
  end.

Section WithRandom.
Context {RNG : Type}.
Context (shuffle : RNG -> list Z -> list Z * RNG).

(** The rotations of a due run, guild by guild. *)
Definition run_guilds (ws : list World) (data : Data) (rng : RNG)
  : Data * RNG :=
  foldl (fun '(data, rng) w =>
           let '(_, _, data, rng) := run_rotation shuffle w data rng in
           (data, rng))
        (data, rng) ws.

(** One turn of the [while] loop of [scheduler_loop]: the seconds it sleeps
    before the next turn (0 when it goes on at once), the data and the
    generator.  [now] is the clock the turn reads, [now_dt] the clock
    [save_and_reschedule] reads, [ws] the guilds the run applies to. *)
Definition scheduler_turn (now : Z) (now_dt : datetime) (ws : list World)
    (data : Data) (rng : RNG) : Z * Data * RNG :=
  if negb (default false (s_enabled (schedule data))) then (10, data, rng)
  else
    match next_run_ts data with
    | None =>
        match save_and_reschedule now_dt data with
        | Ret data' => (5, data', rng)
        | _ => (10, data, rng)
        end
    | Some next_ts =>
        if next_ts <=? now then
          let '(data, rng) := run_guilds ws data rng in
          match save_and_reschedule now_dt data with
          | Ret data' => (0, data', rng)
          | _ => (10, data, rng)
          end
        else (Z.min 30 (Z.max 5 (next_ts - now)), data, rng)
    end.

End WithRandom.

End Commands30.

(** ** The commands of bot3.1.py *)

Module Commands31.
Import PyDatetime Discord Bot31.

(** The permission sets of [GuildState]. *)
Record Permissions : Type := mkPermissions {
  allowed_user_ids : gset Z;
  allowed_role_ids : gset Z
}.

Record Caller : Set := mkCaller {
  c_id : Z;
  c_administrator : bool;
  c_roles : list Z
}.

Definition is_admin_or_permitted (perm : Permissions) (user : Caller)
  : bool :=
  if c_administrator user then true
  else if bool_decide (c_id user ∈ allowed_user_ids perm) then true
  else bool_decide (allowed_role_ids perm ∩ list_to_set (c_roles user) ≠ ∅).

Definition perm_add_user (caller : Caller) (user : Z) (perm : Permissions)
  : Permissions :=
  if negb (is_admin_or_permitted perm caller) then perm
  else mkPermissions ({[user]} ∪ allowed_user_ids perm)
                     (allowed_role_ids perm).

Definition perm_remove_user (caller : Caller) (user : Z) (perm : Permissions)
  : Permissions :=
  if negb (is_admin_or_permitted perm caller) then perm
  else mkPermissions (allowed_user_ids perm ∖ {[user]})
                     (allowed_role_ids perm).

Definition perm_add_role (caller : Caller) (role : Z) (perm : Permissions)
  : Permissions :=
  if negb (is_admin_or_permitted perm caller) then perm
  else mkPermissions (allowed_user_ids perm)
                     ({[role]} ∪ allowed_role_ids perm).

Definition perm_remove_role (caller : Caller) (role : Z) (perm : Permissions)
  : Permissions :=
  if negb (is_admin_or_permitted perm caller) then perm
  else mkPermissions (allowed_user_ids perm)
                     (allowed_role_ids perm ∖ {[role]}).

Definition set_schedule (cfg : GuildConfig) (s : ScheduleConfig)
  : GuildConfig :=
  mkGuildConfig (role_a_id cfg) (role_b_id cfg) (picks_number cfg)
                (announcement_channel_id cfg) s.

(** [max(0, min(hi, x))] when a value is given. *)
Definition clamp_to (hi : Z) (old : Z) (x : option Z) : Z :=
  match x with
  | Some v => Z.max 0 (Z.min hi v)
  | None => old
  end.

(** [/schedule preset], for a caller who is admitted. *)
Definition sched_preset (preset : string) (hour minute : option Z)
    (cfg : GuildConfig) : GuildConfig :=
  let s := schedule cfg in
  set_schedule cfg
    (mkScheduleConfig "preset" preset (sc_every_days s)
                      (clamp_to 23 (sc_hour s) hour)
                      (clamp_to 59 (sc_minute s) minute)).

(** [/schedule every-days], for a caller who is admitted. *)
Definition sched_every_days (days : Z) (hour minute : option Z)
    (cfg : GuildConfig) : GuildConfig :=
  let s := schedule cfg in
  set_schedule cfg
    (mkScheduleConfig "every_days" (sc_preset s) days
                      (clamp_to 23 (sc_hour s) hour)
                      (clamp_to 59 (sc_minute s) minute)).

(** The groups [/status] previews: [chunked(pool, y)] with
    [y = max(1, picks_number)]. *)
Definition status_groups (cfg : GuildConfig) (st : GuildState)
  : outcome (list (list Z)) :=
  chunked (current_cycle_pool st) (effective_picks cfg).

End Commands31.

(** ** Coroutines *)

Module Asyncio.

(** Under asyncio a coroutine runs without interruption until it awaits, and
    other tasks run only then.  A task is what is left of a coroutine: its
    code up to the next await, as a function on the shared state that gives
    the new state and the rest of the task; the local variables of the
    coroutine live in the closure.  [async with lock:] is [Acquire] where
    it is entered and [Release] where it is left. *)
#[local] Unset Elimination Schemes.
Inductive task (S : Type) : Type :=
| Done
| Run (f : S -> S * task S)
| Acquire (k : task S)
| Release (k : task S).
#[local] Set Elimination Schemes.

Arguments Done {S}.
Arguments Run {S} f.
Arguments Acquire {S} k.
Arguments Release {S} k.

(** The event loop: the state the tasks share, whether the lock is taken,
    and the tasks. *)
Record loop (S : Type) : Type := mkLoop {
  shared : S;
  locked : bool;
  tasks : list (task S)
}.

Arguments mkLoop {S} shared locked tasks.
Arguments shared {S} l.
Arguments locked {S} l.
Arguments tasks {S} l.

(** The loop resumes task [i], which runs up to its next await.  [None]
    when the loop cannot resume it: the task has ended, or it waits for a
    lock that is taken. *)
Definition resume {S} (i : nat) (l : loop S) : option (loop S) :=
  match tasks l !! i with
  | Some (Run f) =>
      let '(s, k) := f (shared l) in
      Some (mkLoop s (locked l) (<[i := k]> (tasks l)))
  | Some (Acquire k) =>
      if locked l then None
      else Some (mkLoop (shared l) true (<[i := k]> (tasks l)))
  | Some (Release k) =>
      Some (mkLoop (shared l) false (<[i := k]> (tasks l)))
  | _ => None
  end.

(** The tasks resumed in the order [sched]. *)
Fixpoint run_schedule {S} (sched : list nat) (l : loop S)
  : option (loop S) :=
  match sched with
  | [] => Some l
  | i :: sched =>
      match resume i l with
      | Some l => run_schedule sched l
      | None => None
      end
  end.

(** A task that has the loop for itself, for at most [n] resumptions. *)
Fixpoint run_alone {S} (n : nat) (t : task S) (s : S) : option S :=
  match n with
  | O => match t with Done => Some s | _ => None end
  | S n =>
      match t with
      | Done => Some s
      | Run f => let '(s, k) := f s in run_alone n k s
      | Acquire k | Release k => run_alone n k s
      end
  end.

Definition ended {S} (t : task S) : bool :=
  match t with Done => true | _ => false end.

End Asyncio.

(** ** The runs of bot2.0.py as tasks *)

Module Tasks20.
Import Discord Bot30 Asyncio.

Section WithRandom.
Context {RNG : Type}.
Context (shuffle : RNG -> list Z -> list Z * RNG).

(** [pick_next_batch] up to its first await: the selection, with the cycle
    stored. *)
Definition pick_selection (guild : Guild) (role_a : Z) (data : Data)
    (rng : RNG) : list Z * Data * RNG :=
  let y := Bot20.effective_picks data in
  let a_ids_now := eligible_members_with_role_a guild role_a in
  let '(selected_ids, cycle, rng) :=
    select_ids shuffle y a_ids_now (current_cycle data) rng in
  let data := set_current_cycle data cycle in
  (filter (fun uid => uid ∈ a_ids_now) selected_ids, data, rng).

(** [pick_next_batch] from its first [await m.add_roles(..)] on: the
    intervals opened and, last, the holders recorded, on the data as they
    are by then. *)
Definition pick_grants (api : Api) (now_ts : Z) (selected_members : list Z)
    (data : Data) : Data :=
  let data := set_stats data (open_holds api now_ts selected_members
                                          (stats data)) in
  set_current_holders data selected_members.

(** [remove_role_b_from_current_holders] and [pick_next_batch] in a row,
    cut at the first [add_roles] of the pick (with nobody selected the pick
    records the holders without an await before).  The awaits of the
    removal, and those of the pick after the first, are passed without
    another task being resumed. *)
Definition rotation (w : World) (role_a role_b : Z)
    (k : task (Data * RNG)) : task (Data * RNG) :=
  Run (fun '(data, rng) =>
         let '(data, _) :=
           Bot20.remove_role_b_from_current_holders
             (w_guild w) role_b (w_api w) (w_now_remove w) data in
         let '(selected, data, rng) :=
           pick_selection (w_guild w) role_a data rng in
         match selected with
         | [] => ((pick_grants (w_api w) (w_now_pick w) selected data, rng),
                  k)
         | _ =>
             ((data, rng),
              Run (fun '(data, rng) =>
                     ((pick_grants (w_api w) (w_now_pick w) selected data,
                       rng), k)))
         end).

(** [cmd_run], from its [async with lock:] on. *)
Definition cmd_run (w : World) : task (Data * RNG) :=
  Acquire (match w_role_a w, w_role_b w with
           | Some role_a, Some role_b =>
               rotation w role_a role_b (Release Done)
           | _, _ => Release Done
           end).

(** [scheduler_loop] for one guild when a run is due: a rotation inside
    [async with lock:] and, after the lock is released, one more. *)
Definition scheduler_loop (w1 w2 : World) : task (Data * RNG) :=
  match w_role_a w1, w_role_b w1 with
  | Some role_a, Some role_b =>
      Acquire (rotation w1 role_a role_b
                 (Release (rotation w2 role_a role_b Done)))
  | _, _ => Acquire (Release Done)
  end.

End WithRandom.

End Tasks20.

(** ** The runs of bot3.1.py as tasks *)

Module Tasks31.
Import Discord Bot31 Asyncio.

(** What [member.add_roles(role)] and [member.remove_roles(role)] do to
    the guild. *)
Definition add_roles (role uid : Z) (g : Guild) : Guild :=
  (fun m => if bool_decide (m_id m = uid)
            then mkMember (m_id m) (m_bot m) (m_roles m ++ [role])
            else m) <$> g.

Definition remove_roles (role uid : Z) (g : Guild) : Guild :=
  (fun m => if bool_decide (m_id m = uid)
            then mkMember (m_id m) (m_bot m)
                          (filter (fun r => r <> role) (m_roles m))
            else m) <$> g.

(** The world of a run on the guild as it is. *)
Definition seen (w : World) (g : Guild) : World :=
  mkWorld g (w_roles w) (w_channel w) (w_add_ok w) (w_remove_ok w)
          (w_now_ts w).

Section WithRandom.
Context {RNG : Type}.
Context (shuffle : RNG -> list Z -> list Z * RNG).

(** The "assign role B" loop of [perform_run], on the guild and the state
    as they are when it starts. *)
Definition grants (w : World) (role_b : Z) (picks : list Z)
    (s : Guild * GuildState * RNG) : Guild * GuildState * RNG :=
  let '(g, st, rng) := s in
  let now_ts := w_now_ts w in
  let '(stats2, assigned_mentions) :=
    foldl (fun '(s, assigned_mentions) uid =>
             match get_member g uid with
             | None => (s, assigned_mentions)
             | Some member =>
                 if w_add_ok w (m_id member)
                 then (open_stats now_ts (m_id member) s,
                       assigned_mentions ++ [m_id member])
                 else (s, assigned_mentions)
             end)
          (stats st, []) picks in
  (foldl (fun g uid => add_roles role_b uid g) g assigned_mentions,
   mkGuildState (current_cycle_pool st) stats2, rng).

(** [perform_run], cut at its first [add_roles] (when no pick is a member
    of the guild there is none, and nothing is changed after the
    selection).  The awaits of the removal loop, and those after the first
    [add_roles], are passed without another task being resumed.  [w] gives
    the roles, the channel, the outcome of the calls and the clock; the
    members are those of the guild as it is when the run starts. *)
Definition perform_run (w : World) (cfg : GuildConfig)
  : task (Guild * GuildState * RNG) :=
  Run (fun '(g, st, rng) =>
         let w := seen w g in
         match get_role w (role_a_id cfg), get_role w (role_b_id cfg) with
         | Some role_a, Some role_b =>
             let members_with_a :=
               filter (fun m => Is_true (has_role role_a m && negb (m_bot m)))
                      (w_members w) in
             let prev_b_holders :=
               filter (fun m => Is_true (has_role role_b m)) (w_members w) in
             let now_ts := w_now_ts w in
             let '(stats1, removed_mentions) :=
               foldl (fun '(s, removed_mentions) m =>
                        let s := finalize_stats now_ts (m_id m) s in
                        if w_remove_ok w (m_id m)
                        then (s, removed_mentions ++ [m_id m])
                        else (s, removed_mentions))
                     (stats st, []) prev_b_holders in
             let y := effective_picks cfg in
             let '(picks, pool, rng) :=
               select_picks shuffle y (m_id <$> members_with_a)
                            (current_cycle_pool st) rng in
             let g :=
               foldl (fun g uid => remove_roles role_b uid g) g
                     removed_mentions in
             let s := (g, mkGuildState pool stats1, rng) in
             if forallb (fun uid => bool_decide (get_member g uid = None))
                        picks
             then (grants w role_b picks s, Done)
             else (s, Run (fun s => (grants w role_b picks s, Done)))
         | _, _ => ((g, st, rng), Done)
         end).

End WithRandom.

End Tasks31.

(** * Properties *)

Import PyDatetime Discord.

(** ** Slices with bounds that are not negative *)

Lemma py_bound_nonneg (n : nat) (i : Z) :
  0 <= i -> py_bound n i = Nat.min (Z.to_nat i) n.
Proof.
  intros Hi. unfold py_bound.
  destruct (Z.ltb_spec i 0); [lia|]. lia.
Qed.

Lemma slice_to_nonneg {A} (l : list A) (j : Z) :
  0 <= j -> slice_to l j = take (Z.to_nat j) l.
Proof.
  intros Hj. unfold slice_to. rewrite py_bound_nonneg by done.
  destruct (Nat.le_gt_cases (Z.to_nat j) (length l)).
  - by rewrite Nat.min_l.
  - rewrite Nat.min_r by lia. rewrite !take_ge; [done | lia | lia].
Qed.

Lemma slice_from_nonneg {A} (l : list A) (i : Z) :
  0 <= i -> slice_from l i = drop (Z.to_nat i) l.
Proof.
  intros Hi. unfold slice_from. rewrite py_bound_nonneg by done.
  destruct (Nat.le_gt_cases (Z.to_nat i) (length l)).
  - by rewrite Nat.min_l.
  - rewrite Nat.min_r by lia. rewrite !drop_ge; [done | lia | lia].
Qed.

Lemma slice_from_0 {A} (l : list A) : slice_from l 0 = l.
Proof. by rewrite slice_from_nonneg. Qed.

Lemma slice_0_nonneg {A} (l : list A) (j : Z) :
  0 <= j -> slice l 0 j = take (Z.to_nat j) l.
Proof.
  intros Hj. unfold slice. rewrite (py_bound_nonneg _ 0) by done.
  simpl. fold (slice_to l j). by apply slice_to_nonneg.
Qed.

Lemma len_nonneg {A} (l : list A) : 0 <= len l.
Proof. unfold len. lia. Qed.

Lemma len_nil_iff {A} (l : list A) : len l = 0 <-> l = [].
Proof. unfold len. destruct l; simpl; split; (done || lia). Qed.

Lemma filter_all {A} (P : A -> Prop) `{!forall x, Decision (P x)}
    (l : list A) :
  Forall P l -> filter P l = l.
Proof.
  induction 1 as [|x l Hx _ IH]; [done|].
  rewrite filter_cons_True by done. by rewrite IH.
Qed.

(** ** The selection of bot3.0.py, case by case *)

Section Selection30.
Context {RNG : Type} (shuffle : RNG -> list Z -> list Z * RNG).

(** The members of the stored cycle that are still to be visited and still
    in the pool: [leftovers] in [pick_next_batch]. *)
Definition leftovers30 (a_ids : list Z) (cycle : Bot30.Cycle) : list Z :=
  (Bot30.repair_cycle_with_current_a
     (Bot30.queue cycle) (Bot30.index cycle) a_ids).1.

Lemma leftovers30_in_pool a_ids cycle :
  Forall (fun uid => uid ∈ a_ids) (leftovers30 a_ids cycle).
Proof.
  unfold leftovers30, Bot30.repair_cycle_with_current_a. simpl.
  apply Forall_forall. intros x Hx. by apply list_elem_of_filter in Hx as [? _].
Qed.

Lemma leftovers30_after_full a_ids r y :
  0 <= y -> Forall (fun uid => uid ∈ a_ids) r ->
  leftovers30 a_ids (Bot30.mkCycle r y) = drop (Z.to_nat y) r.
Proof.
  intros Hy Hr. unfold leftovers30, Bot30.repair_cycle_with_current_a. simpl.
  rewrite slice_from_nonneg by done. apply filter_all.
  apply Forall_forall. intros x Hx.
  rewrite Forall_forall in Hr. apply Hr. by eapply subseteq_drop.
Qed.

Lemma select_ids_carry_full y a_ids cycle rng :
  1 <= y -> leftovers30 a_ids cycle <> [] ->
  y <= len (leftovers30 a_ids cycle) ->
  Bot30.select_ids shuffle y a_ids cycle rng
  = (take (Z.to_nat y) (leftovers30 a_ids cycle),
     Bot30.mkCycle (leftovers30 a_ids cycle) y, rng).
Proof.
  intros Hy Hne Hlen. unfold Bot30.select_ids, leftovers30 in *.
  destruct (Bot30.repair_cycle_with_current_a _ _ _) as [r i0]. simpl in *.
  destruct r as [|x r']; [done|].
  replace (len (x :: r') - 0) with (len (x :: r')) by lia.
  destruct (Z.leb_spec y (len (x :: r'))); [|lia].
  simpl. by rewrite slice_0_nonneg by lia.
Qed.

Lemma select_ids_carry_topup y a_ids cycle rng :
  leftovers30 a_ids cycle <> [] ->
  len (leftovers30 a_ids cycle) < y ->
  Bot30.select_ids shuffle y a_ids cycle rng
  = (leftovers30 a_ids cycle
       ++ take (Z.to_nat (y - len (leftovers30 a_ids cycle)))
               (shuffle rng a_ids).1,
     Bot30.mkCycle
       (drop (Z.to_nat (y - len (leftovers30 a_ids cycle)))
             (shuffle rng a_ids).1) 0,
     (shuffle rng a_ids).2).
Proof.
  intros Hne Hlen. unfold Bot30.select_ids, leftovers30 in *.
  destruct (Bot30.repair_cycle_with_current_a _ _ _) as [r i0]. simpl in *.
  destruct r as [|x r']; [done|].
  replace (len (x :: r') - 0) with (len (x :: r')) by lia.
  destruct (Z.leb_spec y (len (x :: r'))); [lia|].
  unfold Bot30.shuffle_cycle_queue.
  destruct (shuffle rng a_ids) as [pi g]. simpl.
  rewrite slice_from_0.
  rewrite slice_to_nonneg, slice_from_nonneg by lia. done.
Qed.

Lemma select_ids_fresh_full y a_ids cycle rng :
  1 <= y -> leftovers30 a_ids cycle = [] ->
  y <= len (shuffle rng a_ids).1 ->
  Bot30.select_ids shuffle y a_ids cycle rng
  = (take (Z.to_nat y) (shuffle rng a_ids).1,
     Bot30.mkCycle (shuffle rng a_ids).1 y, (shuffle rng a_ids).2).
Proof.
  intros Hy He Hlen. unfold Bot30.select_ids, leftovers30 in *.
  destruct (Bot30.repair_cycle_with_current_a _ _ _) as [r i0]. simpl in *.
  subst r. unfold Bot30.shuffle_cycle_queue.
  destruct (shuffle rng a_ids) as [pi g]. simpl in *.
  replace (len pi - 0) with (len pi) by lia.
  destruct (Z.leb_spec y (len pi)); [|lia].
  simpl. by rewrite slice_0_nonneg by lia.
Qed.

Lemma select_ids_fresh_topup y a_ids cycle rng :
  leftovers30 a_ids cycle = [] ->
  len (shuffle rng a_ids).1 < y ->
  let pi := (shuffle rng a_ids).1 in
  let g := (shuffle rng a_ids).2 in
  Bot30.select_ids shuffle y a_ids cycle rng
  = (pi ++ take (Z.to_nat (y - len pi)) (shuffle g a_ids).1,
     Bot30.mkCycle (drop (Z.to_nat (y - len pi)) (shuffle g a_ids).1) 0,
     (shuffle g a_ids).2).
Proof.
  intros He Hlen. unfold Bot30.select_ids, leftovers30 in *.
  destruct (Bot30.repair_cycle_with_current_a _ _ _) as [r i0]. simpl in *.
  subst r. unfold Bot30.shuffle_cycle_queue.
  destruct (shuffle rng a_ids) as [pi g]. simpl in *.
  replace (len pi - 0) with (len pi) by lia.
  destruct (Z.leb_spec y (len pi)); [lia|].
  destruct (shuffle g a_ids) as [pi' g']. simpl.
  rewrite slice_from_0.
  rewrite slice_to_nonneg, slice_from_nonneg by lia. done.
Qed.

End Selection30.

(** ** Runs of bot3.0.py *)

Section Runs30.
Context {RNG : Type} (shuffle : RNG -> list Z -> list Z * RNG).
Hypothesis shuffle_perm : forall g l, (shuffle g l).1 ≡ₚ l.

(** Role A and role B exist in the world [w] and [pool] is what
    [eligible_members_with_role_a] returns there. *)
Definition sees_pool30 (pool : list Z) (w : Bot30.World) : Prop :=
  exists role_a role_b,
    Bot30.w_role_a w = Some role_a /\ Bot30.w_role_b w = Some role_b /\
    Bot30.eligible_members_with_role_a (Bot30.w_guild w) role_a = pool.

Lemma effective_picks30_ge_1 data : 1 <= Bot30.effective_picks data.
Proof.
  unfold Bot30.effective_picks.
  destruct (Z.ltb_spec (default Bot30.DEFAULT_PICKS_Y (Bot30.picks_y data)) 1);
    lia.
Qed.

Lemma remove_role_b_keeps_cycle guild role_b api now data :
  let data' := (Bot30.remove_role_b_from_current_holders
                  guild role_b api now data).1 in
  Bot30.current_cycle data' = Bot30.current_cycle data
  /\ Bot30.picks_y data' = Bot30.picks_y data.
Proof.
  unfold Bot30.remove_role_b_from_current_holders.
  by destruct (Bot30.current_holders data).
Qed.

(** One run, read off the selection. *)
Lemma run_rotation_selection pool w data rng :
  sees_pool30 pool w ->
  let y := Bot30.effective_picks data in
  let sel := Bot30.select_ids shuffle y pool (Bot30.current_cycle data) rng in
  exists data',
    Bot30.run_rotation shuffle w data rng
    = (filter (fun uid => uid ∈ pool) sel.1.1, None, data', sel.2)
    /\ Bot30.current_holders data' = filter (fun uid => uid ∈ pool) sel.1.1
    /\ Bot30.current_cycle data' = sel.1.2
    /\ Bot30.picks_y data' = Bot30.picks_y data.
Proof.
  intros (role_a & role_b & Ha & Hb & Hpool). simpl.
  unfold Bot30.run_rotation. rewrite Ha, Hb.
  pose proof (remove_role_b_keeps_cycle (Bot30.w_guild w) role_b
                (Bot30.w_api w) (Bot30.w_now_remove w) data) as [Hc Hp].
  destruct (Bot30.remove_role_b_from_current_holders _ _ _ _ _)
    as [data1 revoked]. simpl in Hc, Hp.
  unfold Bot30.pick_next_batch. rewrite Hpool.
  replace (Bot30.effective_picks data1) with (Bot30.effective_picks data)
    by (unfold Bot30.effective_picks; by rewrite Hp).
  rewrite Hc.
  destruct (Bot30.select_ids _ _ _ _ _) as [[ids cyc] g]. simpl.
  eexists. split; [reflexivity|]. simpl. by rewrite Hp.
Qed.

Lemma shuffle_in_pool g pool :
  Forall (fun uid => uid ∈ pool) (shuffle g pool).1.
Proof.
  apply Forall_forall. intros x Hx. by rewrite shuffle_perm in Hx.
Qed.

Lemma shuffle_len g pool : len (shuffle g pool).1 = len pool.
Proof. unfold len. by rewrite shuffle_perm. Qed.

(** From the middle of a cycle: the runs that exhaust the carried members
    [r] grant them first, in their order. *)
Lemma rotations_carry pool ws : forall data rng,
  Forall (sees_pool30 pool) ws ->
  let y := Bot30.effective_picks data in
  let r := leftovers30 pool (Bot30.current_cycle data) in
  (Z.of_nat (length ws) - 1) * y < len r <= Z.of_nat (length ws) * y ->
  exists rest, concat (Bot30.rotations shuffle ws data rng).1.1 = r ++ rest.
Proof.
  induction ws as [|w ws IH]; intros data rng Hws; simpl; intros Hn.
  - exists []. simpl.
    assert (len (leftovers30 pool (Bot30.current_cycle data)) = 0) as He
      by (pose proof (len_nonneg (leftovers30 pool (Bot30.current_cycle data)));
          lia).
    apply len_nil_iff in He. by rewrite He.
  - apply Forall_cons in Hws as [Hw Hws].
    pose proof (effective_picks30_ge_1 data) as Hy.
    destruct (run_rotation_selection pool w data rng Hw)
      as (data' & Hrun & Hh & Hc & Hp).
    rewrite Hrun. rewrite Hh.
    assert (Bot30.effective_picks data' = Bot30.effective_picks data) as Hy'
      by (unfold Bot30.effective_picks; by rewrite Hp).
    specialize (IH data' (Bot30.select_ids shuffle (Bot30.effective_picks data)
                            pool (Bot30.current_cycle data) rng).2 Hws).
    simpl in IH. rewrite Hy', Hc in IH.
    set (r := leftovers30 pool (Bot30.current_cycle data)) in *.
    set (y := Bot30.effective_picks data) in *.
    assert (r <> []) as Hne.
    { intros He. rewrite He in Hn. unfold len in Hn. simpl in Hn. nia. }
    pose proof (leftovers30_in_pool pool (Bot30.current_cycle data)) as Hin.
    fold r in Hin.
    destruct (Z.le_gt_cases y (len r)) as [Hfull | Htop].
    + rewrite (select_ids_carry_full shuffle y pool _ rng Hy Hne Hfull) in *.
      simpl in *. fold r in IH |- *.
      rewrite leftovers30_after_full in IH by (done || lia).
      destruct IH as [rest Hrest].
      { unfold len in *. rewrite length_drop. lia. }
      destruct (Bot30.rotations shuffle ws data' rng) as [[hs d2] g2].
      simpl in *. exists rest. rewrite Hrest.
      rewrite filter_all.
      * by rewrite app_assoc, take_drop.
      * apply Forall_forall. intros x Hx. rewrite Forall_forall in Hin.
        apply Hin. by eapply subseteq_take.
    + rewrite (select_ids_carry_topup shuffle y pool _ rng Hne Htop) in *.
      simpl in *. fold r in IH |- *.
      destruct (Bot30.rotations shuffle ws data' _) as [[hs d2] g2].
      simpl. rewrite filter_app, (filter_all _ r) by done.
      eexists. by rewrite <- app_assoc.
Qed.

(** From the start of a cycle: the runs of one full pass grant the fresh
    permutation first, in its order. *)
Lemma rotations_fresh pool ws data rng :
  Forall (sees_pool30 pool) ws ->
  let y := Bot30.effective_picks data in
  leftovers30 pool (Bot30.current_cycle data) = [] ->
  y <= len pool ->
  (Z.of_nat (length ws) - 1) * y < len pool <= Z.of_nat (length ws) * y ->
  exists rest,
    concat (Bot30.rotations shuffle ws data rng).1.1
    = (shuffle rng pool).1 ++ rest.
Proof.
  simpl. intros Hws Hfresh HyP Hn.
  pose proof (effective_picks30_ge_1 data) as Hy.
  destruct ws as [|w ws]; [simpl in Hn; lia|].
  apply Forall_cons in Hws as [Hw Hws]. simpl.
  destruct (run_rotation_selection pool w data rng Hw)
    as (data' & Hrun & Hh & Hc & Hp).
  rewrite Hrun.
  assert (Bot30.effective_picks data' = Bot30.effective_picks data) as Hy'
    by (unfold Bot30.effective_picks; by rewrite Hp).
  pose proof (rotations_carry pool ws data'
                (Bot30.select_ids shuffle (Bot30.effective_picks data) pool
                   (Bot30.current_cycle data) rng).2 Hws) as Hcarry.
  simpl in Hcarry. rewrite Hy', Hc in Hcarry.
  set (y := Bot30.effective_picks data) in *.
  rewrite (select_ids_fresh_full shuffle y pool _ rng Hy Hfresh) in *
    by (rewrite shuffle_len; lia).
  simpl in *.
  rewrite leftovers30_after_full in Hcarry
    by (lia || apply shuffle_in_pool).
  destruct Hcarry as [rest Hrest].
  { pose proof (shuffle_len rng pool) as Hl.
    unfold len in *. rewrite length_drop. lia. }
  destruct (Bot30.rotations shuffle ws data' _) as [[hs d2] g2].
  simpl in *. exists rest. rewrite Hh, Hrest, filter_all.
  - by rewrite app_assoc, take_drop.
  - apply Forall_forall. intros x Hx.
    pose proof (shuffle_in_pool rng pool) as Hin.
    rewrite Forall_forall in Hin. apply Hin. by eapply subseteq_take.
Qed.

End Runs30.

(** ** The selection of bot3.1.py, case by case *)

Section Selection31.
Context {RNG : Type} (shuffle : RNG -> list Z -> list Z * RNG).

(** The stored pool without the members that left role A. *)
Definition carried31 (a_ids pool0 : list Z) : list Z :=
  filter (fun uid => uid ∈ a_ids) pool0.

Lemma carried31_in_pool a_ids pool0 :
  Forall (fun uid => uid ∈ a_ids) (carried31 a_ids pool0).
Proof.
  apply Forall_forall. intros x Hx.
  by apply list_elem_of_filter in Hx as [? _].
Qed.

Lemma carried31_id a_ids r :
  Forall (fun uid => uid ∈ a_ids) r -> carried31 a_ids r = r.
Proof. apply filter_all. Qed.

Lemma len_take_le {A} (l : list A) (y : Z) :
  0 <= y <= len l -> len (take (Z.to_nat y) l) = y.
Proof. unfold len. intros. rewrite length_take. lia. Qed.

Lemma select_picks_carry_full y a_ids pool0 rng :
  1 <= y -> carried31 a_ids pool0 <> [] ->
  y <= len (carried31 a_ids pool0) ->
  Bot31.select_picks shuffle y a_ids pool0 rng
  = (take (Z.to_nat y) (carried31 a_ids pool0),
     drop (Z.to_nat y) (carried31 a_ids pool0), rng).
Proof.
  intros Hy Hne Hlen. unfold Bot31.select_picks, carried31 in *.
  destruct (filter _ pool0) as [|x r'] eqn:Hr; [done|].
  rewrite Z.min_l by done.
  rewrite slice_to_nonneg, slice_from_nonneg by lia.
  rewrite len_take_le by lia.
  by destruct (Z.ltb_spec 0 (y - y)); [lia|].
Qed.

Lemma select_picks_carry_topup y a_ids pool0 rng :
  carried31 a_ids pool0 <> [] ->
  len (carried31 a_ids pool0) < y ->
  let z := carried31 a_ids pool0 in
  let new_cycle := filter (fun uid => uid ∉ z) (shuffle rng a_ids).1 in
  let need := y - len z in
  Bot31.select_picks shuffle y a_ids pool0 rng
  = if need <=? len new_cycle
    then (z ++ take (Z.to_nat need) new_cycle,
          drop (Z.to_nat need) new_cycle, (shuffle rng a_ids).2)
    else (z ++ new_cycle, [], (shuffle rng a_ids).2).
Proof.
  intros Hne Hlen. unfold Bot31.select_picks, carried31 in *.
  destruct (filter _ pool0) as [|x r'] eqn:Hr; [done|].
  pose proof (len_nonneg (x :: r')).
  rewrite Z.min_r by lia.
  rewrite slice_to_nonneg, slice_from_nonneg by lia.
  replace (Z.to_nat (len (x :: r'))) with (length (x :: r'))
    by (unfold len; lia).
  rewrite firstn_all.
  destruct (Z.ltb_spec 0 (y - len (x :: r'))); [|lia].
  destruct (shuffle rng a_ids) as [pi g]. simpl.
  destruct (Z.leb_spec (y - len (x :: r'))
              (len (filter (fun uid => uid ∉ x :: r') pi))); [|done].
  by rewrite slice_to_nonneg, slice_from_nonneg by lia.
Qed.

Lemma select_picks_fresh_full y a_ids pool0 rng :
  1 <= y -> carried31 a_ids pool0 = [] ->
  y <= len (shuffle rng a_ids).1 ->
  Bot31.select_picks shuffle y a_ids pool0 rng
  = (take (Z.to_nat y) (shuffle rng a_ids).1,
     drop (Z.to_nat y) (shuffle rng a_ids).1, (shuffle rng a_ids).2).
Proof.
  intros Hy He Hlen. unfold Bot31.select_picks, carried31 in *.
  rewrite He. destruct (shuffle rng a_ids) as [pi g]. simpl in *.
  rewrite Z.min_l by done.
  rewrite slice_to_nonneg, slice_from_nonneg by lia.
  rewrite len_take_le by lia.
  by destruct (Z.ltb_spec 0 (y - y)); [lia|].
Qed.

Lemma select_picks_fresh_short y a_ids pool0 rng :
  carried31 a_ids pool0 = [] ->
  len (shuffle rng a_ids).1 < y ->
  let pi := (shuffle rng a_ids).1 in
  let g := (shuffle rng a_ids).2 in
  let new_cycle := filter (fun uid => uid ∉ pi) (shuffle g a_ids).1 in
  let need := y - len pi in
  Bot31.select_picks shuffle y a_ids pool0 rng
  = if need <=? len new_cycle
    then (pi ++ take (Z.to_nat need) new_cycle,
          drop (Z.to_nat need) new_cycle, (shuffle g a_ids).2)
    else (pi ++ new_cycle, [], (shuffle g a_ids).2).
Proof.
  intros He Hlen. unfold Bot31.select_picks, carried31 in *.
  rewrite He. destruct (shuffle rng a_ids) as [pi g]. simpl in *.
  pose proof (len_nonneg pi).
  rewrite Z.min_r by lia.
  rewrite slice_to_nonneg, slice_from_nonneg by lia.
  replace (Z.to_nat (len pi)) with (length pi) by (unfold len; lia).
  rewrite firstn_all.
  destruct (Z.ltb_spec 0 (y - len pi)); [|lia].
  destruct (shuffle g a_ids) as [pi' g']. simpl.
  destruct (Z.leb_spec (y - len pi)
              (len (filter (fun uid => uid ∉ pi) pi'))); [|done].
  by rewrite slice_to_nonneg, slice_from_nonneg by lia.
Qed.

End Selection31.

(** ** Runs of bot3.1.py *)

Section Runs31.
Context {RNG : Type} (shuffle : RNG -> list Z -> list Z * RNG).
Hypothesis shuffle_perm : forall g l, (shuffle g l).1 ≡ₚ l.

(** The ids of [members_with_a] in the world [w]. *)
Definition members_with_a_ids (cfg : Bot31.GuildConfig) (w : Bot31.World)
  : list Z :=
  m_id <$> filter (fun m => Is_true (has_role (Bot31.role_a_id cfg) m
                                     && negb (m_bot m)))
                  (Bot31.w_members w).

(** Both roles exist in the world [w] and [pool] is its [members_with_a]. *)
Definition sees_pool31 (pool : list Z) (cfg : Bot31.GuildConfig)
    (w : Bot31.World) : Prop :=
  Bot31.role_a_id cfg ∈ Bot31.w_roles w
  /\ Bot31.role_b_id cfg ∈ Bot31.w_roles w
  /\ members_with_a_ids cfg w = pool.

(** Every [add_roles] call for a member of the pool succeeds in [w]. *)
Definition grants_all31 (pool : list Z) (w : Bot31.World) : Prop :=
  forall uid, uid ∈ pool -> Bot31.w_add_ok w uid = true.

Lemma effective_picks31_ge_1 cfg : 1 <= Bot31.effective_picks cfg.
Proof. unfold Bot31.effective_picks. lia. Qed.

Lemma get_member_of_filtered (P : Member -> Prop)
    `{!forall m, Decision (P m)} (g : Guild) (uid : Z) :
  uid ∈ m_id <$> filter P g ->
  exists m, get_member g uid = Some m /\ m_id m = uid.
Proof.
  intros Hin. apply list_elem_of_fmap in Hin as (m & -> & Hm).
  apply list_elem_of_filter in Hm as [_ Hm].
  unfold get_member.
  destruct (find _ g) as [m'|] eqn:Hf.
  - exists m'. split; [done|].
    apply find_some in Hf as [_ Hb]. by apply bool_decide_eq_true in Hb.
  - apply list_elem_of_In in Hm.
    pose proof (find_none _ _ Hf _ Hm) as Hb. simpl in Hb.
    by apply bool_decide_eq_false in Hb.
Qed.

(** The "assign role B" loop when every pick is found and granted. *)
Lemma assign_loop_all (w : Bot31.World) (now_ts : Z) (picks : list Z) :
  forall s acc,
  Forall (fun uid => exists m, get_member (Bot31.w_members w) uid = Some m
                               /\ m_id m = uid) picks ->
  Forall (fun uid => Bot31.w_add_ok w uid = true) picks ->
  (foldl (fun '(s, assigned_mentions) uid =>
            match get_member (Bot31.w_members w) uid with
            | None => (s, assigned_mentions)
            | Some member =>
                if Bot31.w_add_ok w (m_id member)
                then (Bot31.open_stats now_ts (m_id member) s,
                      assigned_mentions ++ [m_id member])
                else (s, assigned_mentions)
            end) (s, acc) picks).2 = acc ++ picks.
Proof.
  induction picks as [|uid picks IH]; intros s acc Hm Hok; simpl.
  - by rewrite app_nil_r.
  - apply Forall_cons in Hm as [(m & Hg & Hid) Hm].
    apply Forall_cons in Hok as [Hok1 Hok].
    rewrite Hg, Hid, Hok1. rewrite IH by done.
    by rewrite <- app_assoc.
Qed.

Lemma shuffle_in_pool31 g pool :
  Forall (fun uid => uid ∈ pool) (shuffle g pool).1.
Proof.
  apply Forall_forall. intros x Hx. by rewrite shuffle_perm in Hx.
Qed.

Lemma shuffle_len31 g pool : len (shuffle g pool).1 = len pool.
Proof. unfold len. by rewrite shuffle_perm. Qed.

Lemma Forall_take_of {A} (P : A -> Prop) (l : list A) n :
  Forall P l -> Forall P (take n l).
Proof.
  rewrite !Forall_forall. intros Hl x Hx. apply Hl. by eapply subseteq_take.
Qed.

Lemma Forall_filter_of {A} (P Q : A -> Prop) `{!forall x, Decision (Q x)}
    (l : list A) :
  Forall P l -> Forall P (filter Q l).
Proof.
  rewrite !Forall_forall. intros Hl x Hx. apply Hl.
  by apply list_elem_of_filter in Hx as [_ ?].
Qed.

(** Whatever is picked is in the pool. *)
Lemma select_picks_in_pool y a_ids pool0 rng :
  1 <= y ->
  Forall (fun uid => uid ∈ a_ids)
         (Bot31.select_picks shuffle y a_ids pool0 rng).1.1.
Proof.
  intros Hy.
  pose proof (carried31_in_pool a_ids pool0) as Hz.
  destruct (decide (carried31 a_ids pool0 = [])) as [He | Hne].
  - destruct (Z.le_gt_cases y (len (shuffle rng a_ids).1)) as [Hf | Hs].
    + rewrite select_picks_fresh_full by done. simpl.
      apply Forall_take_of, shuffle_in_pool31.
    + rewrite select_picks_fresh_short by done. simpl.
      destruct (_ <=? _); simpl; apply Forall_app; split;
        try apply shuffle_in_pool31;
        try apply Forall_take_of;
        apply Forall_filter_of, shuffle_in_pool31.
  - destruct (Z.le_gt_cases y (len (carried31 a_ids pool0))) as [Hf | Hs].
    + rewrite select_picks_carry_full by done. simpl.
      by apply Forall_take_of.
    + rewrite select_picks_carry_topup by done. simpl.
      destruct (_ <=? _); simpl; apply Forall_app; split;
        try done; try apply Forall_take_of;
        apply Forall_filter_of, shuffle_in_pool31.
Qed.

(** One run in which every grant succeeds, read off the selection. *)
Lemma perform_run_selection pool cfg w st rng :
  sees_pool31 pool cfg w -> grants_all31 pool w ->
  let sel := Bot31.select_picks shuffle (Bot31.effective_picks cfg) pool
               (Bot31.current_cycle_pool st) rng in
  exists rep st',
    Bot31.perform_run shuffle w cfg st rng = (Some rep, st', sel.2)
    /\ Bot31.assigned rep = sel.1.1
    /\ Bot31.current_cycle_pool st' = sel.1.2.
Proof.
  intros (Ha & Hb & Hpool) Hok. simpl.
  unfold Bot31.perform_run, Bot31.get_role.
  rewrite !bool_decide_eq_true_2 by done.
  pose proof (select_picks_in_pool (Bot31.effective_picks cfg) pool
                (Bot31.current_cycle_pool st) rng
                (effective_picks31_ge_1 cfg)) as Hin.
  unfold members_with_a_ids in Hpool. rewrite Hpool.
  destruct (foldl _ (Bot31.stats st, []) _) as [stats1 removed_mentions].
  destruct (Bot31.select_picks _ _ _ _ _) as [[picks pool'] g]. simpl in *.
  pose proof (assign_loop_all w (Bot31.w_now_ts w) picks stats1 []) as Hloop.
  destruct (foldl _ (stats1, []) picks) as [stats2 assigned_mentions].
  simpl in Hloop. do 2 eexists. split; [reflexivity|]. simpl.
  split; [|done]. apply Hloop.
  - eapply Forall_impl; [exact Hin|]. intros uid Huid. simpl in Huid.
    rewrite <- Hpool in Huid. by eapply get_member_of_filtered.
  - eapply Forall_impl; [exact Hin|]. intros uid Huid. by apply Hok.
Qed.

(** From the middle of a cycle: the runs that exhaust the carried members
    [r] grant them first, in their order. *)
Lemma runs_carry pool cfg ws : forall st rng,
  Forall (sees_pool31 pool cfg) ws -> Forall (grants_all31 pool) ws ->
  let y := Bot31.effective_picks cfg in
  let r := carried31 pool (Bot31.current_cycle_pool st) in
  (Z.of_nat (length ws) - 1) * y < len r <= Z.of_nat (length ws) * y ->
  exists rest, concat (Bot31.runs shuffle ws cfg st rng).1.1 = r ++ rest.
Proof.
  induction ws as [|w ws IH]; intros st rng Hws Hoks; simpl; intros Hn.
  - exists []. simpl.
    assert (len (carried31 pool (Bot31.current_cycle_pool st)) = 0) as He
      by (pose proof (len_nonneg
                        (carried31 pool (Bot31.current_cycle_pool st))); lia).
    apply len_nil_iff in He. by rewrite He.
  - apply Forall_cons in Hws as [Hw Hws].
    apply Forall_cons in Hoks as [Hok Hoks].
    pose proof (effective_picks31_ge_1 cfg) as Hy.
    destruct (perform_run_selection pool cfg w st rng Hw Hok)
      as (rep & st' & Hrun & Hasg & Hpool').
    rewrite Hrun.
    specialize (IH st' (Bot31.select_picks shuffle (Bot31.effective_picks cfg)
                          pool (Bot31.current_cycle_pool st) rng).2 Hws Hoks).
    simpl in IH. rewrite Hpool' in IH.
    destruct (Bot31.runs shuffle ws cfg st' _) as [[hs st2] g2].
    simpl in *. rewrite Hasg.
    set (r := carried31 pool (Bot31.current_cycle_pool st)) in *.
    set (y := Bot31.effective_picks cfg) in *.
    assert (r <> []) as Hne.
    { intros He. rewrite He in Hn. unfold len in Hn. simpl in Hn. nia. }
    pose proof (carried31_in_pool pool (Bot31.current_cycle_pool st)) as Hin.
    fold r in Hin.
    destruct (Z.le_gt_cases y (len r)) as [Hfull | Htop].
    + rewrite (select_picks_carry_full shuffle y pool _ rng Hy Hne Hfull)
        in *.
      simpl in *. fold r in IH |- *.
      rewrite carried31_id in IH by by apply Forall_drop.
      destruct IH as [rest Hrest].
      { unfold len in *. rewrite length_drop. lia. }
      exists rest. rewrite Hrest. by rewrite app_assoc, take_drop.
    + rewrite (select_picks_carry_topup shuffle y pool _ rng Hne Htop) in *.
      fold r in IH |- *.
      destruct (_ <=? _); simpl; rewrite <- app_assoc; by eexists.
Qed.

(** From the start of a cycle: the runs of one full pass grant the fresh
    permutation first, in its order. *)
Lemma runs_fresh pool cfg ws st rng :
  Forall (sees_pool31 pool cfg) ws -> Forall (grants_all31 pool) ws ->
  let y := Bot31.effective_picks cfg in
  carried31 pool (Bot31.current_cycle_pool st) = [] ->
  y <= len pool ->
  (Z.of_nat (length ws) - 1) * y < len pool <= Z.of_nat (length ws) * y ->
  exists rest,
    concat (Bot31.runs shuffle ws cfg st rng).1.1
    = (shuffle rng pool).1 ++ rest.
Proof.
  simpl. intros Hws Hoks Hfresh HyP Hn.
  pose proof (effective_picks31_ge_1 cfg) as Hy.
  destruct ws as [|w ws]; [simpl in Hn; lia|].
  apply Forall_cons in Hws as [Hw Hws].
  apply Forall_cons in Hoks as [Hok Hoks]. simpl.
  destruct (perform_run_selection pool cfg w st rng Hw Hok)
    as (rep & st' & Hrun & Hasg & Hpool').
  rewrite Hrun.
  pose proof (runs_carry pool cfg ws st'
                (Bot31.select_picks shuffle (Bot31.effective_picks cfg) pool
                   (Bot31.current_cycle_pool st) rng).2 Hws Hoks) as Hcarry.
  simpl in Hcarry. rewrite Hpool' in Hcarry.
  destruct (Bot31.runs shuffle ws cfg st' _) as [[hs st2] g2].
  simpl in *. rewrite Hasg.
  set (y := Bot31.effective_picks cfg) in *.
  rewrite (select_picks_fresh_full shuffle y pool _ rng Hy Hfresh) in *
    by (rewrite shuffle_len31; lia).
  simpl in *.
  rewrite carried31_id in Hcarry by apply Forall_drop, shuffle_in_pool31.
  destruct Hcarry as [rest Hrest].
  { pose proof (shuffle_len31 rng pool) as Hl.
    unfold len in *. rewrite length_drop. lia. }
  exists rest. rewrite Hrest. by rewrite app_assoc, take_drop.
Qed.

End Runs31.

(** ** Fairness over a cycle *)

Lemma ceil_div_bounds (P y k : Z) :
  1 <= y -> k = (P + y - 1) / y -> (k - 1) * y < P <= k * y.
Proof.
  intros Hy ->.
  pose proof (Z.div_mod (P + y - 1) y ltac:(lia)) as Hdm.
  pose proof (Z.mod_pos_bound (P + y - 1) y ltac:(lia)) as Hmod.
  nia.
Qed.

(** What "every member once before any member twice" means for the batches
    [hs] of consecutive runs, listed in the order the role is granted: the
    first [length pool] grants are the pool, each member once. *)
Definition fair_pass (pool : list Z) (hs : list (list Z)) : Prop :=
  take (length pool) (concat hs) ≡ₚ pool
  /\ NoDup (take (length pool) (concat hs))
  /\ forall m, m ∈ pool -> exists h, h ∈ hs /\ m ∈ h.

Lemma fair_pass_of_prefix pool pi rest hs :
  NoDup pool -> pi ≡ₚ pool -> concat hs = pi ++ rest -> fair_pass pool hs.
Proof.
  intros Hnd Hperm Hcat. unfold fair_pass.
  assert (take (length pool) (concat hs) = pi) as ->.
  { rewrite Hcat, <- Hperm. apply take_app_length. }
  split; [done|]. split; [by rewrite Hperm|].
  intros m Hm. rewrite <- Hperm in Hm.
  assert (In m (concat hs)) as Hin.
  { rewrite Hcat. apply in_or_app. left. by apply list_elem_of_In. }
  apply in_concat in Hin as (h & Hh & Hmh).
  exists h. split; by apply list_elem_of_In.
Qed.

Section Fairness.
Context {RNG : Type} (shuffle : RNG -> list Z -> list Z * RNG).
Hypothesis shuffle_perm : forall g l, (shuffle g l).1 ≡ₚ l.

(** C1, as amended.  Fairness over a cycle, in [bot3.0.py] and in
    [bot3.1.py], for runs that start a cycle: let the
    pool be stable with P distinct members, let the pick count y be at most
    P, and let a cycle start with the first run (nothing of the stored queue
    is left).  Then over ceil(P / y) consecutive runs, whatever permutations
    are drawn, the first P grants are the P members of the pool, each once:
    every member holds the role before any member holds it a second time
    (the batches being the recorded [current_holders] in bot3.0, the members
    the role was given to in bot3.1, where every grant is taken to
    succeed). *)
Theorem fairness_over_a_cycle :
  (forall (pool : list Z) (ws : list Bot30.World) (data : Bot30.Data)
          (rng : RNG),
      NoDup pool ->
      Forall (sees_pool30 pool) ws ->
      leftovers30 pool (Bot30.current_cycle data) = [] ->
      Bot30.effective_picks data <= len pool ->
      Z.of_nat (length ws)
        = (len pool + Bot30.effective_picks data - 1)
          / Bot30.effective_picks data ->
      fair_pass pool (Bot30.rotations shuffle ws data rng).1.1)
  /\
  (forall (pool : list Z) (cfg : Bot31.GuildConfig) (ws : list Bot31.World)
          (st : Bot31.GuildState) (rng : RNG),
      NoDup pool ->
      Forall (sees_pool31 pool cfg) ws ->
      Forall (grants_all31 pool) ws ->
      carried31 pool (Bot31.current_cycle_pool st) = [] ->
      Bot31.effective_picks cfg <= len pool ->
      Z.of_nat (length ws)
        = (len pool + Bot31.effective_picks cfg - 1)
          / Bot31.effective_picks cfg ->
      fair_pass pool (Bot31.runs shuffle ws cfg st rng).1.1).
Proof.
  split.
  - intros pool ws data rng Hnd Hws Hfresh Hy Hk.
    pose proof (effective_picks30_ge_1 data) as Hy1.
    pose proof (ceil_div_bounds _ _ _ Hy1 Hk) as Hb.
    destruct (rotations_fresh shuffle shuffle_perm pool ws data rng
                Hws Hfresh Hy Hb) as [rest Hrest].
    eapply fair_pass_of_prefix; [done | apply shuffle_perm | exact Hrest].
  - intros pool cfg ws st rng Hnd Hws Hoks Hfresh Hy Hk.
    pose proof (effective_picks31_ge_1 cfg) as Hy1.
    pose proof (ceil_div_bounds _ _ _ Hy1 Hk) as Hb.
    destruct (runs_fresh shuffle shuffle_perm pool cfg ws st rng
                Hws Hoks Hfresh Hy Hb) as [rest Hrest].
    eapply fair_pass_of_prefix; [done | apply shuffle_perm | exact Hrest].
Qed.

End Fairness.

(** A generator for the examples: every shuffle reverses the list. *)
Definition reverse_shuffle (g : nat) (l : list Z) : list Z * nat :=
  (reverse l, S g).

Lemma reverse_shuffle_perm g l : (reverse_shuffle g l).1 ≡ₚ l.
Proof. apply reverse_Permutation. Qed.

(** Three members, two picks per run, two runs from the initial data. *)
Definition guild3 : Guild :=
  [mkMember 3 false [10]; mkMember 1 false [10]; mkMember 2 false [10; 11];
   mkMember 9 true [10]].

Definition always : Z -> bool := fun _ => true.

Definition world30 (g : Guild) (api : Bot30.Api) (now : Z) : Bot30.World :=
  Bot30.mkWorld g (Some 10) (Some 11) api now now.

Definition schedule_off : Bot30.Schedule :=
  Bot30.mkSchedule (Some false) (Some "weekly"%string) (Some 3) (Some 4)
                   (Some 1) (0, 0).

Definition data_picks (y : Z) : Bot30.Data :=
  Bot30.mkData (Some y) schedule_off [] ∅ (Bot30.mkCycle [] 0) None.

Definition world31 (g : Guild) (add_ok : Z -> bool) (now : Z)
  : Bot31.World :=
  Bot31.mkWorld g [10; 11] None add_ok always now.

Definition config31 (y : Z) (preset : string) : Bot31.GuildConfig :=
  Bot31.mkGuildConfig 10 11 y None
    (Bot31.mkScheduleConfig "preset" preset 7 12 0).

Definition state31_empty : Bot31.GuildState := Bot31.mkGuildState [] ∅.

Lemma fairness_over_a_cycle_witness :
  fair_pass [1; 2; 3]
    (Bot30.rotations reverse_shuffle
       [world30 guild3 (Bot30.mkApi always always) 100;
        world30 guild3 (Bot30.mkApi always always) 200]
       (data_picks 2) 0%nat).1.1
  /\ fair_pass [3; 1; 2]
       (Bot31.runs reverse_shuffle
          [world31 guild3 always 100; world31 guild3 always 200]
          (config31 2 "weekly") state31_empty 0%nat).1.1.
Proof.
  split.
  - apply (proj1 (fairness_over_a_cycle reverse_shuffle reverse_shuffle_perm)).
    + apply (bool_decide_unpack _). by vm_compute.
    + repeat constructor; exists 10, 11; by vm_compute.
    + by vm_compute.
    + by vm_compute.
    + by vm_compute.
  - apply (proj2 (fairness_over_a_cycle reverse_shuffle reverse_shuffle_perm)).
    + apply (bool_decide_unpack _). by vm_compute.
    + repeat constructor; apply (bool_decide_unpack _); by vm_compute.
    + repeat constructor.
    + by vm_compute.
    + by vm_compute.
    + by vm_compute.
Defined.

(** Without the cycle starting at the first run the property fails.  The
    generator below returns the list as it is when it is first called and
    rotated by two places from then on. *)
Definition rotate_shuffle (g : nat) (l : list Z) : list Z * nat :=
  (match g with O => l | S _ => rotate 2 l end, S g).

Lemma rotate_shuffle_perm g l : (rotate_shuffle g l).1 ≡ₚ l.
Proof.
  destruct g; [done|]. simpl. unfold rotate.
  rewrite Permutation_app_comm. by rewrite take_drop.
Qed.

Definition guild5 : Guild :=
  [mkMember 1 false [10]; mkMember 2 false [10]; mkMember 3 false [10];
   mkMember 4 false [10]; mkMember 5 false [10]].

(** The state one run from the initial data leaves, in bot3.0.py and in
    bot3.1.py: members 1 and 2 hold the role, 3, 4 and 5 are queued. *)
Definition after_first_run30 : list (list Z) * Bot30.Data * nat :=
  Bot30.rotations rotate_shuffle
    [world30 guild5 (Bot30.mkApi always always) 100] (data_picks 2) 0%nat.

Definition after_first_run31 : list (list Z) * Bot31.GuildState * nat :=
  Bot31.runs rotate_shuffle [world31 guild5 always 100]
    (config31 2 "weekly") state31_empty 0%nat.

Definition three_runs30 : list Bot30.World :=
  world30 guild5 (Bot30.mkApi always always) <$> [200; 300; 400].

Definition three_runs31 : list Bot31.World :=
  world31 guild5 always <$> [200; 300; 400].

(** C1, as stated, fails in bot3.0.py and in bot3.1.py: pool 1..5, two
    picks per run, so ceil(5 / 2) = 3 runs, started after one run from the
    initial data.  The pool is stable, its members are distinct and every
    grant succeeds; but the three runs give the role to member 3 twice,
    and never to members 1 and 2 in bot3.0.py, never to member 2 in
    bot3.1.py. *)
Lemma fairness_fails_mid_cycle :
  let pool := [1; 2; 3; 4; 5] in
  let hs30 :=
    (Bot30.rotations rotate_shuffle three_runs30
       after_first_run30.1.2 after_first_run30.2).1.1 in
  let hs31 :=
    (Bot31.runs rotate_shuffle three_runs31 (config31 2 "weekly")
       after_first_run31.1.2 after_first_run31.2).1.1 in
  (NoDup pool
   /\ Forall (sees_pool30 pool) three_runs30
   /\ Bot30.effective_picks after_first_run30.1.2 = 2
   /\ Z.of_nat (length three_runs30) = (len pool + 2 - 1) / 2
   /\ hs30 = [[3; 4]; [5; 3]; [4; 5]]
   /\ ~ fair_pass pool hs30)
  /\
  (Forall (sees_pool31 pool (config31 2 "weekly")) three_runs31
   /\ Forall (grants_all31 pool) three_runs31
   /\ Bot31.effective_picks (config31 2 "weekly") = 2
   /\ Z.of_nat (length three_runs31) = (len pool + 2 - 1) / 2
   /\ hs31 = [[3; 4]; [5; 3]; [4; 1]]
   /\ ~ fair_pass pool hs31).
Proof.
  cbv zeta.
  assert (forall hs : list (list Z),
             (forall h, h ∈ hs -> 2 ∉ h) -> ~ fair_pass [1; 2; 3; 4; 5] hs)
    as Hmiss.
  { intros hs Hhs (_ & _ & Hall).
    destruct (Hall 2) as (h & Hh & H2); [|by apply (Hhs h)].
    apply (bool_decide_unpack _). by vm_compute. }
  split.
  - split; [apply (bool_decide_unpack _); by vm_compute|].
    split; [repeat constructor; exists 10, 11; by vm_compute|].
    split; [by vm_compute|]. split; [by vm_compute|].
    assert ((Bot30.rotations rotate_shuffle three_runs30
               after_first_run30.1.2 after_first_run30.2).1.1
            = [[3; 4]; [5; 3]; [4; 5]]) as -> by by vm_compute.
    split; [done|]. apply Hmiss. intros h Hh.
    apply (bool_decide_unpack _). revert h Hh.
    apply Forall_forall. repeat constructor; by vm_compute.
  - split; [repeat constructor; apply (bool_decide_unpack _); by vm_compute|].
    split; [repeat constructor|].
    split; [by vm_compute|]. split; [by vm_compute|].
    assert ((Bot31.runs rotate_shuffle three_runs31 (config31 2 "weekly")
               after_first_run31.1.2 after_first_run31.2).1.1
            = [[3; 4]; [5; 3]; [4; 1]]) as -> by by vm_compute.
    split; [done|]. apply Hmiss. intros h Hh.
    apply (bool_decide_unpack _). revert h Hh.
    apply Forall_forall. repeat constructor; by vm_compute.
Qed.

(** ** Top-up *)

Lemma filter_in_perm (z pi : list Z) :
  NoDup z -> NoDup pi -> (forall x, x ∈ z -> x ∈ pi) ->
  filter (fun uid => uid ∈ z) pi ≡ₚ z.
Proof.
  intros Hz Hpi Hsub.
  apply NoDup_Permutation; [by apply NoDup_filter | done |].
  intros x. rewrite list_elem_of_filter. split; [by intros [? _]|].
  intros Hx. split; [done | by apply Hsub].
Qed.

Lemma carried_then_rest_perm (z pi : list Z) :
  NoDup z -> NoDup pi -> (forall x, x ∈ z -> x ∈ pi) ->
  z ++ filter (fun uid => uid ∉ z) pi ≡ₚ pi.
Proof.
  intros Hz Hpi Hsub.
  rewrite <- (filter_in_perm z pi Hz Hpi Hsub) at 1.
  apply (filter_app_complement (fun uid => uid ∈ z) pi).
Qed.

Lemma length_filter_not_in (z pi : list Z) :
  NoDup z -> NoDup pi -> (forall x, x ∈ z -> x ∈ pi) ->
  (length (filter (fun uid => uid ∉ z) pi) = length pi - length z)%nat.
Proof.
  intros Hz Hpi Hsub.
  pose proof (carried_then_rest_perm z pi Hz Hpi Hsub) as Hsplit.
  apply Permutation_length in Hsplit. rewrite length_app in Hsplit. lia.
Qed.

Lemma NoDup_take_of {A} (l : list A) n : NoDup l -> NoDup (take n l).
Proof. intros Hl. eapply sublist_NoDup; [done | apply sublist_take]. Qed.

Lemma NoDup_drop_of {A} (l : list A) n : NoDup l -> NoDup (drop n l).
Proof. intros Hl. eapply sublist_NoDup; [done | apply sublist_drop]. Qed.

Section TopUp.
Context {RNG : Type} (shuffle : RNG -> list Z -> list Z * RNG).
Hypothesis shuffle_perm : forall g l, (shuffle g l).1 ≡ₚ l.

(** bot3.1.py: with fewer than [y] carried members [z] and at least [y]
    members in the pool, the picks are [z] followed by the first [y - |z|]
    members of the fresh permutation without [z]: [y] picks, no member
    twice. *)
Lemma select_picks_top_up y a_ids pool0 rng :
  NoDup a_ids -> NoDup pool0 -> 1 <= y ->
  let z := carried31 a_ids pool0 in
  len z < y -> y <= len a_ids ->
  let picks := (Bot31.select_picks shuffle y a_ids pool0 rng).1.1 in
  picks = z ++ take (Z.to_nat (y - len z))
                    (filter (fun uid => uid ∉ z) (shuffle rng a_ids).1)
  /\ len picks = y
  /\ NoDup picks.
Proof.
  simpl. intros Hnd Hnd0 Hy Hz HP.
  set (z := carried31 a_ids pool0) in *.
  set (pi := (shuffle rng a_ids).1).
  assert (NoDup pi) as Hpi by (unfold pi; by rewrite shuffle_perm).
  assert (NoDup z) as Hndz by by apply NoDup_filter.
  assert (forall x, x ∈ z -> x ∈ pi) as Hsub.
  { intros x Hx. unfold pi. rewrite shuffle_perm.
    by apply list_elem_of_filter in Hx as [? _]. }
  pose proof (length_filter_not_in z pi Hndz Hpi Hsub) as Hlen.
  pose proof (shuffle_len31 shuffle shuffle_perm rng a_ids) as Hlpi.
  fold pi in Hlpi.
  assert (Bot31.select_picks shuffle y a_ids pool0 rng
          = (z ++ take (Z.to_nat (y - len z))
                       (filter (fun uid => uid ∉ z) pi),
             (Bot31.select_picks shuffle y a_ids pool0 rng).1.2,
             (Bot31.select_picks shuffle y a_ids pool0 rng).2)) as ->.
  { destruct (decide (z = [])) as [He | Hne].
    - rewrite select_picks_fresh_full by (done || (fold pi; lia)).
      fold z pi. rewrite He. simpl. rewrite filter_all.
      + by replace (y - len []) with y by (unfold len; simpl; lia).
      + apply Forall_forall. intros x _. apply not_elem_of_nil.
    - rewrite select_picks_carry_topup by done. fold z pi.
      destruct (Z.leb_spec (y - len z)
                  (len (filter (fun uid => uid ∉ z) pi))); [done|].
      unfold len in *. lia. }
  simpl. split; [done|]. split.
  - unfold len in *. rewrite length_app, length_take. lia.
  - apply NoDup_app. split; [done|]. split.
    + intros x Hx Hx'. apply subseteq_take in Hx'.
      by apply list_elem_of_filter in Hx' as [? _].
    + by apply NoDup_take_of, NoDup_filter.
Qed.

(** bot3.0.py (and bot2.0.py): the same batch without the exclusion: [z]
    followed by the first [y - |z|] members of a fresh permutation of the
    whole pool. *)
Lemma select_ids_top_up y a_ids cycle rng :
  1 <= y ->
  let z := leftovers30 a_ids cycle in
  len z < y -> y <= len a_ids ->
  let selected := (Bot30.select_ids shuffle y a_ids cycle rng).1.1 in
  selected = z ++ take (Z.to_nat (y - len z)) (shuffle rng a_ids).1
  /\ len selected = y.
Proof.
  simpl. intros Hy Hz HP.
  set (z := leftovers30 a_ids cycle) in *.
  pose proof (shuffle_len shuffle shuffle_perm rng a_ids) as Hlpi.
  assert ((Bot30.select_ids shuffle y a_ids cycle rng).1.1
          = z ++ take (Z.to_nat (y - len z)) (shuffle rng a_ids).1) as ->.
  { destruct (decide (z = [])) as [He | Hne].
    - rewrite select_ids_fresh_full by (done || lia).
      rewrite He. simpl.
      by replace (y - len []) with y by (unfold len; simpl; lia).
    - by rewrite select_ids_carry_topup by done. }
  split; [done|].
  unfold len in *. rewrite length_app, length_take. lia.
Qed.

End TopUp.

Section TopUpRuns.
Context {RNG : Type} (shuffle : RNG -> list Z -> list Z * RNG).
Hypothesis shuffle_perm : forall g l, (shuffle g l).1 ≡ₚ l.

(** C2, as amended.  Top-up, with fewer than [y] carried members [z] and
    at least [y] distinct members in the pool.
    - bot3.1.py: the run grants exactly [y] members, all of [z] followed by
      members of the fresh cycle, the fresh permutation being taken without
      the members of [z]; no member is in the batch twice.
    - bot3.0.py (and bot2.0.py): the batch has exactly [y] entries, all of
      [z] followed by the first [y - |z|] members of a fresh permutation of
      the whole pool; [z] is not excluded from it. *)
Theorem top_up_batch :
  (forall (pool : list Z) (cfg : Bot31.GuildConfig) (w : Bot31.World)
          (st : Bot31.GuildState) (rng : RNG),
      NoDup pool -> NoDup (Bot31.current_cycle_pool st) ->
      sees_pool31 pool cfg w -> grants_all31 pool w ->
      let y := Bot31.effective_picks cfg in
      let z := carried31 pool (Bot31.current_cycle_pool st) in
      len z < y -> y <= len pool ->
      exists rep st' rng',
        Bot31.perform_run shuffle w cfg st rng = (Some rep, st', rng')
        /\ Bot31.assigned rep
           = z ++ take (Z.to_nat (y - len z))
                       (filter (fun uid => uid ∉ z) (shuffle rng pool).1)
        /\ len (Bot31.assigned rep) = y
        /\ NoDup (Bot31.assigned rep))
  /\
  (forall (pool : list Z) (w : Bot30.World) (data : Bot30.Data) (rng : RNG),
      sees_pool30 pool w ->
      let y := Bot30.effective_picks data in
      let z := leftovers30 pool (Bot30.current_cycle data) in
      len z < y -> y <= len pool ->
      exists selected data' rng',
        Bot30.run_rotation shuffle w data rng
        = (selected, None, data', rng')
        /\ Bot30.current_holders data' = selected
        /\ selected = z ++ take (Z.to_nat (y - len z)) (shuffle rng pool).1
        /\ len selected = y).
Proof.
  split.
  - intros pool cfg w st rng Hnd Hnd0 Hw Hok. simpl. intros Hz HP.
    destruct (perform_run_selection shuffle shuffle_perm pool cfg w st rng
                Hw Hok) as (rep & st' & Hrun & Hasg & _).
    pose proof (select_picks_top_up shuffle shuffle_perm
                  (Bot31.effective_picks cfg) pool
                  (Bot31.current_cycle_pool st) rng Hnd Hnd0
                  (effective_picks31_ge_1 cfg) Hz HP) as (Hp & Hl & Hn).
    exists rep, st'. eexists. split; [exact Hrun|].
    rewrite Hasg. done.
  - intros pool w data rng Hw. simpl. intros Hz HP.
    destruct (run_rotation_selection shuffle pool w data rng Hw)
      as (data' & Hrun & Hh & _).
    pose proof (select_ids_top_up shuffle shuffle_perm
                  (Bot30.effective_picks data) pool
                  (Bot30.current_cycle data) rng
                  (effective_picks30_ge_1 data) Hz HP) as (Hs & Hl).
    assert (filter (fun uid => uid ∈ pool)
              (Bot30.select_ids shuffle (Bot30.effective_picks data) pool
                 (Bot30.current_cycle data) rng).1.1
            = (Bot30.select_ids shuffle (Bot30.effective_picks data) pool
                 (Bot30.current_cycle data) rng).1.1) as Hf.
    { apply filter_all. rewrite Hs. apply Forall_app. split.
      - apply leftovers30_in_pool.
      - apply Forall_take_of, shuffle_in_pool, shuffle_perm. }
    rewrite Hf in Hrun, Hh.
    do 3 eexists. split; [exact Hrun|]. by rewrite <- Hs.
Qed.

End TopUpRuns.

(** Five members with role A, and the state with 4 and 5 left of the cycle
    in bot3.0 and in bot3.1. *)
Definition data_two_left : Bot30.Data :=
  Bot30.mkData (Some 4) schedule_off [] ∅
               (Bot30.mkCycle [1; 2; 3; 4; 5] 3) None.

Definition state31_two_left : Bot31.GuildState :=
  Bot31.mkGuildState [4; 5] ∅.

Lemma top_up_batch_witness :
  (exists rep st' rng',
      Bot31.perform_run reverse_shuffle (world31 guild5 always 100)
        (config31 4 "weekly") state31_two_left 0%nat
      = (Some rep, st', rng')
      /\ Bot31.assigned rep
         = [4; 5] ++ take (Z.to_nat (4 - 2))
                          (filter (fun uid => uid ∉ [4; 5]) [5; 4; 3; 2; 1])
      /\ len (Bot31.assigned rep) = 4
      /\ NoDup (Bot31.assigned rep))
  /\
  (exists selected data' rng',
      Bot30.run_rotation reverse_shuffle
        (world30 guild5 (Bot30.mkApi always always) 100) data_two_left 0%nat
      = (selected, None, data', rng')
      /\ Bot30.current_holders data' = selected
      /\ selected = [4; 5] ++ take (Z.to_nat (4 - 2)) [5; 4; 3; 2; 1]
      /\ len selected = 4).
Proof.
  split.
  - apply (proj1 (top_up_batch reverse_shuffle reverse_shuffle_perm)
             [1; 2; 3; 4; 5] (config31 4 "weekly")
             (world31 guild5 always 100) state31_two_left 0%nat).
    + apply (bool_decide_unpack _). by vm_compute.
    + apply (bool_decide_unpack _). by vm_compute.
    + repeat split; apply (bool_decide_unpack _); by vm_compute.
    + by intros uid _.
    + by vm_compute.
    + by vm_compute.
  - apply (proj2 (top_up_batch reverse_shuffle reverse_shuffle_perm)
             [1; 2; 3; 4; 5]
             (world30 guild5 (Bot30.mkApi always always) 100)
             data_two_left 0%nat).
    + exists 10, 11. by vm_compute.
    + by vm_compute.
    + by vm_compute.
Defined.

(** C2, as stated, fails in bot3.0.py: pool of five, two members (4 and 5)
    left of the cycle, four picks.  When the fresh permutation starts with
    5, 4 the batch is 4, 5, 5, 4: it holds members twice. *)
Lemma top_up_repeats_in_bot30 :
  let w := world30 guild5 (Bot30.mkApi always always) 100 in
  let pool := Bot30.eligible_members_with_role_a guild5 10 in
  let run := Bot30.run_rotation reverse_shuffle w data_two_left 0%nat in
  pool = [1; 2; 3; 4; 5]
  /\ leftovers30 pool (Bot30.current_cycle data_two_left) = [4; 5]
  /\ Bot30.effective_picks data_two_left = 4
  /\ run.1.1.1 = [4; 5; 5; 4]
  /\ Bot30.current_holders run.1.2 = [4; 5; 5; 4]
  /\ ~ NoDup run.1.1.1.
Proof.
  repeat split; try by vm_compute.
  intros Hnd. apply (bool_decide_pack _) in Hnd. by vm_compute in Hnd.
Qed.

(** ** Under-supply *)

Lemma get_member_id (g : Guild) (uid : Z) (m : Member) :
  get_member g uid = Some m -> m_id m = uid.
Proof.
  unfold get_member. intros Hf.
  apply find_some in Hf as [_ Hb]. by apply bool_decide_eq_true in Hb.
Qed.

(** The "assign role B" loop grants a part of the picks, in their order. *)
Lemma assign_loop_sublist (w : Bot31.World) (now_ts : Z) (picks : list Z) :
  forall s acc,
  exists granted,
    (foldl (fun '(s, assigned_mentions) uid =>
              match get_member (Bot31.w_members w) uid with
              | None => (s, assigned_mentions)
              | Some member =>
                  if Bot31.w_add_ok w (m_id member)
                  then (Bot31.open_stats now_ts (m_id member) s,
                        assigned_mentions ++ [m_id member])
                  else (s, assigned_mentions)
              end) (s, acc) picks).2 = acc ++ granted
    /\ granted `sublist_of` picks.
Proof.
  induction picks as [|uid picks IH]; intros s acc; simpl.
  - exists []. by rewrite app_nil_r.
  - destruct (get_member (Bot31.w_members w) uid) as [m|] eqn:Hg.
    + apply get_member_id in Hg. rewrite Hg.
      destruct (Bot31.w_add_ok w uid).
      * destruct (IH (Bot31.open_stats now_ts uid s) (acc ++ [uid]))
          as (granted & -> & Hsub).
        exists (uid :: granted). rewrite <- app_assoc. split; [done|].
        by apply sublist_skip.
      * destruct (IH s acc) as (granted & -> & Hsub).
        exists granted. split; [done|]. by apply sublist_cons.
    + destruct (IH s acc) as (granted & -> & Hsub).
      exists granted. split; [done|]. by apply sublist_cons.
Qed.

Section UnderSupply.
Context {RNG : Type} (shuffle : RNG -> list Z -> list Z * RNG).
Hypothesis shuffle_perm : forall g l, (shuffle g l).1 ≡ₚ l.

(** bot3.1.py with fewer members than picks: every member is picked once
    and nothing is left for the next run. *)
Lemma select_picks_under_supply y a_ids pool0 rng :
  NoDup a_ids -> NoDup pool0 -> len a_ids < y ->
  let sel := Bot31.select_picks shuffle y a_ids pool0 rng in
  sel.1.1 ≡ₚ a_ids /\ sel.1.2 = [].
Proof.
  simpl. intros Hnd Hnd0 HP.
  set (z := carried31 a_ids pool0).
  assert (NoDup z) as Hndz by by apply NoDup_filter.
  assert (forall g, NoDup (shuffle g a_ids).1) as Hpi
    by (intros g; by rewrite shuffle_perm).
  assert (forall g x, x ∈ a_ids -> x ∈ (shuffle g a_ids).1) as Hel
    by (intros g x; by rewrite shuffle_perm).
  pose proof (shuffle_len31 shuffle shuffle_perm) as Hlen.
  destruct (decide (z = [])) as [He | Hne].
  - rewrite select_picks_fresh_short by (done || (rewrite Hlen; lia)).
    set (pi := (shuffle rng a_ids).1).
    set (g := (shuffle rng a_ids).2).
    assert (filter (fun uid => uid ∉ pi) (shuffle g a_ids).1 = []) as ->.
    { apply length_zero_iff_nil. rewrite length_filter_not_in.
      - pose proof (Hlen rng a_ids) as Hr. pose proof (Hlen g a_ids) as Hg.
        fold pi in Hr. unfold len in *. lia.
      - apply Hpi.
      - apply Hpi.
      - intros x Hx. apply Hel. unfold pi in Hx.
        by rewrite shuffle_perm in Hx. }
    destruct (Z.leb_spec (y - len pi) (len (@nil Z))) as [Hle|_].
    + pose proof (Hlen rng a_ids) as Hr. fold pi in Hr.
      unfold len in *. simpl in *. lia.
    + simpl. rewrite app_nil_r. split; [apply shuffle_perm | done].
  - assert (forall x, x ∈ z -> x ∈ (shuffle rng a_ids).1) as Hsub.
    { intros x Hx. apply Hel. by apply list_elem_of_filter in Hx as [? _]. }
    pose proof (length_filter_not_in z _ Hndz (Hpi rng) Hsub) as Hl.
    assert (len z <= len a_ids) as Hzl.
    { pose proof (Hlen rng a_ids) as Hr. unfold len in *.
      assert (length z <= length (shuffle rng a_ids).1)%nat; [|lia].
      apply submseteq_length, NoDup_submseteq; done. }
    rewrite select_picks_carry_topup by (done || (fold z; lia)).
    fold z.
    destruct (Z.leb_spec (y - len z)
                (len (filter (fun uid => uid ∉ z) (shuffle rng a_ids).1)))
      as [Hle|_].
    + pose proof (Hlen rng a_ids) as Hr. unfold len in *. lia.
    + simpl. split; [|done].
      rewrite carried_then_rest_perm by done. apply shuffle_perm.
Qed.

(** One run of bot3.1.py, whatever the grants do: the report. *)
Lemma perform_run_report pool cfg w st rng :
  sees_pool31 pool cfg w ->
  let y := Bot31.effective_picks cfg in
  let sel := Bot31.select_picks shuffle y pool
               (Bot31.current_cycle_pool st) rng in
  exists rep st',
    Bot31.perform_run shuffle w cfg st rng = (Some rep, st', sel.2)
    /\ Bot31.assigned rep `sublist_of` sel.1.1
    /\ Bot31.current_cycle_pool st' = sel.1.2
    /\ Bot31.run_insufficient rep
       = if len pool <? y
         then Some (match Bot31.w_channel w with
                    | Some c => Bot31.to_channel c
                    | None => Bot31.to_log
                    end)
         else None.
Proof.
  intros (Ha & Hb & Hpool). simpl.
  unfold Bot31.perform_run, Bot31.get_role.
  rewrite !bool_decide_eq_true_2 by done.
  unfold members_with_a_ids in Hpool.
  assert (len (filter (fun m => Is_true (has_role (Bot31.role_a_id cfg) m
                                         && negb (m_bot m)))
                      (Bot31.w_members w)) = len pool) as Hl
    by (rewrite <- Hpool; unfold len; by rewrite length_fmap).
  rewrite Hpool, Hl.
  destruct (foldl _ (Bot31.stats st, []) _) as [stats1 removed_mentions].
  destruct (Bot31.select_picks _ _ _ _ _) as [[picks pool'] g]. simpl in *.
  destruct (assign_loop_sublist w (Bot31.w_now_ts w) picks stats1 [])
    as (granted & Hg & Hsub).
  destruct (foldl _ (stats1, []) picks) as [stats2 assigned_mentions].
  simpl in Hg. subst assigned_mentions.
  do 2 eexists. split; [reflexivity|]. simpl. done.
Qed.

(** C7, as amended.  Under-supply: the pool has fewer members than the
    pick count.
    - bot3.1.py: the run grants at most as many members as the pool has
      (for a pool of 2 and 5 picks: at most 2), none twice, issues the
      [run_insufficient] note and completes.
    - bot3.0.py (and bot2.0.py): the run completes as well, but the batch
      is the rest of the cycle followed by members of a fresh cycle, with
      more entries than the pool has members, and the answer of [/run] is
      the plain list of the members assigned. *)
Theorem under_supply_run :
  (forall (pool : list Z) (cfg : Bot31.GuildConfig) (w : Bot31.World)
          (st : Bot31.GuildState) (rng : RNG),
      NoDup pool -> NoDup (Bot31.current_cycle_pool st) ->
      sees_pool31 pool cfg w ->
      len pool < Bot31.effective_picks cfg ->
      exists rep st' rng',
        Bot31.perform_run shuffle w cfg st rng = (Some rep, st', rng')
        /\ (len (Bot31.assigned rep) <= len pool)
        /\ NoDup (Bot31.assigned rep)
        /\ (forall uid, uid ∈ Bot31.assigned rep -> uid ∈ pool)
        /\ is_Some (Bot31.run_insufficient rep))
  /\
  (forall (pool : list Z) (w : Bot30.World) (data : Bot30.Data) (rng : RNG),
      sees_pool30 pool w -> pool <> [] ->
      len pool < Bot30.effective_picks data ->
      exists selected data' rng',
        Bot30.cmd_run shuffle w data rng
        = (Bot30.reply_run_done selected, data', rng')
        /\ Bot30.current_holders data' = selected
        /\ len pool < len selected).
Proof.
  split.
  - intros pool cfg w st rng Hnd Hnd0 Hw HP.
    destruct (perform_run_report pool cfg w st rng Hw)
      as (rep & st' & Hrun & Hsub & _ & Hnote).
    destruct (select_picks_under_supply (Bot31.effective_picks cfg) pool
                (Bot31.current_cycle_pool st) rng Hnd Hnd0 HP)
      as [Hperm _].
    exists rep, st'. eexists. split; [exact Hrun|].
    repeat split.
    + apply sublist_length in Hsub. apply Permutation_length in Hperm.
      unfold len. lia.
    + eapply sublist_NoDup; [|exact Hsub]. by rewrite Hperm.
    + intros uid Huid. rewrite <- Hperm. by eapply elem_of_sublist.
    + rewrite Hnote. destruct (Z.ltb_spec (len pool)
                                 (Bot31.effective_picks cfg)); [done | lia].
  - intros pool w data rng Hw Hne HP.
    destruct (run_rotation_selection shuffle pool w data rng Hw)
      as (data' & Hrun & Hh & _).
    pose proof (effective_picks30_ge_1 data) as Hy.
    set (y := Bot30.effective_picks data) in *.
    pose proof (shuffle_len shuffle shuffle_perm) as Hlen.
    assert (0 < len pool) as Hpos.
    { destruct pool; [done|]. unfold len. simpl. lia. }
    assert (exists sel,
               (Bot30.select_ids shuffle y pool
                  (Bot30.current_cycle data) rng).1.1 = sel
               /\ Forall (fun uid => uid ∈ pool) sel
               /\ len pool < len sel) as (sel & Hsel & Hin & Hlong).
    { pose proof (leftovers30_in_pool pool (Bot30.current_cycle data)) as Hz.
      destruct (decide (leftovers30 pool (Bot30.current_cycle data) = []))
        as [He | Hnz].
      - rewrite select_ids_fresh_topup by (done || (rewrite Hlen; lia)).
        simpl. eexists. split; [done|]. split.
        + apply Forall_app. split; [apply shuffle_in_pool, shuffle_perm|].
          apply Forall_take_of, shuffle_in_pool, shuffle_perm.
        + pose proof (Hlen rng pool) as H1.
          pose proof (Hlen (shuffle rng pool).2 pool) as H2.
          unfold len in *. rewrite length_app, length_take. lia.
      - assert (0 < len (leftovers30 pool (Bot30.current_cycle data)))
          as Hzpos.
        { destruct (leftovers30 pool (Bot30.current_cycle data));
            [done|]. unfold len. simpl. lia. }
        destruct (Z.le_gt_cases y
                    (len (leftovers30 pool (Bot30.current_cycle data))))
          as [Hfull | Htop].
        + rewrite select_ids_carry_full by done. simpl.
          eexists. split; [done|]. split; [by apply Forall_take_of|].
          unfold len in *. rewrite length_take. lia.
        + rewrite select_ids_carry_topup by done. simpl.
          eexists. split; [done|]. split.
          * apply Forall_app. split; [done|].
            apply Forall_take_of, shuffle_in_pool, shuffle_perm.
          * pose proof (Hlen rng pool) as H1.
            unfold len in *. rewrite length_app, length_take. lia. }
    rewrite Hsel in Hrun, Hh. rewrite filter_all in Hrun, Hh by done.
    unfold Bot30.cmd_run. rewrite Hrun.
    destruct sel as [|x sel'].
    { unfold len in Hlong. simpl in Hlong. lia. }
    do 3 eexists. split; [reflexivity|]. done.
Qed.

End UnderSupply.

(** Two members with role A and five picks per run. *)
Definition guild2 : Guild :=
  [mkMember 1 false [10]; mkMember 2 false [10]].

Lemma under_supply_run_witness :
  (exists rep st' rng',
      Bot31.perform_run reverse_shuffle (world31 guild2 always 100)
        (config31 5 "weekly") state31_empty 0%nat
      = (Some rep, st', rng')
      /\ (len (Bot31.assigned rep) <= len [1; 2])
      /\ NoDup (Bot31.assigned rep)
      /\ (forall uid, uid ∈ Bot31.assigned rep -> uid ∈ [1; 2])
      /\ is_Some (Bot31.run_insufficient rep))
  /\
  (exists selected data' rng',
      Bot30.cmd_run reverse_shuffle
        (world30 guild2 (Bot30.mkApi always always) 100) (data_picks 5) 0%nat
      = (Bot30.reply_run_done selected, data', rng')
      /\ Bot30.current_holders data' = selected
      /\ len [1; 2] < len selected).
Proof.
  split.
  - apply (proj1 (under_supply_run reverse_shuffle reverse_shuffle_perm)
             [1; 2] (config31 5 "weekly") (world31 guild2 always 100)
             state31_empty 0%nat).
    + apply (bool_decide_unpack _). by vm_compute.
    + apply (bool_decide_unpack _). by vm_compute.
    + repeat split; apply (bool_decide_unpack _); by vm_compute.
    + by vm_compute.
  - apply (proj2 (under_supply_run reverse_shuffle reverse_shuffle_perm)
             [1; 2] (world30 guild2 (Bot30.mkApi always always) 100)
             (data_picks 5) 0%nat).
    + exists 10, 11. by vm_compute.
    + done.
    + by vm_compute.
Defined.

(** C7, as stated, fails in bot3.0.py: with a pool of 2 members and 5 picks
    the batch has four entries, each member twice, and [/run] answers with
    the plain list of the members assigned: nothing tells that the pool was
    too small. *)
Lemma under_supply_in_bot30 :
  let w := world30 guild2 (Bot30.mkApi always always) 100 in
  Bot30.eligible_members_with_role_a guild2 10 = [1; 2]
  /\ Bot30.effective_picks (data_picks 5) = 5
  /\ (Bot30.cmd_run reverse_shuffle w (data_picks 5) 0%nat).1.1
     = Bot30.reply_run_done [2; 1; 2; 1]
  /\ Bot30.current_holders
       (Bot30.cmd_run reverse_shuffle w (data_picks 5) 0%nat).1.2
     = [2; 1; 2; 1].
Proof. repeat split; by vm_compute. Qed.

(** ** The pick count *)

Lemma nonempty_len {A} (l : list A) : l <> [] <-> 0 < len l.
Proof.
  unfold len. destruct l; simpl; split; try done; try lia.
Qed.

Section PickCount.
Context {RNG : Type} (shuffle : RNG -> list Z -> list Z * RNG).
Hypothesis shuffle_perm : forall g l, (shuffle g l).1 ≡ₚ l.

(** Whatever bot3.0.py selects is in the pool, and with a pool that is not
    empty something is selected. *)
Lemma select_ids_in_pool_nonempty y a_ids cycle rng :
  1 <= y ->
  let sel := (Bot30.select_ids shuffle y a_ids cycle rng).1.1 in
  Forall (fun uid => uid ∈ a_ids) sel /\ (a_ids <> [] -> sel <> []).
Proof.
  simpl. intros Hy.
  pose proof (leftovers30_in_pool a_ids cycle) as Hz.
  pose proof (shuffle_len shuffle shuffle_perm) as Hlen.
  pose proof (shuffle_in_pool shuffle shuffle_perm) as Hin.
  destruct (decide (leftovers30 a_ids cycle = [])) as [He | Hne].
  - destruct (Z.le_gt_cases y (len (shuffle rng a_ids).1)) as [Hf | Hs].
    + rewrite select_ids_fresh_full by done. simpl.
      split; [by apply Forall_take_of|].
      intros Hp. apply nonempty_len. apply nonempty_len in Hp.
      unfold len in *. rewrite length_take. lia.
    + rewrite select_ids_fresh_topup by done. simpl. split.
      * apply Forall_app. split; [done | by apply Forall_take_of].
      * intros Hp. apply nonempty_len. apply nonempty_len in Hp.
        pose proof (Hlen rng a_ids).
        unfold len in *. rewrite length_app. lia.
  - apply nonempty_len in Hne as Hpos.
    destruct (Z.le_gt_cases y (len (leftovers30 a_ids cycle))) as [Hf | Hs].
    + rewrite select_ids_carry_full by done. simpl.
      split; [by apply Forall_take_of|].
      intros _. apply nonempty_len.
      unfold len in *. rewrite length_take. lia.
    + rewrite select_ids_carry_topup by done. simpl. split.
      * apply Forall_app. split; [done | by apply Forall_take_of].
      * intros _. apply nonempty_len.
        unfold len in *. rewrite length_app. lia.
Qed.



End PickCount.


(** ** Hold-time accounting *)

Lemma finalize_stats30_open now uid (st : gmap Z Bot30.UserStat) acc started :
  st !! uid = Some (Bot30.mkStat acc (Some started)) -> started <> 0 ->
  Bot30.finalize_stats now uid st
  = <[uid := Bot30.mkStat (acc + Z.max 0 (now - started)) None]> st.
Proof.
  intros Hst Hne. unfold Bot30.finalize_stats, Bot30.ensure_user_stat.
  rewrite Hst, Hst. simpl.
  by destruct (Z.eqb_spec started 0).
Qed.

Lemma finalize_stats30_closed now uid (st : gmap Z Bot30.UserStat) acc :
  st !! uid = Some (Bot30.mkStat acc None) ->
  Bot30.finalize_stats now uid st = st.
Proof.
  intros Hst. unfold Bot30.finalize_stats, Bot30.ensure_user_stat.
  by rewrite Hst, Hst.
Qed.

Lemma finalize_stats30_absent now uid (st : gmap Z Bot30.UserStat) :
  st !! uid = None ->
  Bot30.finalize_stats now uid st = <[uid := Bot30.mkStat 0 None]> st.
Proof.
  intros Hst. unfold Bot30.finalize_stats, Bot30.ensure_user_stat.
  by rewrite Hst, lookup_insert_eq.
Qed.

(** A start at timestamp 0 counts as no start: the entry is left as it
    is, start included. *)
Lemma finalize_stats30_zero_start now uid (st : gmap Z Bot30.UserStat) acc :
  st !! uid = Some (Bot30.mkStat acc (Some 0)) ->
  Bot30.finalize_stats now uid st = st.
Proof.
  intros Hst. unfold Bot30.finalize_stats, Bot30.ensure_user_stat.
  by rewrite Hst, Hst.
Qed.

Lemma open_holds30_one api now uid (st : gmap Z Bot30.UserStat) :
  Bot30.add_ok api uid = true ->
  Bot30.open_holds api now [uid] st
  = <[uid := Bot30.mkStat
               (from_option Bot30.seconds_total 0 (st !! uid)) (Some now)]> st.
Proof.
  intros Hok. unfold Bot30.open_holds, Bot30.ensure_user_stat. simpl.
  rewrite Hok. destruct (st !! uid) as [rec|] eqn:Hst.
  - by rewrite Hst.
  - rewrite lookup_insert_eq. simpl. by rewrite insert_insert_eq.
Qed.

Lemma finalize_stats31_open now uid (st : gmap Z Bot31.UserStats) acc started :
  st !! uid = Some (Bot31.mkUserStats acc (Some started)) ->
  Bot31.finalize_stats now uid st
  = <[uid := Bot31.mkUserStats (acc + Z.quot (now - started) 1000000)
                               None]> st.
Proof. intros Hst. unfold Bot31.finalize_stats. by rewrite Hst. Qed.

Lemma finalize_stats31_closed now uid (st : gmap Z Bot31.UserStats) acc :
  st !! uid = Some (Bot31.mkUserStats acc None) ->
  Bot31.finalize_stats now uid st = st.
Proof.
  intros Hst. unfold Bot31.finalize_stats. rewrite Hst. simpl.
  by apply insert_id.
Qed.

Lemma finalize_stats31_absent now uid (st : gmap Z Bot31.UserStats) :
  st !! uid = None ->
  Bot31.finalize_stats now uid st = <[uid := Bot31.mkUserStats 0 None]> st.
Proof. intros Hst. unfold Bot31.finalize_stats. by rewrite Hst. Qed.

(** C3, as amended.  Hold-time accounting.
    - bot3.0.py, where timestamps are whole seconds: closing the interval
      of a member whose entry has a start that is set and is not 0 adds
      max(0, now - start) to [seconds_total] and clears the start; an entry
      that is closed is left unchanged and a missing entry is created at
      zero, closed; the total of the [stats] command is [seconds_total]
      plus max(0, now - start) of an open interval; so for a new member,
      open at t0 and close at t0+100 gives [seconds_total] = 100, and after
      opening again at t0+200 the total at t0+250 is 150 (t0 and t0+200 not
      being 0).
    - bot3.1.py, where timestamps are floats (here in microseconds):
      closing adds [int(now - start)], the seconds between the two
      truncated towards zero and not clamped at 0, and clears the start; an
      entry that is closed is left unchanged and a missing entry is created
      at zero, closed. *)
Theorem hold_time_accounting :
  (forall now uid (st : gmap Z Bot30.UserStat) acc started,
      st !! uid = Some (Bot30.mkStat acc (Some started)) -> started <> 0 ->
      Bot30.finalize_stats now uid st
      = <[uid := Bot30.mkStat (acc + Z.max 0 (now - started)) None]> st)
  /\
  (forall now uid (st : gmap Z Bot30.UserStat),
      (forall acc, st !! uid = Some (Bot30.mkStat acc None) ->
                   Bot30.finalize_stats now uid st = st)
      /\ (st !! uid = None ->
          Bot30.finalize_stats now uid st
          = <[uid := Bot30.mkStat 0 None]> st))
  /\
  (forall now acc,
      Bot30.stats_total now (Bot30.mkStat acc None) = acc
      /\ forall started, started <> 0 ->
           Bot30.stats_total now (Bot30.mkStat acc (Some started))
           = acc + Z.max 0 (now - started))
  /\
  (forall api uid (st : gmap Z Bot30.UserStat) t0,
      st !! uid = None -> Bot30.add_ok api uid = true ->
      t0 <> 0 -> t0 + 200 <> 0 ->
      let st1 := Bot30.open_holds api t0 [uid] st in
      let st2 := Bot30.finalize_stats (t0 + 100) uid st1 in
      let st3 := Bot30.open_holds api (t0 + 200) [uid] st2 in
      st2 !! uid = Some (Bot30.mkStat 100 None)
      /\ Bot30.stats_total (t0 + 250) <$> st3 !! uid = Some 150)
  /\
  (forall now uid (st : gmap Z Bot31.UserStats),
      (forall acc started,
          st !! uid = Some (Bot31.mkUserStats acc (Some started)) ->
          Bot31.finalize_stats now uid st
          = <[uid := Bot31.mkUserStats
                       (acc + Z.quot (now - started) 1000000) None]> st)
      /\ (forall acc, st !! uid = Some (Bot31.mkUserStats acc None) ->
                      Bot31.finalize_stats now uid st = st)
      /\ (st !! uid = None ->
          Bot31.finalize_stats now uid st
          = <[uid := Bot31.mkUserStats 0 None]> st)).
Proof.
  split; [exact finalize_stats30_open|].
  split.
  { intros now uid st. split.
    - intros acc. apply finalize_stats30_closed.
    - apply finalize_stats30_absent. }
  split.
  { intros now acc. split; [done|]. intros started Hne.
    unfold Bot30.stats_total. simpl. by destruct (Z.eqb_spec started 0). }
  split.
  2: { intros now uid st. split; [|split].
       - intros acc started. apply finalize_stats31_open.
       - intros acc. apply finalize_stats31_closed.
       - apply finalize_stats31_absent. }
  intros api uid st t0 Hst Hok H0 H200. cbv zeta.
  rewrite (open_holds30_one api t0) by done. rewrite Hst.
  cbn [from_option].
  rewrite (finalize_stats30_open _ _ _ 0 t0)
    by (done || by rewrite lookup_insert_eq).
  rewrite insert_insert_eq.
  replace (0 + Z.max 0 (t0 + 100 - t0)) with 100 by lia.
  rewrite open_holds30_one by done.
  rewrite !lookup_insert_eq. split; [done|].
  cbn [from_option fmap option_fmap option_map Bot30.seconds_total].
  unfold Bot30.stats_total. cbn [Bot30.hold_started_ts Bot30.seconds_total].
  unfold Bot30.truthy.
  destruct (Z.eqb_spec (t0 + 200) 0); [done|].
  cbn [negb]. f_equal. lia.
Qed.

Definition stat_open : gmap Z Bot30.UserStat :=
  {[ 7 := Bot30.mkStat 40 (Some 1000) ]}.
Definition stat_closed : gmap Z Bot30.UserStat :=
  {[ 7 := Bot30.mkStat 40 None ]}.
(** Member 7 got the role at 1000.2 s (bot3.1.py). *)
Definition stat31_open : gmap Z Bot31.UserStats :=
  {[ 7 := Bot31.mkUserStats 40 (Some 1000200000) ]}.

Lemma hold_time_accounting_witness :
  Bot30.finalize_stats 1100 7 stat_open
  = <[7 := Bot30.mkStat (40 + Z.max 0 (1100 - 1000)) None]> stat_open
  /\ Bot30.finalize_stats 1100 7 stat_closed = stat_closed
  /\ Bot30.finalize_stats 1100 7 ∅ = <[7 := Bot30.mkStat 0 None]> ∅
  /\ Bot30.stats_total 1100 (Bot30.mkStat 40 (Some 1000))
     = 40 + Z.max 0 (1100 - 1000)
  /\ (let st1 := Bot30.open_holds (Bot30.mkApi always always) 1000 [7] ∅ in
      let st2 := Bot30.finalize_stats (1000 + 100) 7 st1 in
      let st3 := Bot30.open_holds (Bot30.mkApi always always)
                   (1000 + 200) [7] st2 in
      st2 !! 7 = Some (Bot30.mkStat 100 None)
      /\ Bot30.stats_total (1000 + 250) <$> st3 !! 7 = Some 150)
  /\ Bot31.finalize_stats 1100900000 7 stat31_open
     = <[7 := Bot31.mkUserStats
                (40 + Z.quot (1100900000 - 1000200000) 1000000) None]>
         stat31_open
  /\ Bot31.finalize_stats 1100900000 7 ∅
     = <[7 := Bot31.mkUserStats 0 None]> ∅.
Proof.
  destruct hold_time_accounting as (Hopen & Hclosed & Htotal & Hround & H31).
  split; [by apply Hopen|].
  split; [by apply (proj1 (Hclosed 1100 7 stat_closed) 40)|].
  split; [by apply (proj2 (Hclosed 1100 7 ∅))|].
  split; [by apply (proj2 (Htotal 1100 40))|].
  split; [by apply Hround|].
  split.
  - by apply (proj1 (H31 1100900000 7 stat31_open)).
  - by apply (proj2 (proj2 (H31 1100900000 7 ∅))).
Defined.

(** A guild where member 7 holds role B (and is not in role A) and member 1
    is in role A; the stats of bot3.1.py say 7 got the role at 100.9 s. *)
Definition guild_holder : Guild :=
  [mkMember 1 false [10]; mkMember 7 false [11]].

Definition state31_holder : Bot31.GuildState :=
  Bot31.mkGuildState [] {[ 7 := Bot31.mkUserStats 0 (Some 100900000) ]}.

(** C3, as stated, fails in bot3.1.py: a run at 50.4 s closes the interval
    member 7 opened at 100.9 s by adding int(50.4 - 100.9) = -50 to the
    total, where max(0, now - start) is 0. *)
Lemma close_is_not_clamped_in_bot31 :
  let run := Bot31.perform_run reverse_shuffle
               (world31 guild_holder always 50400000)
               (config31 1 "weekly") state31_holder 0%nat in
  Bot31.stats run.1.2 !! 7 = Some (Bot31.mkUserStats (-50) None)
  /\ -50 <> 0 + Z.max 0 (50 - 100).
Proof. split; [by vm_compute | lia]. Qed.

(** ** Holders and open intervals *)

(** Member 2 cannot be given the role. *)
Definition api_refuses_2 : Bot30.Api :=
  Bot30.mkApi (fun uid => negb (uid =? 2)) always.

(** C4 in bot3.0.py (the same lines are in bot2.0.py).  Two eligible
    members, two picks, the [add_roles] call for member 2 fails: after the
    run member 2 is recorded in [current_holders] although no interval was
    opened for it (it has no stats entry at all), while member 1 is a
    holder with an interval open since the run.  The recorded holders are
    not the members with an open interval. *)
Theorem failed_grant_is_recorded_as_holder :
  let w := world30 guild2 api_refuses_2 100 in
  let data' := (Bot30.run_rotation reverse_shuffle w (data_picks 2) 0%nat).1.2
  in
  Bot30.add_ok api_refuses_2 2 = false
  /\ Bot30.current_holders data' = [2; 1]
  /\ Bot30.stats data' !! 2 = None
  /\ Bot30.stats data' !! 1 = Some (Bot30.mkStat 0 (Some 100)).
Proof. repeat split; by vm_compute. Qed.

(** ** The schedule calculators *)

Definition monthly_on (dom : Z) : Bot30.Schedule :=
  Bot30.mkSchedule (Some true) (Some "monthly"%string) (Some 3) (Some 4)
                   (Some dom) (9, 0).

(** C5 in bot3.0.py (the same function is in bot2.0.py).  Monthly on day 30
    at 09:00, asked on 30 January 2025 at 12:00: the candidate of the month
    has passed, the move to February keeps day 30 and [replace] raises
    [ValueError]; no next run is computed. *)
Theorem monthly_next_run_raises :
  valid (mkdt 2025 1 30 12 0 0 0 3600) = true
  /\ Bot30.next_run_from_now (monthly_on 30) (mkdt 2025 1 30 12 0 0 0 3600)
     = Raise ValueError.
Proof. split; by vm_compute. Qed.

(** C6 in bot3.0.py (the same function is in bot2.0.py).  Monthly on day
    31 at 09:00.  Asked on 5 April 2025 the day is clamped to 30 April
    09:00; asked on 31 March 2025 at 10:00, when the next run belongs to
    April, the move to April keeps day 31 and [replace] raises
    [ValueError] before the day is clamped. *)
Theorem monthly_day_31_into_april :
  int_timestamp (mkdt 2025 4 30 9 0 0 0 3600) = 1746000000
  /\ Bot30.next_run_from_now (monthly_on 31) (mkdt 2025 4 5 10 0 0 0 3600)
     = Ret (Some 1746000000)
  /\ Bot30.next_run_from_now (monthly_on 31) (mkdt 2025 3 31 10 0 0 0 3600)
     = Raise ValueError.
Proof. repeat split; by vm_compute. Qed.

Definition known_types : list string :=
  ["daily"; "weekly"; "monthly"; "every_n_days"]%string.

Definition known_presets : list string :=
  ["daily"; "weekly"; "monthly"]%string.

Definition with_preset (cfg : Bot31.GuildConfig) (p : string)
  : Bot31.GuildConfig :=
  Bot31.mkGuildConfig (Bot31.role_a_id cfg) (Bot31.role_b_id cfg)
    (Bot31.picks_number cfg) (Bot31.announcement_channel_id cfg)
    (Bot31.mkScheduleConfig
       (Bot31.sc_mode (Bot31.schedule cfg)) p
       (Bot31.sc_every_days (Bot31.schedule cfg))
       (Bot31.sc_hour (Bot31.schedule cfg))
       (Bot31.sc_minute (Bot31.schedule cfg))).

Lemma eqb_not_in (k x : string) (l : list string) :
  k ∉ l -> x ∈ l -> String.eqb k x = false.
Proof.
  intros Hk Hx. apply String.eqb_neq. intros ->. by apply Hk.
Qed.

(** C8, as amended.
    - bot3.0.py (the same function is in bot2.0.py): [next_run_from_now]
      returns none when the schedule is not enabled (the flag is false or
      missing), and for an enabled schedule whose type is none of daily,
      weekly, monthly, every_n_days.
    - bot3.1.py: [compute_next_run] has no enabled flag and never returns
      none; a preset that is none of daily, weekly, monthly is scheduled as
      daily. *)
Theorem next_run_none_or_fallback :
  (forall s now,
      default false (Bot30.s_enabled s) = false ->
      Bot30.next_run_from_now s now = Ret None)
  /\
  (forall s now k,
      Bot30.s_enabled s = Some true -> Bot30.s_type s = Some k ->
      k ∉ known_types ->
      Bot30.next_run_from_now s now = Ret None)
  /\
  (forall cfg now,
      Bot31.sc_mode (Bot31.schedule cfg) = "preset"%string ->
      Bot31.sc_preset (Bot31.schedule cfg) ∉ known_presets ->
      Bot31.compute_next_run cfg now
      = Bot31.compute_next_run (with_preset cfg "daily") now).
Proof.
  split; [|split].
  - intros s now He. unfold Bot30.next_run_from_now. by rewrite He.
  - intros s now k He Ht Hk. unfold Bot30.next_run_from_now.
    rewrite He, Ht. simpl. destruct (Bot30.s_time s) as [hh mm].
    rewrite !(eqb_not_in k _ known_types) by (done || set_solver). done.
  - intros cfg now Hm Hp. unfold Bot31.compute_next_run. simpl.
    rewrite Hm. simpl.
    rewrite !(eqb_not_in _ _ known_presets) by (done || set_solver). done.
Qed.

Lemma next_run_none_or_fallback_witness :
  Bot30.next_run_from_now schedule_off (mkdt 2025 3 31 13 0 0 0 3600)
  = Ret None
  /\ Bot30.next_run_from_now
       (Bot30.mkSchedule (Some true) (Some "yearly"%string) None None None
                         (9, 0))
       (mkdt 2025 3 31 13 0 0 0 3600)
     = Ret None
  /\ Bot31.compute_next_run (config31 2 "yearly")
       (mkdt 2025 3 31 13 0 0 0 3600)
     = Bot31.compute_next_run (with_preset (config31 2 "yearly") "daily")
         (mkdt 2025 3 31 13 0 0 0 3600).
Proof.
  destruct next_run_none_or_fallback as (Hoff & Hunknown & Hpreset).
  split; [by apply Hoff|].
  split.
  - apply (Hunknown _ _ "yearly"%string); [done | done |].
    apply (bool_decide_unpack _). by vm_compute.
  - apply Hpreset; [done|].
    apply (bool_decide_unpack _). by vm_compute.
Defined.

(** C8, as stated, fails in bot3.1.py: the preset "yearly" is not
    recognized, and asked on 31 March 2025 at 13:00 for 12:00
    [compute_next_run] returns 1 April 2025 12:00, the daily schedule. *)
Lemma unrecognized_preset_runs_daily :
  Bot31.compute_next_run (config31 2 "yearly") (mkdt 2025 3 31 13 0 0 0 3600)
  = Ret (mkdt 2025 4 1 12 0 0 0 3600)
  /\ Bot31.compute_next_run (config31 2 "daily")
       (mkdt 2025 3 31 13 0 0 0 3600)
     = Ret (mkdt 2025 4 1 12 0 0 0 3600).
Proof. split; by vm_compute. Qed.

(** ** Runs that overlap *)

Section Alone.
Context {RNG : Type} (shuffle : RNG -> list Z -> list Z * RNG).

Lemma pick_next_batch_in_two guild role_a role_b api now_ts data rng :
  Bot20.pick_next_batch shuffle guild role_a role_b api now_ts data rng
  = let '(selected, data, rng) :=
      Tasks20.pick_selection shuffle guild role_a data rng in
    (selected, Tasks20.pick_grants api now_ts selected data, rng).
Proof.
  unfold Bot20.pick_next_batch, Tasks20.pick_selection, Tasks20.pick_grants.
  by destruct (Bot30.select_ids _ _ _ _ _) as [[sel cyc] rng'].
Qed.

(** The tasks of bot2.0.py, when the loop resumes nothing else, do what
    [run_rotation] and the scheduler's two rotations do. *)
Lemma cmd_run_alone w data rng :
  Asyncio.run_alone 4 (Tasks20.cmd_run shuffle w) (data, rng)
  = Some (let '(_, _, data, rng) := Bot20.run_rotation shuffle w data rng in
          (data, rng)).
Proof.
  unfold Tasks20.cmd_run, Bot20.run_rotation, Tasks20.rotation.
  destruct (Bot30.w_role_a w) as [role_a|]; [|done].
  destruct (Bot30.w_role_b w) as [role_b|]; [|done].
  cbn [Asyncio.run_alone].
  destruct (Bot20.remove_role_b_from_current_holders _ _ _ _ _) as [d1 rev].
  rewrite pick_next_batch_in_two.
  destruct (Tasks20.pick_selection _ _ _ _ _) as [[sel d2] rng2].
  by destruct sel.
Qed.

Lemma scheduler_loop_alone w1 w2 data rng :
  Asyncio.run_alone 6 (Tasks20.scheduler_loop shuffle w1 w2) (data, rng)
  = Some (let '(_, data, rng) :=
            Bot20.scheduled_run shuffle w1 w2 data rng in
          (data, rng)).
Proof.
  unfold Tasks20.scheduler_loop, Bot20.scheduled_run, Tasks20.rotation.
  destruct (Bot30.w_role_a w1) as [role_a|]; [|done].
  destruct (Bot30.w_role_b w1) as [role_b|]; [|done].
  cbn [Asyncio.run_alone].
  destruct (Bot20.remove_role_b_from_current_holders _ _ _ _ data)
    as [d1 rev1].
  rewrite pick_next_batch_in_two.
  destruct (Tasks20.pick_selection _ _ _ d1 rng) as [[sel1 d2] rng2].
  destruct sel1 as [|x1 sel1]; cbn [Asyncio.run_alone].
  - destruct (Bot20.remove_role_b_from_current_holders _ _ _ _ _)
      as [d3 rev2].
    rewrite pick_next_batch_in_two.
    destruct (Tasks20.pick_selection _ _ _ d3 rng2) as [[sel2 d4] rng4].
    by destruct sel2.
  - destruct (Bot20.remove_role_b_from_current_holders _ _ _ _ _)
      as [d3 rev2].
    rewrite pick_next_batch_in_two.
    destruct (Tasks20.pick_selection _ _ _ d3 rng2) as [[sel2 d4] rng4].
    by destruct sel2.
Qed.

End Alone.

(** Giving and taking roles leaves [guild.get_member] as it is, up to the
    roles of the member found. *)
Definition same_ids (g g' : Guild) : Prop :=
  forall uid, m_id <$> get_member g' uid = m_id <$> get_member g uid.

Lemma get_member_fmap (f : Member -> Member) (g : Guild) uid :
  (forall m, m_id (f m) = m_id m) ->
  get_member (f <$> g) uid = f <$> get_member g uid.
Proof.
  intros Hf. unfold get_member.
  induction g as [|m g IH]; [done|]. cbn [fmap list_fmap find].
  rewrite Hf. by destruct (bool_decide (m_id m = uid)).
Qed.

Lemma same_ids_remove_roles role uids : forall g,
  same_ids g (foldl (fun g uid => Tasks31.remove_roles role uid g) g uids).
Proof.
  induction uids as [|u uids IH]; intros g uid; [done|].
  cbn [foldl]. rewrite IH. unfold Tasks31.remove_roles.
  rewrite get_member_fmap by (intros m; by destruct (bool_decide _)).
  destruct (get_member g uid) as [m|]; [|done]. simpl.
  by destruct (bool_decide _).
Qed.

Lemma assign_loop_same_ids (w : Bot31.World) (g g' : Guild) picks :
  same_ids g g' ->
  forall acc : gmap Z Bot31.UserStats * list Z,
  foldl (fun '(s, assigned_mentions) uid =>
           match get_member g' uid with
           | None => (s, assigned_mentions)
           | Some member =>
               if Bot31.w_add_ok w (m_id member)
               then (Bot31.open_stats (Bot31.w_now_ts w) (m_id member) s,
                     assigned_mentions ++ [m_id member])
               else (s, assigned_mentions)
           end) acc picks
  = foldl (fun '(s, assigned_mentions) uid =>
             match get_member g uid with
             | None => (s, assigned_mentions)
             | Some member =>
                 if Bot31.w_add_ok w (m_id member)
                 then (Bot31.open_stats (Bot31.w_now_ts w) (m_id member) s,
                       assigned_mentions ++ [m_id member])
                 else (s, assigned_mentions)
             end) acc picks.
Proof.
  intros Hsame. induction picks as [|uid picks IH]; intros [s acc]; [done|].
  cbn [foldl]. specialize (Hsame uid).
  destruct (get_member g' uid) as [m'|], (get_member g uid) as [m|];
    simpl in Hsame; try done.
  injection Hsame as ->. apply IH.
Qed.

Section Alone31.
Context {RNG : Type} (shuffle : RNG -> list Z -> list Z * RNG).

(** The task of bot3.1.py, when the loop resumes nothing else, leaves the
    state [perform_run] leaves. *)
Lemma perform_run_alone w cfg g st rng :
  (fun s : Guild * Bot31.GuildState * RNG => (s.1.2, s.2))
    <$> Asyncio.run_alone 2 (Tasks31.perform_run shuffle w cfg) (g, st, rng)
  = Some (let '(_, st, rng) :=
            Bot31.perform_run shuffle (Tasks31.seen w g) cfg st rng in
          (st, rng)).
Proof.
  unfold Tasks31.perform_run, Bot31.perform_run.
  cbn [Asyncio.run_alone].
  destruct (Bot31.get_role _ (Bot31.role_a_id cfg)) as [role_a|]; [|done].
  destruct (Bot31.get_role _ (Bot31.role_b_id cfg)) as [role_b|]; [|done].
  destruct (foldl _ (Bot31.stats st, []) _) as [stats1 removed].
  destruct (Bot31.select_picks _ _ _ _ _) as [[picks pool] rng'].
  set (g1 := foldl _ g removed).
  assert (Tasks31.grants (Tasks31.seen w g) role_b picks
            (g1, Bot31.mkGuildState pool stats1, rng')
          = let '(stats2, assigned_mentions) :=
              foldl (fun '(s, assigned_mentions) uid =>
                       match get_member g uid with
                       | None => (s, assigned_mentions)
                       | Some member =>
                           if Bot31.w_add_ok w (m_id member)
                           then (Bot31.open_stats (Bot31.w_now_ts w)
                                                  (m_id member) s,
                                 assigned_mentions ++ [m_id member])
                           else (s, assigned_mentions)
                       end)
                    (stats1, []) picks in
            (foldl (fun g uid => Tasks31.add_roles role_b uid g) g1
                   assigned_mentions,
             Bot31.mkGuildState pool stats2, rng')) as Hgr.
  { unfold Tasks31.grants. cbn [Bot31.w_now_ts Bot31.w_add_ok Tasks31.seen
      Bot31.stats Bot31.current_cycle_pool].
    by rewrite (assign_loop_same_ids w g g1)
      by apply same_ids_remove_roles. }
  destruct (forallb _ picks); cbn [Asyncio.run_alone]; rewrite Hgr;
    cbn [Tasks31.seen Bot31.w_members Bot31.w_add_ok Bot31.w_now_ts];
    by destruct (foldl _ (stats1, []) picks).
Qed.

End Alone31.

(** A run is due for the scheduler of bot2.0.py while a member issues
    [/run]: five members in role A, two picks per run, the initial data.
    The scheduler's second rotation sees members 5 and 4 with role B. *)
Definition overlap20 : Asyncio.loop (Bot30.Data * nat) :=
  Asyncio.mkLoop (data_picks 2, 0%nat) false
    [Tasks20.scheduler_loop reverse_shuffle
       (world30 guild5 (Bot30.mkApi always always) 100)
       (world30 (Tasks31.add_roles 11 4 (Tasks31.add_roles 11 5 guild5))
                (Bot30.mkApi always always) 200);
     Tasks20.cmd_run reverse_shuffle
       (world30 guild5 (Bot30.mkApi always always) 300)].

(** The scheduler up to the first [add_roles] of its second rotation; then
    [/run] up to its first [add_roles]; then the rest of the scheduler's
    rotation; then the rest of [/run]. *)
Definition overlapping : list nat := [0; 0; 0; 0; 0; 1; 1; 0; 1; 1]%nat.

(** One after the other. *)
Definition scheduler_first : list nat := [0; 0; 0; 0; 0; 0; 1; 1; 1; 1]%nat.
Definition command_first : list nat := [1; 1; 1; 1; 0; 0; 0; 0; 0; 0]%nat.

(** A scheduled run of bot3.1.py is due while a member issues [/run]: the
    same five members, nobody with role B, two picks per run, the initial
    state; the clock reads 100 s in one run and 200 s in the other. *)
Definition overlap31 : Asyncio.loop (Guild * Bot31.GuildState * nat) :=
  Asyncio.mkLoop (guild5, state31_empty, 0%nat) false
    [Tasks31.perform_run reverse_shuffle (world31 guild5 always 100000000)
       (config31 2 "weekly");
     Tasks31.perform_run reverse_shuffle (world31 guild5 always 200000000)
       (config31 2 "weekly")].

(** The members of the guild who have role B (role 11 in the examples). *)
Definition with_role_b (g : Guild) : list Z :=
  m_id <$> filter (fun m => Is_true (has_role 11 m)) g.

(** The start of the open interval of a member, if it has one. *)
Definition open_since20 (data : Bot30.Data) (uid : Z) : option Z :=
  Bot30.stats data !! uid ≫= Bot30.hold_started_ts.

Definition open_since31 (st : Bot31.GuildState) (uid : Z) : option Z :=
  Bot31.stats st !! uid ≫= Bot31.last_assigned_at.

(** What a schedule leaves in bot2.0.py, if the loop can follow it: whether
    each task has ended, the recorded holders, and the open intervals of
    members 1 to 5. *)
Definition outcome20 (sched : list nat)
  : option (list bool * list Z * list (option Z)) :=
  match Asyncio.run_schedule sched overlap20 with
  | Some l =>
      let data := (Asyncio.shared l).1 in
      Some (Asyncio.ended <$> Asyncio.tasks l,
            Bot30.current_holders data,
            open_since20 data <$> [1; 2; 3; 4; 5])
  | None => None
  end.

(** The members the next removal takes the role from, when members 1, 2, 3
    and 5 have it. *)
Definition revoked_next20 (sched : list nat) : option (list Z) :=
  match Asyncio.run_schedule sched overlap20 with
  | Some l =>
      Some (Bot20.remove_role_b_from_current_holders
              (foldr (Tasks31.add_roles 11) guild5 [1; 2; 3; 5]) 11
              (Bot30.mkApi always always) 400 (Asyncio.shared l).1).2
  | None => None
  end.

(** The same in bot3.1.py, with the members who have role B in the guild
    for the recorded holders. *)
Definition outcome31 (sched : list nat)
  : option (list bool * list Z * list (option Z)) :=
  match Asyncio.run_schedule sched overlap31 with
  | Some l =>
      let '(g, st, _) := Asyncio.shared l in
      Some (Asyncio.ended <$> Asyncio.tasks l,
            with_role_b g,
            open_since31 st <$> [1; 2; 3; 4; 5])
  | None => None
  end.

(** C9.  Runs are not serialized.
    bot2.0.py: the lock keeps [/run] out while the scheduler's first
    rotation is in progress, but the scheduler rotates once more after it
    has released the lock, and [/run] can take the lock in the middle of
    that rotation.  The two runs then interleave: the scheduler has emptied
    [current_holders] and selected members 3 and 2, [/run] finds no holder
    to remove and selects 1 and 5, the scheduler opens the intervals of 3
    and 2 and records them, [/run] opens those of 1 and 5 and records
    [1, 5] over them.  Members 3 and 2 are left with an open interval (and
    role B) but are not recorded holders, and the next removal takes the
    role from 1 and 5 only.  With the same two runs one after the other, in
    either order, the members with an open interval are the recorded
    holders.
    bot3.1.py: no lock is taken around a run.  With [/run] started at the
    first [add_roles] of the scheduled run, neither run sees the members
    of the other with role B: four members hold role B with an open
    interval after the two runs, where two picks are configured and where
    two members hold it when the runs come one after the other. *)
Theorem runs_are_not_serialized :
  (outcome20 [0; 0; 1]%nat = None
   /\ outcome20 overlapping
      = Some ([true; true], [1; 5],
              [Some 300; Some 200; Some 200; None; Some 300])
   /\ revoked_next20 overlapping = Some [1; 5]
   /\ outcome20 scheduler_first
      = Some ([true; true], [1; 5], [Some 300; None; None; None; Some 300])
   /\ outcome20 command_first
      = Some ([true; true], [1; 5], [Some 200; None; None; None; Some 200]))
  /\
  (Bot31.effective_picks (config31 2 "weekly") = 2
   /\ outcome31 [0; 1; 0; 1]%nat
      = Some ([true; true], [2; 3; 4; 5],
              [None; Some 200000000; Some 200000000;
               Some 100000000; Some 100000000])
   /\ outcome31 [0; 0; 1; 1]%nat
      = Some ([true; true], [2; 3],
              [None; Some 200000000; Some 200000000; None; None])
   /\ outcome31 [1; 1; 0; 0]%nat
      = Some ([true; true], [2; 3],
              [None; Some 100000000; Some 100000000; None; None])).
Proof. repeat split; by vm_compute. Qed.

(** ** The calendar *)

(** Days in a month of a leap or common year. *)
Definition dim_of (leap : bool) (m : Z) : Z :=
  if m =? 2 then (if leap then 29 else 28)
  else if (m =? 4) || (m =? 6) || (m =? 9) || (m =? 11) then 30
  else 31.

Lemma days_in_month_dim_of y m : days_in_month y m = dim_of (is_leap y) m.
Proof. reflexivity. Qed.

Definition month_day_ok (leap : bool) (n : Z) : bool :=
  let '(m, d) := month_day leap n in
  in_range 1 12 m && in_range 1 (dim_of leap m) d
  && (DAYS_BEFORE_MONTH m + (if (2 <? m) && leap then 1 else 0) + d =? n + 1).

Lemma month_day_checked :
  forallb (month_day_ok false) (seqZ 0 365) = true
  /\ forallb (month_day_ok true) (seqZ 0 366) = true.
Proof. split; by vm_compute. Qed.

Lemma month_day_spec (leap : bool) (n : Z) :
  0 <= n < (if leap then 366 else 365) ->
  forall m d, month_day leap n = (m, d) ->
  1 <= m <= 12 /\ 1 <= d <= dim_of leap m
  /\ DAYS_BEFORE_MONTH m + (if (2 <? m) && leap then 1 else 0) + d = n + 1.
Proof.
  intros Hn m d Hmd.
  assert (month_day_ok leap n = true) as Hok.
  { destruct month_day_checked as [Hc Hl].
    destruct leap.
    - eapply forallb_forall in Hl; [exact Hl|].
      apply list_elem_of_In, elem_of_seqZ. lia.
    - eapply forallb_forall in Hc; [exact Hc|].
      apply list_elem_of_In, elem_of_seqZ. lia. }
  unfold month_day_ok in Hok. rewrite Hmd in Hok.
  unfold in_range in Hok.
  repeat (apply andb_prop in Hok as [Hok ?]).
  repeat match goal with
         | H : (_ <=? _) = true |- _ => apply Z.leb_le in H
         | H : (_ =? _) = true |- _ => apply Z.eqb_eq in H
         end.
  lia.
Qed.

(** A year written by its place in the 400-, 100- and 4-year cycles. *)
Definition year_of (q a b c : Z) : Z := 400 * q + 100 * a + 4 * b + c + 1.

Lemma is_leap_year_of q a b c :
  0 <= a <= 3 -> 0 <= b <= 24 -> 0 <= c <= 3 ->
  is_leap (year_of q a b c) = (c =? 3) && (negb (b =? 24) || (a =? 3)).
Proof.
  intros Ha Hb Hc. unfold is_leap, year_of.
  destruct (Z.eqb_spec c 3), (Z.eqb_spec b 24), (Z.eqb_spec a 3);
    simpl;
    repeat match goal with
           | |- context [?x mod ?k =? 0] => destruct (Z.eqb_spec (x mod k) 0)
           end; simpl; try done;
    exfalso; Z.div_mod_to_equations; lia.
Qed.

Lemma days_before_year_of q a b c :
  0 <= a <= 3 -> 0 <= b <= 24 -> 0 <= c <= 3 ->
  days_before_year (year_of q a b c)
  = 146097 * q + 36524 * a + 1461 * b + 365 * c.
Proof.
  intros Ha Hb Hc. unfold days_before_year, year_of.
  Z.div_mod_to_equations. lia.
Qed.

Lemma ord2ymd_spec n0 y m d :
  ord2ymd n0 = (y, m, d) ->
  ymd2ord y m d = n0 /\ 1 <= m <= 12 /\ 1 <= d <= days_in_month y m.
Proof.
  unfold ord2ymd.
  pose proof (Z.div_mod (n0 - 1) 146097 ltac:(lia)) as E400.
  pose proof (Z.mod_pos_bound (n0 - 1) 146097 ltac:(lia)) as B400.
  set (q := (n0 - 1) / 146097) in *.
  set (r400 := (n0 - 1) mod 146097) in *.
  pose proof (Z.div_mod r400 36524 ltac:(lia)) as E100.
  pose proof (Z.mod_pos_bound r400 36524 ltac:(lia)) as B100.
  set (a := r400 / 36524) in *.
  set (r100 := r400 mod 36524) in *.
  pose proof (Z.div_mod r100 1461 ltac:(lia)) as E4.
  pose proof (Z.mod_pos_bound r100 1461 ltac:(lia)) as B4.
  set (b := r100 / 1461) in *.
  set (r4 := r100 mod 1461) in *.
  pose proof (Z.div_mod r4 365 ltac:(lia)) as E1.
  pose proof (Z.mod_pos_bound r4 365 ltac:(lia)) as B1.
  set (c := r4 / 365) in *.
  set (r1 := r4 mod 365) in *.
  assert (0 <= a <= 4) as Ha by lia.
  assert (0 <= b <= 24) as Hb by lia.
  assert (0 <= c <= 4) as Hc by lia.
  destruct (Z.eqb_spec c 4) as [Hc4 | Hc4];
    [|destruct (Z.eqb_spec a 4) as [Ha4 | Ha4]]; simpl.
  - (* the last day of the fourth year *)
    intros [= <- <- <-].
    replace (q * 400 + 1 + a * 100 + b * 4 + c - 1)
      with (year_of q a b 3) by (unfold year_of; lia).
    assert (a <= 3) by lia. assert (b <= 23) by lia.
    unfold ymd2ord, days_before_month, days_in_month.
    rewrite days_before_year_of, is_leap_year_of by lia.
    destruct (Z.eqb_spec b 24); [lia|]. simpl. lia.
  - (* the last day of the 400-year cycle *)
    intros [= <- <- <-].
    replace (q * 400 + 1 + a * 100 + b * 4 + c - 1)
      with (year_of q 3 24 3) by (unfold year_of; lia).
    unfold ymd2ord, days_before_month, days_in_month.
    rewrite days_before_year_of, is_leap_year_of by lia.
    simpl. lia.
  - replace (q * 400 + 1 + a * 100 + b * 4 + c)
      with (year_of q a b c) by (unfold year_of; lia).
    destruct (month_day _ r1) as [mo da] eqn:Hmd.
    intros [= <- <- <-].
    apply month_day_spec in Hmd;
      [|destruct ((c =? 3) && _); lia].
    rewrite <- (is_leap_year_of q a b c) in Hmd by lia.
    unfold ymd2ord, days_before_month. rewrite days_in_month_dim_of.
    rewrite days_before_year_of by lia. lia.
Qed.

Lemma ymd2ord_ord2ymd n0 :
  let '(y, m, d) := ord2ymd n0 in ymd2ord y m d = n0.
Proof.
  destruct (ord2ymd n0) as [[y m] d] eqn:He.
  by apply ord2ymd_spec in He as [? _].
Qed.

Lemma days_before_year_succ y :
  days_before_year (y + 1)
  = days_before_year y + (if is_leap y then 366 else 365).
Proof.
  unfold days_before_year, is_leap.
  repeat match goal with
         | |- context [?x mod ?k =? 0] => destruct (Z.eqb_spec (x mod k) 0)
         end; simpl; Z.div_mod_to_equations; lia.
Qed.

(** Any day of the next month comes after every day of this month. *)
Lemma next_month_later y m d d' :
  1 <= m <= 12 -> 1 <= d <= days_in_month y m -> 1 <= d' ->
  let '(y', m2) := if m =? 12 then (y + 1, 1) else (y, m + 1) in
  ymd2ord y m d < ymd2ord y' m2 d'.
Proof.
  intros Hm Hd Hd'.
  assert (m = 1 \/ m = 2 \/ m = 3 \/ m = 4 \/ m = 5 \/ m = 6 \/ m = 7
          \/ m = 8 \/ m = 9 \/ m = 10 \/ m = 11 \/ m = 12) as Hcases by lia.
  unfold ymd2ord, days_before_month, days_in_month in *.
  destruct Hcases as [-> | [-> | [-> | [-> | [-> | [-> | [-> | [-> | [->
                     | [-> | [-> | ->]]]]]]]]]]]; simpl in *;
    try rewrite days_before_year_succ;
    destruct (is_leap y); simpl in *; lia.
Qed.

(** ** Datetimes *)

(** Time of day in microseconds. *)
Definition tod_us (dt : datetime) : Z :=
  (hour dt * 3600 + minute dt * 60 + second dt) * 1000000 + microsecond dt.

Lemma wall_us_split dt :
  wall_us dt = toordinal dt * 86400000000 + tod_us dt.
Proof. unfold wall_us, tod_us. lia. Qed.

Lemma check_fields_inv y m d hh mi s us :
  check_fields y m d hh mi s us = true ->
  1 <= y <= 9999 /\ 1 <= m <= 12 /\ 1 <= d <= days_in_month y m
  /\ 0 <= hh <= 23 /\ 0 <= mi <= 59 /\ 0 <= s <= 59 /\ 0 <= us <= 999999.
Proof.
  unfold check_fields, in_range, MINYEAR, MAXYEAR. intros H.
  repeat (apply andb_prop in H as [H ?]).
  repeat match goal with
         | H : (_ <=? _) = true |- _ => apply Z.leb_le in H
         end.
  lia.
Qed.

Lemma valid_tod dt : valid dt = true -> 0 <= tod_us dt < 86400000000.
Proof.
  intros H. apply check_fields_inv in H. unfold tod_us. lia.
Qed.

Lemma later_day a b :
  valid a = true -> valid b = true -> toordinal a < toordinal b ->
  wall_us a < wall_us b.
Proof.
  intros Ha Hb Hlt. rewrite !wall_us_split.
  apply valid_tod in Ha, Hb. lia.
Qed.

Lemma replace_inv dt y m d hh mi s us c :
  replace dt y m d hh mi s us = Ret c ->
  valid c = true
  /\ year c = default (year dt) y /\ month c = default (month dt) m
  /\ day c = default (day dt) d /\ hour c = default (hour dt) hh
  /\ minute c = default (minute dt) mi /\ second c = default (second dt) s
  /\ microsecond c = default (microsecond dt) us
  /\ utcoffset c = utcoffset dt.
Proof.
  unfold replace. destruct (negb _); [done|].
  destruct (check_fields _ _ _ _ _ _ _) eqn:Hc; [|done].
  intros [= <-]. unfold valid. simpl. by rewrite Hc.
Qed.

Lemma replace_not_Fuel dt y m d hh mi s us :
  replace dt y m d hh mi s us <> Fuel.
Proof.
  unfold replace. destruct (negb _); [done|].
  by destruct (check_fields _ _ _ _ _ _ _).
Qed.

(** Arguments that are given and lie within the range of a C [int]. *)
Ltac fits_int_tac :=
  cbn [fits_int]; unfold in_range, INT_MIN, INT_MAX in *;
  repeat first [ reflexivity
               | apply andb_true_intro; split
               | apply Z.leb_le; lia ].

(** [replace] on arguments that convert to C [int]. *)
Lemma replace_eq dt y m d hh mi s us :
  fits_int y && fits_int m && fits_int d && fits_int hh
  && fits_int mi && fits_int s && fits_int us = true ->
  replace dt y m d hh mi s us
  = if check_fields (default (year dt) y) (default (month dt) m)
         (default (day dt) d) (default (hour dt) hh)
         (default (minute dt) mi) (default (second dt) s)
         (default (microsecond dt) us)
    then Ret (mkdt (default (year dt) y) (default (month dt) m)
                (default (day dt) d) (default (hour dt) hh)
                (default (minute dt) mi) (default (second dt) s)
                (default (microsecond dt) us) (utcoffset dt))
    else Raise ValueError.
Proof. intros Hfit. unfold replace. by rewrite Hfit. Qed.

(** [replace] on an argument that does not. *)
Lemma replace_overflow dt y m d hh mi s us :
  fits_int y && fits_int m && fits_int d && fits_int hh
  && fits_int mi && fits_int s && fits_int us = false ->
  replace dt y m d hh mi s us = Raise OverflowError.
Proof. intros Hfit. unfold replace. by rewrite Hfit. Qed.

Lemma add_days_inv dt n c :
  valid dt = true -> add_days dt n = Ret c ->
  valid c = true /\ toordinal c = toordinal dt + n
  /\ hour c = hour dt /\ minute c = minute dt /\ second c = second dt
  /\ microsecond c = microsecond dt /\ utcoffset c = utcoffset dt.
Proof.
  intros Hv. unfold add_days.
  destruct (negb _); [done|].
  destruct ((0 <? _) && _) eqn:Hrange; [|done].
  destruct (ord2ymd _) as [[y m] d] eqn:Ho.
  intros [= <-]. apply ord2ymd_spec in Ho as (Hord & Hm & Hd).
  apply andb_prop in Hrange as [Hlo Hhi].
  apply Z.ltb_lt in Hlo. apply Z.leb_le in Hhi.
  unfold toordinal at 1. simpl. split; [|by rewrite Hord].
  apply check_fields_inv in Hv as (_ & _ & _ & Hh & Hmi & Hs & Hus).
  unfold valid, check_fields, in_range. simpl.
  assert (1 <= y <= 9999) as Hy.
  { (* the ordinal is within the years 1..9999 *)
    unfold ymd2ord in Hord. unfold MAXORDINAL in Hhi.
    assert (0 <= days_before_month y m <= 335) as Hdbm.
    { unfold days_before_month.
      assert (m = 1 \/ m = 2 \/ m = 3 \/ m = 4 \/ m = 5 \/ m = 6 \/ m = 7
              \/ m = 8 \/ m = 9 \/ m = 10 \/ m = 11 \/ m = 12)
        as Hcases by lia.
      destruct Hcases as [-> | [-> | [-> | [-> | [-> | [-> | [-> | [->
                         | [-> | [-> | [-> | ->]]]]]]]]]]]; simpl;
        destruct (is_leap y); simpl; lia. }
    assert (d <= 31) as Hd31.
    { unfold days_in_month in Hd.
      repeat match goal with
             | H : context [if ?b then _ else _] |- _ => destruct b
             end; lia. }
    unfold days_before_year in Hord.
    Z.div_mod_to_equations. lia. }
  unfold MINYEAR, MAXYEAR.
  repeat (apply andb_true_intro; split); apply Z.leb_le; lia.
Qed.

Lemma bind_Ret_inv {A B} (c : outcome A) (k : A -> outcome B) (v : B) :
  (x ← c; k x) = Ret v -> exists x, c = Ret x /\ k x = Ret v.
Proof. destruct c as [x| |]; [|done..]. intros H. by exists x. Qed.

(** [dt] with another day of the month. *)
Definition with_day (dt : datetime) (d : Z) : datetime :=
  mkdt (year dt) (month dt) d (hour dt) (minute dt) (second dt)
       (microsecond dt) (utcoffset dt).

Lemma replace_day dt d :
  valid dt = true -> INT_MIN <= d <= INT_MAX ->
  replace dt None None (Some d) None None None None
  = if in_range 1 (days_in_month (year dt) (month dt)) d
    then Ret (with_day dt d) else Raise ValueError.
Proof.
  intros Hv Hd. rewrite replace_eq by fits_int_tac. simpl.
  unfold valid, check_fields in *.
  do 6 (apply andb_prop in Hv as [Hv ?]).
  repeat match goal with
         | H : in_range ?a ?b ?c = true |- _ => rewrite H; clear H
         end.
  simpl. rewrite !andb_true_r. done.
Qed.

Lemma valid_with_day dt d :
  valid dt = true ->
  in_range 1 (days_in_month (year dt) (month dt)) d = true ->
  valid (with_day dt d) = true.
Proof.
  intros Hv Hd. unfold valid, check_fields in *. simpl.
  do 6 (apply andb_prop in Hv as [Hv ?]).
  do 6 (apply andb_true_intro; split; [|done]). done.
Qed.

(** The day the "fix day" loop ends with, from the day [d0]. *)
Definition fixed_day (dom dim d0 : Z) (ds : list Z) : Z :=
  foldl (fun cur d => if in_range 1 dim (Z.min dom d) then Z.min dom d
                      else cur) d0 ds.

Lemma fix_day_loop dom ds : forall dt,
  valid dt = true -> INT_MIN <= dom ->
  Forall (fun d => INT_MIN <= d <= INT_MAX) ds ->
  foldl (fun c d =>
           cand ← c;
           except_ValueError_keep cand
             (replace cand None None (Some (Z.min dom d)) None None None None))
        (Ret dt) ds
  = Ret (with_day dt (fixed_day dom (days_in_month (year dt) (month dt))
                                (day dt) ds)).
Proof.
  induction ds as [|d ds IH]; intros dt Hv Hdom Hds; simpl.
  - by destruct dt.
  - apply Forall_cons in Hds as [Hd Hds].
    rewrite replace_day by (done || lia).
    destruct (in_range 1 _ (Z.min dom d)) eqn:Hr; simpl.
    + by rewrite IH by (done || by apply valid_with_day).
    + by rewrite IH by done.
Qed.

Lemma days_28_31_fit :
  Forall (fun d => INT_MIN <= d <= INT_MAX) [28; 29; 30; 31].
Proof. unfold INT_MIN, INT_MAX. repeat constructor; lia. Qed.

(** A day of month below the range of a C [int] ends the loop with the
    [OverflowError] of the first [replace], which the loop does not
    catch. *)
Lemma fix_day_overflow dom dt :
  dom < INT_MIN -> Bot30.fix_day dom dt = Raise OverflowError.
Proof.
  intros Hdom. unfold Bot30.fix_day. cbn [foldl mbind outcome_bind].
  rewrite replace_overflow; [done|].
  cbn [fits_int]. unfold in_range.
  destruct (Z.leb_spec INT_MIN (Z.min dom 28)); [lia | done].
Qed.

Lemma days_in_month_range y m : 28 <= days_in_month y m <= 31.
Proof.
  unfold days_in_month.
  repeat match goal with
         | |- context [if ?b then _ else _] => destruct b
         end; lia.
Qed.

Lemma fixed_day_clamps dom dim d0 :
  1 <= dom -> 28 <= dim <= 31 ->
  fixed_day dom dim d0 [28; 29; 30; 31] = Z.min dom dim.
Proof.
  intros Hdom Hdim. unfold fixed_day, in_range. simpl.
  repeat match goal with
         | |- context [?a <=? ?b] => destruct (Z.leb_spec a b)
         end; simpl; lia.
Qed.

(** The loop that fixes the day: the day becomes
    [min(dom, days of the month)]. *)
Lemma fix_day_clamps dom dt :
  valid dt = true -> 1 <= dom ->
  Bot30.fix_day dom dt
  = Ret (with_day dt (Z.min dom (days_in_month (year dt) (month dt)))).
Proof.
  intros Hv Hdom. unfold Bot30.fix_day.
  rewrite fix_day_loop
    by (done || (unfold INT_MIN; lia) || apply days_28_31_fit).
  by rewrite fixed_day_clamps by (done || apply days_in_month_range).
Qed.

Lemma fix_day_loop_valid dom ds : forall dt,
  valid dt = true ->
  valid (with_day dt (fixed_day dom (days_in_month (year dt) (month dt))
                                (day dt) ds)) = true.
Proof.
  induction ds as [|d ds IH]; intros dt Hv; simpl.
  - by destruct dt.
  - unfold fixed_day. simpl.
    destruct (in_range 1 _ (Z.min dom d)) eqn:Hr.
    + apply (IH (with_day dt (Z.min dom d))). by apply valid_with_day.
    + by apply IH.
Qed.

Lemma fix_day_clamps_any dom dt :
  valid dt = true -> INT_MIN <= dom ->
  Bot30.fix_day dom dt
  = Ret (with_day dt (fixed_day dom (days_in_month (year dt) (month dt))
                                (day dt) [28; 29; 30; 31])).
Proof.
  intros Hv Hdom. unfold Bot30.fix_day.
  by rewrite fix_day_loop by (done || apply days_28_31_fit).
Qed.

Lemma fix_day_not_Fuel dom dt :
  valid dt = true -> Bot30.fix_day dom dt <> Fuel.
Proof.
  intros Hv. destruct (Z.le_gt_cases INT_MIN dom).
  - by rewrite fix_day_clamps_any.
  - by rewrite fix_day_overflow by lia.
Qed.

(** Whatever [dom] is, the loop returns a datetime of the same month and
    time of day. *)
Lemma fix_day_inv dom dt c :
  valid dt = true -> Bot30.fix_day dom dt = Ret c ->
  valid c = true /\ year c = year dt /\ month c = month dt
  /\ second c = second dt /\ microsecond c = microsecond dt
  /\ utcoffset c = utcoffset dt.
Proof.
  intros Hv H. destruct (Z.le_gt_cases INT_MIN dom) as [Hdom | Hdom].
  2: { by rewrite fix_day_overflow in H by lia. }
  rewrite fix_day_clamps_any in H by done.
  assert (c = with_day dt
                (fixed_day dom (days_in_month (year dt) (month dt))
                           (day dt) [28; 29; 30; 31])) as -> by congruence.
  split; [by apply fix_day_loop_valid | done].
Qed.

Lemma int_timestamp_whole dt :
  microsecond dt = 0 -> int_timestamp dt * 1000000 = timestamp_us dt.
Proof.
  intros Hus. unfold int_timestamp, timestamp_us, wall_us. rewrite Hus.
  set (k := (toordinal dt * 86400 + hour dt * 3600 + minute dt * 60
             + second dt)).
  replace (k * 1000000 + 0 - (719163 * 86400 + utcoffset dt) * 1000000)
    with ((k - (719163 * 86400 + utcoffset dt)) * 1000000) by lia.
  by rewrite Z.quot_mul by lia.
Qed.

(** What it takes for the returned timestamp to be after [now]. *)
Lemma result_after now cand :
  microsecond cand = 0 -> utcoffset cand = utcoffset now ->
  wall_us now < wall_us cand ->
  timestamp_us now < int_timestamp cand * 1000000.
Proof.
  intros Hus Hoff Hlt. rewrite int_timestamp_whole by done.
  unfold timestamp_us. rewrite Hoff. lia.
Qed.

Lemma dt_le_false a b : dt_le a b = false -> wall_us b < wall_us a.
Proof. unfold dt_le. intros H. by apply Z.leb_gt in H. Qed.

Lemma dt_le_true a b : dt_le a b = true -> wall_us a <= wall_us b.
Proof. unfold dt_le. intros H. by apply Z.leb_le in H. Qed.

Lemma add_days_not_Fuel dt n : add_days dt n <> Fuel.
Proof.
  unfold add_days. destruct (negb _); [done|].
  destruct (_ && _); [|done]. by destruct (ord2ymd _) as [[? ?] ?].
Qed.

(** The [while] loop: with a step of at least one day it does not run out
    of the steps granted, and what it returns is after [now]. *)
Lemma advance_past_spec now n : forall fuel cand,
  1 <= n -> valid now = true -> valid cand = true ->
  toordinal now - toordinal cand < Z.of_nat fuel ->
  Bot30.advance_past fuel cand now n <> Fuel
  /\ forall c, Bot30.advance_past fuel cand now n = Ret c ->
       wall_us now < wall_us c /\ valid c = true
       /\ second c = second cand /\ microsecond c = microsecond cand
       /\ utcoffset c = utcoffset cand.
Proof.
  induction fuel as [|fuel IH]; intros cand Hn Hnow Hcand Hfuel; simpl.
  - assert (dt_le cand now = false) as ->.
    { apply Z.leb_gt. apply later_day; (done || lia). }
    split; [done|]. intros c [= <-]. split; [|done].
    apply later_day; (done || lia).
  - destruct (dt_le cand now) eqn:Hle.
    + pose proof (add_days_not_Fuel cand n) as Hnf0.
      destruct (add_days cand n) as [cand'| |] eqn:Hadd; simpl;
        [|by split|done].
      apply add_days_inv in Hadd as (Hv' & Hord & _ & _ & Hs & Hus & Hoff);
        [|done].
      destruct (IH cand' Hn Hnow Hv' ltac:(lia)) as [Hnf Hret].
      split; [done|]. intros c Hc.
      destruct (Hret c Hc) as (? & ? & -> & -> & ->). done.
    + split; [done|]. intros c [= <-]. split; [|done].
      by apply dt_le_false.
Qed.

Lemma at_time_inv now hh mm cand :
  Bot30.at_time now hh mm = Ret cand ->
  valid cand = true /\ toordinal cand = toordinal now
  /\ year cand = year now /\ month cand = month now /\ day cand = day now
  /\ second cand = 0 /\ microsecond cand = 0
  /\ utcoffset cand = utcoffset now.
Proof.
  unfold Bot30.at_time. intros H.
  apply replace_inv in H as (Hv & Hy & Hm & Hd & _ & _ & Hs & Hus & Hoff).
  simpl in *. unfold toordinal. rewrite Hy, Hm, Hd. done.
Qed.

Lemma add_days_wall dt n c :
  valid dt = true -> add_days dt n = Ret c ->
  wall_us c = wall_us dt + n * 86400000000 /\ valid c = true
  /\ second c = second dt /\ microsecond c = microsecond dt
  /\ utcoffset c = utcoffset dt.
Proof.
  intros Hv H.
  apply add_days_inv in H as (Hv' & Hord & Hh & Hmi & Hs & Hus & Hoff);
    [|done].
  split; [|done]. rewrite !wall_us_split, Hord. unfold tod_us.
  rewrite Hh, Hmi, Hs, Hus. lia.
Qed.

Lemma same_day_next now cand :
  valid now = true -> valid cand = true ->
  toordinal cand = toordinal now ->
  wall_us now < wall_us cand + 86400000000.
Proof.
  intros Hn Hc Hord. rewrite !wall_us_split, Hord.
  apply valid_tod in Hn, Hc. lia.
Qed.

Lemma advance_fuel_enough now cand :
  toordinal cand = toordinal now ->
  toordinal now - toordinal cand < Z.of_nat (Bot30.advance_fuel cand now).
Proof. intros ->. unfold Bot30.advance_fuel. lia. Qed.

(** ** The next run is after now *)

Ltac bind_inv H x Hx :=
  apply bind_Ret_inv in H as (x & Hx & H).

Lemma next_run_after_now s now r :
  valid now = true ->
  Bot30.next_run_from_now s now = Ret (Some r) ->
  timestamp_us now < r * 1000000.
Proof.
  intros Hnow. unfold Bot30.next_run_from_now.
  destruct (negb _); [done|].
  destruct (Bot30.s_time s) as [hh mm].
  destruct (String.eqb _ "daily"); [|destruct (String.eqb _ "weekly");
    [|destruct (String.eqb _ "monthly");
      [|destruct (String.eqb _ "every_n_days"); [|done]]]].
  - (* daily *)
    intros H. bind_inv H cand Hcand. bind_inv H c Hc. injection H as <-.
    apply at_time_inv in Hcand
      as (Hv & Hord & _ & _ & _ & Hs & Hus & Hoff).
    destruct (dt_le cand now) eqn:Hle.
    + apply add_days_wall in Hc as (Hw & _ & _ & Hus' & Hoff'); [|done].
      apply result_after; [congruence | congruence |].
      pose proof (same_day_next now cand Hnow Hv Hord). lia.
    + injection Hc as <-.
      apply result_after; [done | done | by apply dt_le_false].
  - (* weekly *)
    intros H. bind_inv H cand Hcand. bind_inv H c Hc. injection H as <-.
    apply at_time_inv in Hcand
      as (Hv & Hord & _ & _ & _ & Hs & Hus & Hoff).
    apply add_days_wall in Hc as (Hw & _ & _ & Hus' & Hoff'); [|done].
    apply result_after; [congruence | congruence |].
    pose proof (same_day_next now cand Hnow Hv Hord) as Hnext.
    pose proof (Z.mod_pos_bound
                  (default 0 (Bot30.s_weekday s) - weekday cand) 7
                  ltac:(lia)) as Hmod.
    destruct (Z.eqb_spec
                ((default 0 (Bot30.s_weekday s) - weekday cand) mod 7) 0)
      as [H0 | H0]; simpl in Hw.
    * destruct (dt_le cand now) eqn:Hle; [lia|].
      apply dt_le_false in Hle. rewrite H0 in Hw. lia.
    * lia.
  - (* monthly *)
    intros H. bind_inv H cand1 Hc1. bind_inv H cand2 Hc2.
    bind_inv H c Hc. injection H as <-.
    apply replace_inv in Hc1
      as (Hv1 & Hy1 & Hm1 & _ & _ & _ & Hs1 & Hus1 & Hoff1).
    simpl in *.
    apply fix_day_inv in Hc2 as (Hv2 & Hy2 & Hm2 & Hs2 & Hus2 & Hoff2);
      [|done].
    destruct (dt_le cand2 now) eqn:Hle.
    + destruct (if month now =? 12 then _ else _) as [y' m2] eqn:Hnext.
      bind_inv Hc cand3 Hc3.
      apply replace_inv in Hc3
        as (Hv3 & Hy3 & Hm3 & _ & _ & _ & Hs3 & Hus3 & Hoff3).
      simpl in *.
      apply fix_day_inv in Hc as (Hv4 & Hy4 & Hm4 & Hs4 & Hus4 & Hoff4);
        [|done].
      apply result_after; [congruence | congruence |].
      apply later_day; [done | done |].
      pose proof Hnow as Hn. apply check_fields_inv in Hn
        as (_ & Hmn & Hdn & _).
      pose proof Hv4 as H4. apply check_fields_inv in H4
        as (_ & _ & Hd4 & _).
      pose proof (next_month_later (year now) (month now) (day now) (day c)
                    Hmn Hdn ltac:(lia)) as Hlater.
      rewrite Hnext in Hlater.
      unfold toordinal. rewrite Hy4, Hm4, Hy3, Hm3. done.
    + injection Hc as <-.
      apply result_after; [congruence | congruence | by apply dt_le_false].
  - (* every_n_days *)
    intros H. bind_inv H cand Hcand. bind_inv H c Hc. injection H as <-.
    apply at_time_inv in Hcand
      as (Hv & Hord & _ & _ & _ & Hs & Hus & Hoff).
    destruct (advance_past_spec now (Z.max 1 (default 3 (Bot30.s_n_days s)))
                (Bot30.advance_fuel cand now) cand ltac:(lia) Hnow Hv
                (advance_fuel_enough now cand Hord)) as [_ Hret].
    destruct (Hret c Hc) as (Hlt & _ & _ & Hus' & Hoff').
    apply result_after; [congruence | congruence | done].
Qed.

(** A moment used in the examples: Monday 31 March 2025, 13:00, at
    +01:00. *)
Definition monday_13h : datetime := mkdt 2025 3 31 13 0 0 0 3600.

(** An enabled schedule of the given kind at 09:00: every 3 days, on
    Fridays, on day 31. *)
Definition schedule_on (kind : string) : Bot30.Schedule :=
  Bot30.mkSchedule (Some true) (Some kind) (Some 3) (Some 4) (Some 31)
                   (9, 0).

(** X1.  Whenever [next_run_from_now] of bot3.0.py (the same function is in
    bot2.0.py) returns a timestamp, that timestamp is strictly after [now],
    for every kind of schedule (in a timezone of fixed offset). *)
Theorem next_run_strictly_after s now r :
  valid now = true ->
  Bot30.next_run_from_now s now = Ret (Some r) ->
  timestamp_us now < r * 1000000.
Proof. apply next_run_after_now. Qed.

Lemma next_run_strictly_after_witness :
  timestamp_us monday_13h < 1743494400 * 1000000.
Proof.
  apply (next_run_strictly_after (schedule_on "daily") monday_13h);
    by vm_compute.
Defined.

Lemma check_fields_intro y m d hh mi s us :
  1 <= y <= 9999 -> 1 <= m <= 12 -> 1 <= d <= days_in_month y m ->
  0 <= hh <= 23 -> 0 <= mi <= 59 -> 0 <= s <= 59 -> 0 <= us <= 999999 ->
  check_fields y m d hh mi s us = true.
Proof.
  intros. unfold check_fields, in_range, MINYEAR, MAXYEAR.
  repeat (apply andb_true_intro; split); apply Z.leb_le; lia.
Qed.

Lemma toordinal_pos dt : valid dt = true -> 1 <= toordinal dt.
Proof.
  intros Hv. apply check_fields_inv in Hv as (Hy & Hm & Hd & _).
  unfold toordinal, ymd2ord.
  assert (0 <= days_before_month (year dt) (month dt)) as Hdbm.
  { unfold days_before_month.
    assert (month dt = 1 \/ month dt = 2 \/ month dt = 3 \/ month dt = 4
            \/ month dt = 5 \/ month dt = 6 \/ month dt = 7
            \/ month dt = 8 \/ month dt = 9 \/ month dt = 10
            \/ month dt = 11 \/ month dt = 12) as Hcases by lia.
    destruct Hcases as [-> | [-> | [-> | [-> | [-> | [-> | [-> | [-> | [->
                       | [-> | [-> | ->]]]]]]]]]]]; simpl;
      destruct (is_leap (year dt)); simpl; lia. }
  assert (0 <= days_before_year (year dt)) as Hdby
    by (unfold days_before_year; Z.div_mod_to_equations; lia).
  lia.
Qed.

Lemma add_days_ok dt n :
  -999999999 <= n <= 999999999 ->
  0 < toordinal dt + n <= MAXORDINAL ->
  exists c, add_days dt n = Ret c.
Proof.
  intros Hn Ho. unfold add_days, in_range.
  destruct (Z.leb_spec (-999999999) n); [|lia].
  destruct (Z.leb_spec n 999999999); [|lia]. simpl.
  destruct (Z.ltb_spec 0 (toordinal dt + n)); [|lia].
  destruct (Z.leb_spec (toordinal dt + n) MAXORDINAL); [|lia]. simpl.
  destruct (ord2ymd _) as [[y m] d]. by eexists.
Qed.

Lemma at_time_ok now hh mm :
  valid now = true -> 0 <= hh <= 23 -> 0 <= mm <= 59 ->
  exists cand, Bot30.at_time now hh mm = Ret cand.
Proof.
  intros Hv Hh Hm. unfold Bot30.at_time.
  rewrite replace_eq by fits_int_tac. simpl.
  apply check_fields_inv in Hv as (Hy & Hmo & Hd & _).
  rewrite check_fields_intro by lia. by eexists.
Qed.

Lemma next_run_total s now :
  valid now = true ->
  Bot30.s_enabled s = Some true ->
  0 <= (Bot30.s_time s).1 <= 23 -> 0 <= (Bot30.s_time s).2 <= 59 ->
  default "every_n_days"%string (Bot30.s_type s)
    ∈ ["daily"; "weekly"; "every_n_days"]%string ->
  toordinal now + 7 <= MAXORDINAL ->
  (default "every_n_days"%string (Bot30.s_type s) = "every_n_days"%string ->
   default 3 (Bot30.s_n_days s) <= 999999999
   /\ toordinal now + default 3 (Bot30.s_n_days s) <= MAXORDINAL) ->
  exists r, Bot30.next_run_from_now s now = Ret (Some r)
            /\ timestamp_us now < r * 1000000.
Proof.
  intros Hnow Hen Hhh Hmm Htype Hend Hn.
  cut (exists r, Bot30.next_run_from_now s now = Ret (Some r)).
  { intros [r Hr]. exists r. split; [done|].
    by eapply next_run_after_now. }
  unfold Bot30.next_run_from_now. rewrite Hen. simpl.
  destruct (Bot30.s_time s) as [hh mm]. simpl in Hhh, Hmm.
  destruct (at_time_ok now hh mm Hnow Hhh Hmm) as [cand Hcand].
  rewrite Hcand. simpl.
  apply at_time_inv in Hcand as (Hv & Hord & _).
  pose proof (toordinal_pos now Hnow) as Hpos.
  set (typ := default "every_n_days"%string (Bot30.s_type s)) in *.
  destruct (String.eqb_spec typ "daily") as [Hd | Hd].
  { destruct (dt_le cand now).
    - destruct (add_days_ok cand 1) as [c Hc]; [lia | lia |].
      rewrite Hc. simpl. by eexists.
    - simpl. by eexists. }
  destruct (String.eqb_spec typ "weekly") as [Hw | Hw].
  { pose proof (Z.mod_pos_bound
                  (default 0 (Bot30.s_weekday s) - weekday cand) 7
                  ltac:(lia)) as Hmod.
    match goal with
    | |- context [add_days cand ?k] =>
        destruct (add_days_ok cand k) as [c Hc]
    end.
    - destruct (_ && _); lia.
    - destruct (_ && _); lia.
    - rewrite Hc. simpl. by eexists. }
  destruct (String.eqb_spec typ "monthly") as [Hm | Hm].
  { exfalso. rewrite Hm in Htype.
    apply (bool_decide_pack _) in Htype. by vm_compute in Htype. }
  destruct (String.eqb_spec typ "every_n_days") as [He | He].
  2: { exfalso. repeat (apply elem_of_cons in Htype as [Htype | Htype];
                        [done|]). by apply elem_of_nil in Htype. }
  destruct (Hn He) as [Hn1 Hn2].
  replace (Z.to_nat (toordinal now - toordinal cand + 1)) with 1%nat
    by (rewrite Hord; lia).
  destruct (dt_le cand now); [|simpl; by eexists].
  destruct (add_days_ok cand (Z.max 1 (default 3 (Bot30.s_n_days s))))
    as [c Hc]; [lia | lia |].
  rewrite Hc. simpl.
  apply add_days_wall in Hc as (Hwall & _); [|done].
  pose proof (same_day_next now cand Hnow Hv Hord).
  assert (dt_le c now = false) as -> by (apply Z.leb_gt; lia).
  simpl. by eexists.
Qed.

(** X2.  Daily, weekly and every-N-days schedules of bot3.0.py (and
    bot2.0.py), in a timezone of fixed UTC offset (no daylight-saving
    change): for a time of day that exists, and as long as the calendar
    does not end within the step, [next_run_from_now] returns a timestamp
    (it raises nothing and returns no [None]) and that timestamp is
    strictly after [now]. *)
Theorem next_run_total_daily_weekly_every_n s now :
  valid now = true ->
  Bot30.s_enabled s = Some true ->
  0 <= (Bot30.s_time s).1 <= 23 -> 0 <= (Bot30.s_time s).2 <= 59 ->
  default "every_n_days"%string (Bot30.s_type s)
    ∈ ["daily"; "weekly"; "every_n_days"]%string ->
  toordinal now + 7 <= MAXORDINAL ->
  (default "every_n_days"%string (Bot30.s_type s) = "every_n_days"%string ->
   default 3 (Bot30.s_n_days s) <= 999999999
   /\ toordinal now + default 3 (Bot30.s_n_days s) <= MAXORDINAL) ->
  exists r, Bot30.next_run_from_now s now = Ret (Some r)
            /\ timestamp_us now < r * 1000000.
Proof. apply next_run_total. Qed.

Lemma next_run_total_daily_weekly_every_n_witness :
  exists r,
    Bot30.next_run_from_now (schedule_on "every_n_days") monday_13h
    = Ret (Some r)
    /\ timestamp_us monday_13h < r * 1000000.
Proof.
  apply (next_run_total_daily_weekly_every_n
           (schedule_on "every_n_days") monday_13h).
  - by vm_compute.
  - by vm_compute.
  - simpl. lia.
  - simpl. lia.
  - apply (bool_decide_unpack _). by vm_compute.
  - by vm_compute.
  - intros _. split; by vm_compute.
Defined.

Lemma at_time_not_Fuel now hh mm : Bot30.at_time now hh mm <> Fuel.
Proof. apply replace_not_Fuel. Qed.

Lemma next_run_not_Fuel s now :
  valid now = true -> Bot30.next_run_from_now s now <> Fuel.
Proof.
  intros Hnow. unfold Bot30.next_run_from_now.
  destruct (negb _); [done|].
  destruct (Bot30.s_time s) as [hh mm].
  pose proof (at_time_not_Fuel now hh mm) as Hat0.
  destruct (String.eqb _ "daily").
  { destruct (Bot30.at_time now hh mm) as [cand| |]; [|done..]. simpl.
    destruct (dt_le cand now); [|done].
    pose proof (add_days_not_Fuel cand 1).
    by destruct (add_days cand 1). }
  destruct (String.eqb _ "weekly").
  { destruct (Bot30.at_time now hh mm) as [cand| |]; [|done..]. simpl.
    match goal with
    | |- context [add_days cand ?k] =>
        pose proof (add_days_not_Fuel cand k); by destruct (add_days cand k)
    end. }
  destruct (String.eqb _ "monthly").
  { destruct (replace now _ _ _ _ _ _ _) as [cand1| |] eqn:Hc1; [|done|].
    2: { by apply replace_not_Fuel in Hc1. }
    apply replace_inv in Hc1 as (Hv1 & _).
    cbn [mbind outcome_bind].
    pose proof (fix_day_not_Fuel (default 1 (Bot30.s_dom s)) cand1 Hv1)
      as Hf1.
    destruct (Bot30.fix_day _ cand1) as [cand2| |] eqn:Hc2; [|done..].
    apply fix_day_inv in Hc2 as (Hv2 & _); [|done].
    cbn [mbind outcome_bind].
    destruct (dt_le cand2 now); [|done].
    destruct (if month now =? 12 then _ else _) as [y' m2].
    match goal with
    | |- context [replace ?c ?a ?b None None None None None] =>
        destruct (replace c a b None None None None None) as [cand3| |]
          eqn:Hc3; [|done|]
    end.
    2: { by apply replace_not_Fuel in Hc3. }
    apply replace_inv in Hc3 as (Hv3 & _).
    cbn [mbind outcome_bind].
    pose proof (fix_day_not_Fuel (default 1 (Bot30.s_dom s)) cand3 Hv3)
      as Hf3.
    by destruct (Bot30.fix_day _ cand3). }
  destruct (String.eqb _ "every_n_days"); [|done].
  destruct (Bot30.at_time now hh mm) as [cand| |] eqn:Hcand; [|done..].
  apply at_time_inv in Hcand as (Hv & Hord & _).
  destruct (advance_past_spec now (Z.max 1 (default 3 (Bot30.s_n_days s)))
              (Bot30.advance_fuel cand now) cand ltac:(lia) Hnow Hv
              (advance_fuel_enough now cand Hord)) as [Hnf _].
  cbn [mbind outcome_bind].
  by destruct (Bot30.advance_past _ _ _ _).
Qed.

(** X3.  The [while cand <= now] loop of the every-N-days schedule of
    bot3.0.py (and bot2.0.py) ends: the step is at least one day and the
    candidate starts on the day of [now], so [next_run_from_now] never uses
    up the steps the model grants the loop. *)
Theorem next_run_never_out_of_fuel s now :
  valid now = true -> Bot30.next_run_from_now s now <> Fuel.
Proof. apply next_run_not_Fuel. Qed.

Lemma next_run_never_out_of_fuel_witness :
  Bot30.next_run_from_now (schedule_on "every_n_days") monday_13h <> Fuel.
Proof.
  apply (next_run_never_out_of_fuel (schedule_on "every_n_days") monday_13h).
  by vm_compute.
Defined.

(** ** The monthly schedule of bot3.0.py, in closed form *)

Definition next_month (y m : Z) : Z * Z :=
  if m =? 12 then (y + 1, 1) else (y, m + 1).

(** The day [dom] clamped to the month, at [hh]:[mm]. *)
Definition clamped (now : datetime) (y m dom hh mm : Z) : datetime :=
  mkdt y m (Z.min dom (days_in_month y m)) hh mm 0 0 (utcoffset now).

(** What the monthly branch computes: this month's clamped day if it is
    still ahead; else next month's clamped day, unless this month's clamped
    day does not exist in the next month (or the year 9999 ends), where
    [replace] raises. *)
Definition monthly_outcome (dom hh mm : Z) (now : datetime)
  : outcome (option Z) :=
  let y := year now in
  let m := month now in
  let this := clamped now y m dom hh mm in
  if dt_le this now then
    let '(y', m2) := next_month y m in
    if (y' <=? MAXYEAR) && (day this <=? days_in_month y' m2)
    then Ret (Some (int_timestamp (clamped now y' m2 dom hh mm)))
    else Raise ValueError
  else Ret (Some (int_timestamp this)).

(** X4.  The monthly schedule of bot3.0.py (and bot2.0.py) in closed form,
    in a timezone of fixed UTC offset (no daylight-saving change), for a
    time of day that exists and a day of month of at least 1: the next run
    is day min(dom, days of the month) of this month, at the offset of
    now, if that is still ahead; else the same of the next month, and
    [ValueError] when this month's clamped day does not exist in the next
    month (or the next month is beyond the year 9999). *)
Theorem next_run_monthly s now dom hh mm :
  valid now = true ->
  Bot30.s_enabled s = Some true ->
  Bot30.s_type s = Some "monthly"%string ->
  Bot30.s_time s = (hh, mm) -> 0 <= hh <= 23 -> 0 <= mm <= 59 ->
  default 1 (Bot30.s_dom s) = dom -> 1 <= dom ->
  Bot30.next_run_from_now s now = monthly_outcome dom hh mm now.
Proof.
  intros Hnow Hen Hty Htime Hhh Hmm Hdom Hd1.
  unfold Bot30.next_run_from_now, monthly_outcome.
  rewrite Hen, Hty, Htime, Hdom. simpl.
  pose proof Hnow as Hn. apply check_fields_inv in Hn as (Hy & Hm & Hdn & _).
  pose proof (days_in_month_range (year now) (month now)) as Hdim.
  rewrite (replace_eq now) by fits_int_tac. simpl.
  rewrite check_fields_intro by lia. simpl.
  rewrite fix_day_clamps
    by (done || (unfold valid; simpl; apply check_fields_intro; lia)).
  simpl. fold (clamped now (year now) (month now) dom hh mm).
  destruct (dt_le _ now); [|done].
  unfold next_month.
  assert (1 <= (if month now =? 12 then (year now + 1, 1)
                else (year now, month now + 1)).2 <= 12) as Hm2
    by (destruct (Z.eqb_spec (month now) 12); simpl; lia).
  assert (1 <= (if month now =? 12 then (year now + 1, 1)
                else (year now, month now + 1)).1 <= 10000) as Hy2
    by (destruct (Z.eqb_spec (month now) 12); simpl; lia).
  destruct (if month now =? 12 then _ else _) as [y' m2]. simpl in *.
  pose proof (days_in_month_range y' m2) as Hdim'.
  rewrite replace_eq by fits_int_tac. simpl.
  destruct (Z.leb_spec y' MAXYEAR) as [Hy9 | Hy9];
    [destruct (Z.leb_spec (Z.min dom (days_in_month (year now) (month now)))
                 (days_in_month y' m2)) as [Hfit | Hfit]|]; simpl.
  - unfold MAXYEAR in Hy9. rewrite check_fields_intro by lia. simpl.
    rewrite fix_day_clamps
      by (done || (unfold valid; simpl; apply check_fields_intro; lia)).
    done.
  - destruct (check_fields _ _ _ _ _ _ _) eqn:Hc; [|done].
    apply check_fields_inv in Hc. lia.
  - destruct (check_fields _ _ _ _ _ _ _) eqn:Hc; [|done].
    apply check_fields_inv in Hc. unfold MAXYEAR in Hy9. lia.
Qed.

Lemma next_run_monthly_witness :
  Bot30.next_run_from_now (schedule_on "monthly")
                          (mkdt 2025 4 5 10 0 0 0 3600)
  = monthly_outcome 31 9 0 (mkdt 2025 4 5 10 0 0 0 3600).
Proof.
  apply (next_run_monthly (schedule_on "monthly")
           (mkdt 2025 4 5 10 0 0 0 3600) 31 9 0);
    (by vm_compute) || lia.
Defined.

(** ** The other kinds, in closed form *)

(** Today at [hh]:[mm]. *)
Definition today_at (now : datetime) (hh mm : Z) : datetime :=
  mkdt (year now) (month now) (day now) hh mm 0 0 (utcoffset now).

Lemma at_time_today now hh mm :
  valid now = true -> 0 <= hh <= 23 -> 0 <= mm <= 59 ->
  Bot30.at_time now hh mm = Ret (today_at now hh mm).
Proof.
  intros Hv Hh Hm. unfold Bot30.at_time.
  rewrite replace_eq by fits_int_tac. simpl.
  apply check_fields_inv in Hv as (Hy & Hmo & Hd & _).
  by rewrite check_fields_intro by lia.
Qed.

Lemma valid_today_at now hh mm :
  valid now = true -> 0 <= hh <= 23 -> 0 <= mm <= 59 ->
  valid (today_at now hh mm) = true.
Proof.
  intros Hv Hh Hm. unfold valid. simpl.
  apply check_fields_inv in Hv as (Hy & Hmo & Hd & _).
  apply check_fields_intro; lia.
Qed.

(** X5.  Every-N-days in bot3.0.py (and bot2.0.py), in a timezone of fixed
    UTC offset (no daylight-saving change), for a time of day that exists:
    the loop adds the step at most once; the next run is today at the
    time, at the offset of now, if that is still ahead, else max(1, N)
    days later. *)
Theorem next_run_every_n_days s now hh mm :
  valid now = true ->
  Bot30.s_enabled s = Some true ->
  default "every_n_days"%string (Bot30.s_type s) = "every_n_days"%string ->
  Bot30.s_time s = (hh, mm) -> 0 <= hh <= 23 -> 0 <= mm <= 59 ->
  Bot30.next_run_from_now s now
  = if dt_le (today_at now hh mm) now
    then c ← add_days (today_at now hh mm)
                      (Z.max 1 (default 3 (Bot30.s_n_days s)));
         Ret (Some (int_timestamp c))
    else Ret (Some (int_timestamp (today_at now hh mm))).
Proof.
  intros Hnow Hen Hty Htime Hhh Hmm.
  unfold Bot30.next_run_from_now. rewrite Hen, Hty, Htime. simpl.
  rewrite at_time_today by done.
  pose proof (valid_today_at now hh mm Hnow Hhh Hmm) as Hv.
  simpl.
  replace (toordinal now - toordinal (today_at now hh mm) + 1) with 1
    by (unfold toordinal; simpl; lia).
  simpl.
  destruct (dt_le (today_at now hh mm) now) eqn:Hle; [|done].
  destruct (add_days _ _) as [c| |] eqn:Hadd; [|done..]. simpl.
  apply add_days_wall in Hadd as (Hwall & _); [|done].
  pose proof (same_day_next now (today_at now hh mm) Hnow Hv eq_refl).
  assert (dt_le c now = false) as -> by (apply Z.leb_gt; lia).
  done.
Qed.

Lemma next_run_every_n_days_witness :
  Bot30.next_run_from_now (schedule_on "every_n_days") monday_13h
  = if dt_le (today_at monday_13h 9 0) monday_13h
    then c ← add_days (today_at monday_13h 9 0)
                      (Z.max 1 (default 3 (Bot30.s_n_days
                                             (schedule_on "every_n_days"))));
         Ret (Some (int_timestamp c))
    else Ret (Some (int_timestamp (today_at monday_13h 9 0))).
Proof.
  apply (next_run_every_n_days (schedule_on "every_n_days") monday_13h 9 0);
    (by vm_compute) || lia.
Defined.

(** X6.  Weekly in bot3.0.py (and bot2.0.py), in a timezone of fixed UTC
    offset (no daylight-saving change): what is returned is the timestamp,
    at the offset of now, of the day 0 to 7 days ahead that falls on the
    configured weekday (taken modulo 7), at the configured time; 0 days
    only when the time is still ahead today, 7 days only when it is
    not. *)
Theorem next_run_weekly s now hh mm r :
  valid now = true ->
  Bot30.s_enabled s = Some true ->
  Bot30.s_type s = Some "weekly"%string ->
  Bot30.s_time s = (hh, mm) ->
  Bot30.next_run_from_now s now = Ret (Some r) ->
  exists c k,
    r = int_timestamp c /\ valid c = true /\ utcoffset c = utcoffset now
    /\ 0 <= k <= 7
    /\ toordinal c = toordinal now + k
    /\ hour c = hh /\ minute c = mm /\ second c = 0 /\ microsecond c = 0
    /\ weekday c = default 0 (Bot30.s_weekday s) mod 7
    /\ (k = 0 -> wall_us now < wall_us c)
    /\ (k = 7 -> wall_us c <= wall_us now + 7 * 86400000000).
Proof.
  intros Hnow Hen Hty Htime.
  unfold Bot30.next_run_from_now. rewrite Hen, Hty, Htime. simpl.
  intros H. bind_inv H cand Hcand. bind_inv H c Hc. injection H as <-.
  pose proof Hcand as Hat. unfold Bot30.at_time in Hat.
  apply replace_inv in Hat as (_ & _ & _ & _ & Hh & Hmi & _).
  simpl in Hh, Hmi.
  apply at_time_inv in Hcand as (Hv & Hord & _ & _ & _ & Hs & Hus & Hoff).
  pose proof Hc as Hc'.
  apply add_days_inv in Hc as (Hvc & Hordc & Hhc & Hmc & Hsc & Husc & Hoffc);
    [|done].
  apply add_days_wall in Hc' as (Hwall & _); [|done].
  set (wd := default 0 (Bot30.s_weekday s)) in *.
  pose proof (Z.mod_pos_bound (wd - weekday cand) 7 ltac:(lia)) as Hmod.
  eexists c, _. split; [done|]. split; [done|]. split; [congruence|].
  split; [|split; [rewrite Hordc, Hord; done|]].
  - destruct (_ && _); lia.
  - split; [congruence|]. split; [congruence|].
    split; [congruence|]. split; [congruence|]. split; [|split].
    + unfold weekday in *. rewrite Hordc.
      destruct (Z.eqb_spec ((wd - (toordinal cand + 6) mod 7) mod 7) 0)
        as [H0 | H0]; simpl.
      * destruct (dt_le cand now); Z.div_mod_to_equations; lia.
      * Z.div_mod_to_equations. lia.
    + intros Hk.
      destruct (Z.eqb_spec ((wd - weekday cand) mod 7) 0) as [H0 | H0];
        simpl in *; [|lia].
      destruct (dt_le cand now) eqn:Hle; [lia|].
      apply dt_le_false in Hle. lia.
    + intros Hk.
      destruct (Z.eqb_spec ((wd - weekday cand) mod 7) 0) as [H0 | H0];
        simpl in *; [|lia].
      destruct (dt_le cand now) eqn:Hle; [|lia].
      apply Z.leb_le in Hle. lia.
Qed.

Lemma next_run_weekly_witness :
  exists c k,
    1743753600 = int_timestamp c /\ valid c = true
    /\ utcoffset c = utcoffset monday_13h
    /\ 0 <= k <= 7
    /\ toordinal c = toordinal monday_13h + k
    /\ hour c = 9 /\ minute c = 0 /\ second c = 0 /\ microsecond c = 0
    /\ weekday c = default 0 (Bot30.s_weekday (schedule_on "weekly")) mod 7
    /\ (k = 0 -> wall_us monday_13h < wall_us c)
    /\ (k = 7 -> wall_us c <= wall_us monday_13h + 7 * 86400000000).
Proof.
  apply (next_run_weekly (schedule_on "weekly") monday_13h 9 0 1743753600);
    by vm_compute.
Defined.

(** What [replace] raises for a time of day that does not exist:
    [OverflowError] when an argument is outside the range of a C [int],
    [ValueError] otherwise. *)
Lemma replace_bad_time now d hh mm :
  ~ (0 <= hh <= 23 /\ 0 <= mm <= 59) ->
  replace now None None d (Some hh) (Some mm) (Some 0) (Some 0)
  = Raise (if in_range INT_MIN INT_MAX hh && in_range INT_MIN INT_MAX mm
              && fits_int d
           then ValueError else OverflowError).
Proof.
  intros Hbad.
  destruct (in_range INT_MIN INT_MAX hh && in_range INT_MIN INT_MAX mm
            && fits_int d) eqn:Hf.
  - apply andb_prop in Hf as [Hf Hd]. apply andb_prop in Hf as [Hfh Hfm].
    rewrite replace_eq by (cbn [fits_int]; by rewrite Hd, Hfh, Hfm).
    simpl.
    destruct (check_fields _ _ _ _ _ _ _) eqn:Hc; [|done].
    apply check_fields_inv in Hc. lia.
  - apply replace_overflow. cbn [fits_int].
    apply andb_false_iff in Hf as [Hf | ->];
      [apply andb_false_iff in Hf as [-> | ->]|];
      by rewrite ?andb_false_r.
Qed.

(** The error of [next_run_from_now] for a time of day that does not
    exist.  The monthly branch also passes min(dom, 28) to [replace]. *)
Definition bad_time_error (s : Bot30.Schedule) : exn :=
  let '(hh, mm) := Bot30.s_time s in
  if in_range INT_MIN INT_MAX hh && in_range INT_MIN INT_MAX mm
     && (negb (String.eqb (default "every_n_days"%string (Bot30.s_type s))
                          "monthly")
         || (INT_MIN <=? default 1 (Bot30.s_dom s)))
  then ValueError else OverflowError.

Lemma next_run_bad_time s now hh mm :
  valid now = true ->
  Bot30.s_enabled s = Some true ->
  default "every_n_days"%string (Bot30.s_type s)
    ∈ ["daily"; "weekly"; "monthly"; "every_n_days"]%string ->
  Bot30.s_time s = (hh, mm) ->
  ~ (0 <= hh <= 23 /\ 0 <= mm <= 59) ->
  Bot30.next_run_from_now s now = Raise (bad_time_error s).
Proof.
  intros Hnow Hen Hty Htime Hbad.
  unfold Bot30.next_run_from_now, bad_time_error. rewrite Hen, Htime. simpl.
  unfold Bot30.at_time. rewrite !replace_bad_time by done.
  assert (fits_int (Some (Z.min (default 1 (Bot30.s_dom s)) 28))
          = (INT_MIN <=? default 1 (Bot30.s_dom s))) as Hdom.
  { cbn [fits_int]. unfold in_range, INT_MIN, INT_MAX.
    destruct (Z.leb_spec (-2147483648) (default 1 (Bot30.s_dom s)));
      destruct (Z.leb_spec (-2147483648)
                  (Z.min (default 1 (Bot30.s_dom s)) 28));
      destruct (Z.leb_spec (Z.min (default 1 (Bot30.s_dom s)) 28)
                  2147483647); simpl; lia || done. }
  rewrite Hdom. cbn [fits_int].
  repeat (apply elem_of_cons in Hty as [-> | Hty];
          [simpl; by rewrite ?andb_true_r|]).
  by apply elem_of_nil in Hty.
Qed.

(** X7.  A time of day outside 00:00..23:59 (which [parse_hhmm] lets
    through) makes [next_run_from_now] of bot3.0.py (and bot2.0.py) raise
    for every kind of schedule: [ValueError] when hour and minute (and,
    for a monthly schedule, the day of month, of which min(dom, 28) is
    passed along) are within the range of a C [int] (-2^31 .. 2^31 - 1),
    [OverflowError] when one of them is outside it. *)
Theorem next_run_invalid_time s now hh mm :
  valid now = true ->
  Bot30.s_enabled s = Some true ->
  default "every_n_days"%string (Bot30.s_type s)
    ∈ ["daily"; "weekly"; "monthly"; "every_n_days"]%string ->
  Bot30.s_time s = (hh, mm) ->
  ~ (0 <= hh <= 23 /\ 0 <= mm <= 59) ->
  Bot30.next_run_from_now s now
  = Raise (if in_range INT_MIN INT_MAX hh && in_range INT_MIN INT_MAX mm
              && (negb (String.eqb
                          (default "every_n_days"%string (Bot30.s_type s))
                          "monthly")
                  || (INT_MIN <=? default 1 (Bot30.s_dom s)))
           then ValueError else OverflowError).
Proof.
  intros Hnow Hen Hty Htime Hbad.
  rewrite (next_run_bad_time s now hh mm) by done.
  unfold bad_time_error. by rewrite Htime.
Qed.

(** A daily schedule at 25:00, and one at hour 2^31. *)
Definition schedule_at_25h : Bot30.Schedule :=
  Bot30.mkSchedule (Some true) (Some "daily"%string) None None None (25, 0).

Definition schedule_at_huge_hour : Bot30.Schedule :=
  Bot30.mkSchedule (Some true) (Some "daily"%string) None None None
                   (2147483648, 0).

Lemma next_run_invalid_time_witness :
  Bot30.next_run_from_now schedule_at_25h monday_13h = Raise ValueError
  /\ Bot30.next_run_from_now schedule_at_huge_hour monday_13h
     = Raise OverflowError.
Proof.
  split.
  - apply (next_run_invalid_time schedule_at_25h monday_13h 25 0).
    + by vm_compute.
    + by vm_compute.
    + apply (bool_decide_unpack _). by vm_compute.
    + by vm_compute.
    + lia.
  - apply (next_run_invalid_time schedule_at_huge_hour monday_13h
             2147483648 0).
    + by vm_compute.
    + by vm_compute.
    + apply (bool_decide_unpack _). by vm_compute.
    + by vm_compute.
    + lia.
Defined.

(** ** The schedule of bot3.1.py *)

Lemma next_after_spec now hh mm days :
  valid now = true -> 0 <= hh <= 23 -> 0 <= mm <= 59 ->
  Bot31.next_after now hh mm days
  = if dt_le (today_at now hh mm) now
    then add_days (today_at now hh mm) days
    else Ret (today_at now hh mm).
Proof.
  intros Hv Hh Hm. unfold Bot31.next_after.
  change (Bot31.at_time now hh mm) with (Bot30.at_time now hh mm).
  by rewrite at_time_today by done.
Qed.

(** The number of days [compute_next_run] adds when the time of today has
    passed. *)
Definition step31 (cfg : Bot31.GuildConfig) : Z :=
  let s := Bot31.schedule cfg in
  if String.eqb (Bot31.sc_mode s) "preset" then
    if String.eqb (Bot31.sc_preset s) "weekly" then 7
    else if String.eqb (Bot31.sc_preset s) "monthly" then 30
    else 1
  else Z.max 1 (Bot31.sc_every_days s).

Lemma compute_next_run_step cfg now :
  Bot31.compute_next_run cfg now
  = Bot31.next_after now (Bot31.sc_hour (Bot31.schedule cfg))
      (Bot31.sc_minute (Bot31.schedule cfg)) (step31 cfg).
Proof.
  unfold Bot31.compute_next_run, step31.
  destruct (String.eqb _ "preset"); [|done].
  destruct (String.eqb _ "daily") eqn:Hd; [|by repeat destruct (String.eqb _ _)].
  apply String.eqb_eq in Hd. by rewrite Hd.
Qed.



(** X9.  Whatever hour [h] and minute [m] are passed to [/schedule preset]
    or [/schedule every-days] of bot3.1.py, they are stored within the
    day, and the next run is then computed without an exception and is
    strictly after [now] (as long as the calendar does not end within the
    step). *)
Theorem sched_commands_give_a_next_run cfg now h m :
  valid now = true ->
  (forall preset,
      toordinal now + 30 <= MAXORDINAL ->
      exists t,
        Bot31.compute_next_run
          (Commands31.sched_preset preset (Some h) (Some m) cfg) now
        = Ret t
        /\ timestamp_us now < timestamp_us t
        /\ hour t = Z.max 0 (Z.min 23 h)
        /\ minute t = Z.max 0 (Z.min 59 m))
  /\
  (forall days,
      days <= 999999999 ->
      toordinal now + Z.max 1 days <= MAXORDINAL ->
      exists t,
        Bot31.compute_next_run
          (Commands31.sched_every_days days (Some h) (Some m) cfg) now
        = Ret t
        /\ timestamp_us now < timestamp_us t
        /\ hour t = Z.max 0 (Z.min 23 h)
        /\ minute t = Z.max 0 (Z.min 59 m)).
Proof.
  intros Hnow. split.
  - intros preset Hend.
    rewrite compute_next_run_step, next_after_spec by (done || simpl; lia).
    simpl.
    set (hh := Z.max 0 (Z.min 23 h)). set (mm := Z.max 0 (Z.min 59 m)).
    set (k := step31 _).
    assert (1 <= k <= 30) as Hk
      by (unfold k, step31; simpl; repeat destruct (String.eqb _ _); lia).
    pose proof (valid_today_at now hh mm Hnow ltac:(lia) ltac:(lia)) as Hv.
    pose proof (toordinal_pos now Hnow) as Hpos.
    destruct (dt_le (today_at now hh mm) now) eqn:Hle.
    + destruct (add_days_ok (today_at now hh mm) k) as [t Ht].
      * lia.
      * unfold toordinal at 1 2. simpl. fold (toordinal now). lia.
      * exists t. split; [done|]. pose proof Ht as Ht'.
        apply add_days_inv in Ht as (_ & _ & Hht & Hmt & _ & _ & Hoff);
          [|done].
        apply add_days_wall in Ht' as (Hwall & _); [|done].
        pose proof (same_day_next now (today_at now hh mm) Hnow Hv eq_refl).
        split; [unfold timestamp_us; rewrite Hoff; simpl; lia | done].
    + exists (today_at now hh mm). split; [done|].
      apply dt_le_false in Hle.
      split; [unfold timestamp_us; simpl; lia | done].
  - intros days Hn Hend.
    rewrite compute_next_run_step, next_after_spec by (done || simpl; lia).
    simpl.
    set (hh := Z.max 0 (Z.min 23 h)). set (mm := Z.max 0 (Z.min 59 m)).
    set (k := step31 _).
    assert (k = Z.max 1 days) as Hk by done.
    pose proof (valid_today_at now hh mm Hnow ltac:(lia) ltac:(lia)) as Hv.
    pose proof (toordinal_pos now Hnow) as Hpos.
    destruct (dt_le (today_at now hh mm) now) eqn:Hle.
    + destruct (add_days_ok (today_at now hh mm) k) as [t Ht].
      * lia.
      * unfold toordinal at 1 2. simpl. fold (toordinal now). lia.
      * exists t. split; [done|]. pose proof Ht as Ht'.
        apply add_days_inv in Ht as (_ & _ & Hht & Hmt & _ & _ & Hoff);
          [|done].
        apply add_days_wall in Ht' as (Hwall & _); [|done].
        pose proof (same_day_next now (today_at now hh mm) Hnow Hv eq_refl).
        split; [unfold timestamp_us; rewrite Hoff; simpl; lia | done].
    + exists (today_at now hh mm). split; [done|].
      apply dt_le_false in Hle.
      split; [unfold timestamp_us; simpl; lia | done].
Qed.

Lemma sched_commands_give_a_next_run_witness :
  (exists t,
      Bot31.compute_next_run
        (Commands31.sched_preset "weekly" (Some 25) (Some (-3))
                                 (config31 2 "daily")) monday_13h
      = Ret t
      /\ timestamp_us monday_13h < timestamp_us t
      /\ hour t = Z.max 0 (Z.min 23 25)
      /\ minute t = Z.max 0 (Z.min 59 (-3)))
  /\
  (exists t,
      Bot31.compute_next_run
        (Commands31.sched_every_days 3 (Some 25) (Some (-3))
                                     (config31 2 "daily")) monday_13h
      = Ret t
      /\ timestamp_us monday_13h < timestamp_us t
      /\ hour t = Z.max 0 (Z.min 23 25)
      /\ minute t = Z.max 0 (Z.min 59 (-3))).
Proof.
  destruct (sched_commands_give_a_next_run (config31 2 "daily") monday_13h
              25 (-3)) as [Hpreset Hevery]; [by vm_compute|].
  split.
  - apply (Hpreset "weekly"%string). by vm_compute.
  - apply (Hevery 3); by vm_compute.
Defined.

(** ** [chunked] *)

Lemma slice_nonneg {A} (l : list A) (i j : Z) :
  0 <= i -> 0 <= j ->
  slice l i j = drop (Z.to_nat i) (take (Z.to_nat j) l).
Proof.
  intros Hi Hj. unfold slice. rewrite !py_bound_nonneg by done.
  assert (take (Z.to_nat j `min` length l) l = take (Z.to_nat j) l) as ->.
  { destruct (Nat.le_gt_cases (Z.to_nat j) (length l)).
    - by rewrite Nat.min_l.
    - rewrite Nat.min_r by lia. rewrite !take_ge; [done | lia | lia]. }
  destruct (Nat.le_gt_cases (Z.to_nat i) (length l)).
  - by rewrite Nat.min_l.
  - rewrite Nat.min_r by lia.
    rewrite !drop_ge; [done | rewrite length_take; lia
                       | rewrite length_take; lia].
Qed.

(** The first [c] chunks of width [n], joined, are the first [c * n]
    elements. *)
Lemma chunks_concat {A} (l : list A) (n c : nat) :
  concat ((fun k => drop (k * n) (take (k * n + n) l)) <$> seq 0 c)
  = take (c * n) l.
Proof.
  induction c as [|c IH]; [done|].
  rewrite seq_S, fmap_app, concat_app, IH. simpl. rewrite app_nil_r.
  replace (take (c * n) l) with (take (c * n) (take (c * n + n) l))
    by (rewrite take_take; f_equal; lia).
  rewrite take_drop. f_equal. lia.
Qed.

Lemma chunked_spec {A} (lst : list A) (n : Z) :
  (1 <= n ->
   exists groups,
     chunked lst n = Ret groups
     /\ concat groups = lst
     /\ len groups = (len lst + n - 1) / n
     /\ Forall (fun g => 1 <= len g <= n) groups)
  /\ (n = 0 -> chunked lst n = Raise ValueError)
  /\ (n < 0 -> chunked lst n = Ret []).
Proof.
  split; [|split].
  - intros Hn. unfold chunked, py_range0.
    destruct (Z.eqb_spec n 0); [lia|].
    destruct (Z.ltb_spec 0 n); [|lia].
    eexists. split; [reflexivity|].
    set (c := Z.to_nat ((len lst + n - 1) / n)).
    pose proof (ceil_div_bounds (len lst) n ((len lst + n - 1) / n) Hn eq_refl)
      as Hb.
    pose proof (len_nonneg lst) as Hl.
    assert (0 <= (len lst + n - 1) / n) as Hc0
      by (apply Z.div_pos; lia).
    rewrite <- list_fmap_compose.
    assert (forall k, (k < c)%nat ->
              ((fun i => slice lst i (i + n)) ∘ (fun k => Z.of_nat k * n)) k
              = drop (k * Z.to_nat n) (take (k * Z.to_nat n + Z.to_nat n) lst))
      as Hchunk.
    { intros k Hk. simpl. rewrite slice_nonneg by lia.
      f_equal; [lia|]. f_equal. lia. }
    assert ((fun i => slice lst i (i + n)) ∘ (fun k => Z.of_nat k * n)
              <$> seq 0 c
            = (fun k => drop (k * Z.to_nat n)
                          (take (k * Z.to_nat n + Z.to_nat n) lst))
                <$> seq 0 c) as ->.
    { apply list_fmap_ext. intros i k Hk. apply Hchunk.
      apply lookup_seq in Hk. lia. }
    split; [|split].
    + rewrite chunks_concat. apply take_ge. unfold len in *. subst c. nia.
    + unfold len in *. rewrite length_fmap, length_seq. subst c. lia.
    + apply Forall_fmap, Forall_forall. intros k Hk.
      apply elem_of_seq in Hk. simpl.
      unfold len in *. rewrite length_drop, length_take. subst c. nia.
  - intros ->. done.
  - intros Hn. unfold chunked, py_range0.
    destruct (Z.eqb_spec n 0); [lia|].
    destruct (Z.ltb_spec 0 n); [lia|].
    pose proof (len_nonneg lst) as Hl.
    assert ((- len lst - n - 1) / - n < 1) as Hc.
    { apply Z.div_lt_upper_bound; lia. }
    assert (Z.to_nat ((- len lst - n - 1) / - n) = 0%nat) as -> by lia.
    done.
Qed.

(** X10.  [chunked(lst, n)], the same in the three scripts.  For [n] of at
    least 1 the groups, put together, are [lst]; there are ceil(len / n)
    of them and each has between 1 and [n] elements.  For [n = 0] the call
    raises [ValueError] (the step of [range]); for a negative [n] it
    returns no group at all. *)
Theorem chunked_groups {A} (lst : list A) (n : Z) :
  (1 <= n ->
   exists groups,
     chunked lst n = Ret groups
     /\ concat groups = lst
     /\ len groups = (len lst + n - 1) / n
     /\ Forall (fun g => 1 <= len g <= n) groups)
  /\ (n = 0 -> chunked lst n = Raise ValueError)
  /\ (n < 0 -> chunked lst n = Ret []).
Proof. apply chunked_spec. Qed.

Lemma chunked_groups_witness :
  (exists groups,
      chunked [1; 2; 3; 4; 5] 2 = Ret groups
      /\ concat groups = [1; 2; 3; 4; 5]
      /\ len groups = (len [1; 2; 3; 4; 5] + 2 - 1) / 2
      /\ Forall (fun g => 1 <= len g <= 2) groups)
  /\ chunked [1; 2; 3; 4; 5] 0 = Raise ValueError
  /\ chunked [1; 2; 3; 4; 5] (-1) = Ret [].
Proof.
  split; [|split].
  - apply (proj1 (chunked_groups [1; 2; 3; 4; 5] 2)). lia.
  - apply (proj1 (proj2 (chunked_groups [1; 2; 3; 4; 5] 0))). reflexivity.
  - apply (proj2 (proj2 (chunked_groups [1; 2; 3; 4; 5] (-1)))). lia.
Defined.

Lemma chunked_head {A} (lst : list A) (n : Z) :
  1 <= n -> lst <> [] ->
  exists gs, chunked lst n = Ret (take (Z.to_nat n) lst :: gs).
Proof.
  intros Hn Hne. unfold chunked, py_range0.
  destruct (Z.eqb_spec n 0); [lia|].
  destruct (Z.ltb_spec 0 n); [|lia].
  apply nonempty_len in Hne.
  assert (1 <= (len lst + n - 1) / n) as Hc
    by (apply Z.div_le_lower_bound; lia).
  destruct (Z.to_nat ((len lst + n - 1) / n)) as [|c] eqn:Hcn; [lia|].
  simpl. eexists. f_equal. f_equal.
  by rewrite slice_0_nonneg by lia.
Qed.

(** ** The preview of the upcoming groups *)

(** What [/status] of bot3.0.py lists as upcoming is [queue[index:]]. *)
Lemma upcoming_ids_slice (q : list Z) (i : Z) :
  (if i <? len q then slice_from q i else []) = slice_from q i.
Proof.
  destruct (Z.ltb_spec i (len q)); [done|].
  unfold slice_from, py_bound.
  destruct (Z.ltb_spec i 0); [unfold len in *; lia|].
  rewrite drop_ge; [done|]. unfold len in *. lia.
Qed.

(** X11.  [/status] and [/schedule show] of bot3.0.py (and [/status] of
    bot2.0.py) chunk the rest of the queue by the configured pick count as
    it is stored: a count of 0, which a run treats as 1, makes them
    raise [ValueError]; a negative count shows no group; a count of at
    least 1 shows the whole rest of the queue in groups of at most that
    size. *)
Theorem upcoming_groups_of_status (data : Bot30.Data) :
  let y := default Bot30.DEFAULT_PICKS_Y (Bot30.picks_y data) in
  let rest := slice_from (Bot30.queue (Bot30.current_cycle data))
                         (Bot30.index (Bot30.current_cycle data)) in
  (y = 0 -> Commands30.upcoming_groups data = Raise ValueError
            /\ Bot30.effective_picks data = 1)
  /\ (y < 0 -> Commands30.upcoming_groups data = Ret [])
  /\ (1 <= y ->
      exists groups,
        Commands30.upcoming_groups data = Ret groups
        /\ concat groups = rest
        /\ Forall (fun g => 1 <= len g <= y) groups).
Proof.
  simpl. unfold Commands30.upcoming_groups. rewrite upcoming_ids_slice.
  split; [|split].
  - intros Hy. split.
    + rewrite Hy. by apply chunked_spec.
    + unfold Bot30.effective_picks. by rewrite Hy.
  - intros Hy. by apply chunked_spec.
  - intros Hy.
    destruct (proj1 (chunked_spec
                       (slice_from (Bot30.queue (Bot30.current_cycle data))
                                   (Bot30.index (Bot30.current_cycle data)))
                       (default Bot30.DEFAULT_PICKS_Y (Bot30.picks_y data)))
                Hy) as (groups & Hc & Hcat & _ & Hall).
    by exists groups.
Qed.

Lemma upcoming_groups_of_status_witness :
  (Commands30.upcoming_groups (data_picks 0) = Raise ValueError
   /\ Bot30.effective_picks (data_picks 0) = 1)
  /\ Commands30.upcoming_groups (data_picks (-2)) = Ret []
  /\ (exists groups,
         Commands30.upcoming_groups data_two_left = Ret groups
         /\ concat groups
            = slice_from (Bot30.queue (Bot30.current_cycle data_two_left))
                         (Bot30.index (Bot30.current_cycle data_two_left))
         /\ Forall (fun g => 1 <= len g
                             <= default Bot30.DEFAULT_PICKS_Y
                                        (Bot30.picks_y data_two_left))
                   groups).
Proof.
  split; [|split].
  - apply (proj1 (upcoming_groups_of_status (data_picks 0))). reflexivity.
  - apply (proj1 (proj2 (upcoming_groups_of_status (data_picks (-2))))).
    simpl. lia.
  - apply (proj2 (proj2 (upcoming_groups_of_status data_two_left))).
    simpl. lia.
Defined.

Section Preview.
Context {RNG : Type} (shuffle : RNG -> list Z -> list Z * RNG).
Hypothesis shuffle_perm : forall g l, (shuffle g l).1 ≡ₚ l.

(** X12.  bot3.0.py (and bot2.0.py): when the stored pick count is at least
    1 and the members still queued are all in the pool, the first group
    [/status] shows is the start of the next batch, and the whole batch
    when at least [y] members are queued. *)
Theorem status_previews_next_batch_30 pool w (data : Bot30.Data) rng :
  sees_pool30 pool w ->
  1 <= default Bot30.DEFAULT_PICKS_Y (Bot30.picks_y data) ->
  let y := Bot30.effective_picks data in
  let rest := slice_from (Bot30.queue (Bot30.current_cycle data))
                         (Bot30.index (Bot30.current_cycle data)) in
  rest <> [] -> Forall (fun uid => uid ∈ pool) rest ->
  exists g gs more selected data' rng',
    Commands30.upcoming_groups data = Ret (g :: gs)
    /\ Bot30.run_rotation shuffle w data rng = (selected, None, data', rng')
    /\ selected = g ++ more
    /\ (y <= len rest -> more = []).
Proof.
  intros Hw Hy1. simpl. intros Hne Hin.
  assert (Bot30.effective_picks data
          = default Bot30.DEFAULT_PICKS_Y (Bot30.picks_y data)) as Hy.
  { unfold Bot30.effective_picks.
    by destruct (Z.ltb_spec
                   (default Bot30.DEFAULT_PICKS_Y (Bot30.picks_y data)) 1);
      [lia|]. }
  unfold Commands30.upcoming_groups. rewrite upcoming_ids_slice, <- Hy.
  set (rest := slice_from _ _) in *.
  set (y := Bot30.effective_picks data) in *.
  assert (1 <= y) as Hy1' by lia.
  destruct (chunked_head rest y Hy1' Hne) as [gs Hgs].
  destruct (run_rotation_selection shuffle pool w data rng Hw)
    as (data' & Hrun & _).
  fold y in Hrun.
  assert (leftovers30 pool (Bot30.current_cycle data) = rest) as Hl.
  { unfold leftovers30, Bot30.repair_cycle_with_current_a. simpl.
    by apply filter_all. }
  destruct (Z.le_gt_cases y (len rest)) as [Hfull | Htop].
  - rewrite select_ids_carry_full in Hrun by (rewrite ?Hl; done).
    simpl in Hrun. rewrite Hl in Hrun.
    rewrite filter_all in Hrun by by apply Forall_take_of.
    exists (take (Z.to_nat y) rest), gs, []. do 3 eexists.
    split; [done|]. split; [exact Hrun|]. by rewrite app_nil_r.
  - rewrite select_ids_carry_topup in Hrun by (rewrite ?Hl; done).
    simpl in Hrun. rewrite Hl in Hrun.
    rewrite filter_app, (filter_all _ rest) in Hrun by done.
    exists (take (Z.to_nat y) rest), gs. do 4 eexists.
    split; [done|]. split; [exact Hrun|]. split; [|lia].
    rewrite (take_ge rest); [done|]. unfold len in *. lia.
Qed.

(** X13.  bot3.1.py: when the members of the stored pool are all in role
    A, the first group [/status] shows is the start of the next batch, and
    the whole batch when the stored pool has at least [y] members (every
    grant succeeding). *)
Theorem status_previews_next_batch_31 pool cfg w (st : Bot31.GuildState)
    rng :
  sees_pool31 pool cfg w -> grants_all31 pool w ->
  let y := Bot31.effective_picks cfg in
  Bot31.current_cycle_pool st <> [] ->
  Forall (fun uid => uid ∈ pool) (Bot31.current_cycle_pool st) ->
  exists g gs more rep st' rng',
    Commands31.status_groups cfg st = Ret (g :: gs)
    /\ Bot31.perform_run shuffle w cfg st rng = (Some rep, st', rng')
    /\ Bot31.assigned rep = g ++ more
    /\ (y <= len (Bot31.current_cycle_pool st) -> more = []).
Proof.
  intros Hw Hok. simpl. intros Hne Hin.
  pose proof (effective_picks31_ge_1 cfg) as Hy1.
  unfold Commands31.status_groups.
  set (rest := Bot31.current_cycle_pool st) in *.
  set (y := Bot31.effective_picks cfg) in *.
  destruct (chunked_head rest y Hy1 Hne) as [gs Hgs].
  destruct (perform_run_selection shuffle shuffle_perm pool cfg w st rng
              Hw Hok) as (rep & st' & Hrun & Hasg & _).
  fold y rest in Hasg.
  assert (carried31 pool rest = rest) as Hl by by apply carried31_id.
  destruct (Z.le_gt_cases y (len rest)) as [Hfull | Htop].
  - rewrite select_picks_carry_full in Hasg by (rewrite ?Hl; done).
    simpl in Hasg. rewrite Hl in Hasg.
    exists (take (Z.to_nat y) rest), gs, [], rep, st'. eexists.
    split; [done|]. split; [exact Hrun|]. by rewrite app_nil_r.
  - rewrite select_picks_carry_topup in Hasg by (rewrite ?Hl; done).
    rewrite Hl in Hasg.
    rewrite (take_ge rest) in Hgs by (unfold len in *; lia).
    exists rest, gs. cbv zeta in Hasg.
    destruct (_ <=? _) in Hasg; simpl in Hasg; do 4 eexists;
      (split; [exact Hgs|]); (split; [exact Hrun|]);
      (split; [exact Hasg | lia]).
Qed.

End Preview.

Lemma status_previews_next_batch_30_witness :
  exists g gs more selected data' rng',
    Commands30.upcoming_groups data_two_left = Ret (g :: gs)
    /\ Bot30.run_rotation reverse_shuffle
         (world30 guild5 (Bot30.mkApi always always) 100) data_two_left
         0%nat
       = (selected, None, data', rng')
    /\ selected = g ++ more
    /\ (Bot30.effective_picks data_two_left
        <= len (slice_from (Bot30.queue (Bot30.current_cycle data_two_left))
                           (Bot30.index (Bot30.current_cycle data_two_left)))
        -> more = []).
Proof.
  apply (status_previews_next_batch_30 reverse_shuffle [1; 2; 3; 4; 5]).
  - exists 10, 11. by vm_compute.
  - by vm_compute.
  - by vm_compute.
  - apply (bool_decide_unpack _). by vm_compute.
Defined.

Lemma status_previews_next_batch_31_witness :
  exists g gs more rep st' rng',
    Commands31.status_groups (config31 4 "weekly") state31_two_left
    = Ret (g :: gs)
    /\ Bot31.perform_run reverse_shuffle (world31 guild5 always 100)
         (config31 4 "weekly") state31_two_left 0%nat
       = (Some rep, st', rng')
    /\ Bot31.assigned rep = g ++ more
    /\ (Bot31.effective_picks (config31 4 "weekly")
        <= len (Bot31.current_cycle_pool state31_two_left) -> more = []).
Proof.
  apply (status_previews_next_batch_31 reverse_shuffle reverse_shuffle_perm
           [1; 2; 3; 4; 5]).
  - repeat split; apply (bool_decide_unpack _); by vm_compute.
  - by intros uid _.
  - by vm_compute.
  - apply (bool_decide_unpack _). by vm_compute.
Defined.

(** ** Hold intervals and totals in bot3.0.py *)

(** The record [finalize_stats] leaves for a member. *)
Definition closed_stat (now : Z) (o : option Bot30.UserStat)
  : Bot30.UserStat :=
  match o with
  | None => Bot30.mkStat 0 None
  | Some rec =>
      if Bot30.truthy (Bot30.hold_started_ts rec)
      then Bot30.mkStat
             (Bot30.seconds_total rec
              + Z.max 0 (now - default 0 (Bot30.hold_started_ts rec))) None
      else rec
  end.

Lemma finalize_stats_lookup now uid (st : gmap Z Bot30.UserStat) k :
  Bot30.finalize_stats now uid st !! k
  = if bool_decide (k = uid) then Some (closed_stat now (st !! uid))
    else st !! k.
Proof.
  unfold Bot30.finalize_stats, Bot30.ensure_user_stat, closed_stat.
  destruct (st !! uid) as [[acc [s|]]|] eqn:Hu; simpl.
  - rewrite Hu. simpl. destruct (negb (s =? 0)) eqn:Hs.
    + case_bool_decide as Hk; [subst; by rewrite lookup_insert_eq|].
      by rewrite lookup_insert_ne.
    + case_bool_decide as Hk; [by subst|done].
  - rewrite Hu. simpl. case_bool_decide as Hk; [by subst|done].
  - rewrite lookup_insert_eq. simpl.
    case_bool_decide as Hk; [subst; by rewrite lookup_insert_eq|].
    by rewrite lookup_insert_ne.
Qed.

(** A member has an open interval: a start that Python takes as true. *)
Definition is_open (st : gmap Z Bot30.UserStat) (uid : Z) : Prop :=
  exists rec, st !! uid = Some rec
              /\ Bot30.truthy (Bot30.hold_started_ts rec) = true.

(** The accumulated seconds of a member, 0 without an entry. *)
Definition total_of (st : gmap Z Bot30.UserStat) (uid : Z) : Z :=
  from_option Bot30.seconds_total 0 (st !! uid).

Lemma closed_stat_not_open now o :
  Bot30.truthy (Bot30.hold_started_ts (closed_stat now o)) = false.
Proof.
  unfold closed_stat. destruct o as [rec|]; [|done].
  destruct (Bot30.truthy (Bot30.hold_started_ts rec)) eqn:Ht; done.
Qed.

Lemma closed_stat_total now o :
  from_option Bot30.seconds_total 0 o
  <= Bot30.seconds_total (closed_stat now o).
Proof.
  unfold closed_stat. destruct o as [rec|]; simpl; [|lia].
  destruct (Bot30.truthy _); simpl; lia.
Qed.

Lemma finalize_all_lookup now (l : list Z) (st : gmap Z Bot30.UserStat) k :
  k ∉ l ->
  foldl (fun st uid => Bot30.finalize_stats now uid st) st l !! k = st !! k.
Proof.
  revert st. induction l as [|u l IH]; intros st Hk; [done|].
  simpl. rewrite IH by (intros ?; apply Hk; by right).
  rewrite finalize_stats_lookup. case_bool_decide; [|done].
  subst. exfalso. apply Hk. by left.
Qed.

Lemma finalize_all_not_open now (l : list Z) (st : gmap Z Bot30.UserStat) k :
  is_open (foldl (fun st uid => Bot30.finalize_stats now uid st) st l) k ->
  is_open st k /\ k ∉ l.
Proof.
  revert st. induction l as [|u l IH]; intros st Ho.
  - split; [done|]. by intros ?%elem_of_nil.
  - simpl in Ho. apply IH in Ho as [(rec & Hl & Ht) Hnl].
    rewrite finalize_stats_lookup in Hl. case_bool_decide as Hk.
    + injection Hl as <-. by rewrite closed_stat_not_open in Ht.
    + split; [by exists rec|]. intros [->|?]%elem_of_cons; done.
Qed.

Lemma finalize_all_total now (l : list Z) (st : gmap Z Bot30.UserStat) k :
  total_of st k
  <= total_of (foldl (fun st uid => Bot30.finalize_stats now uid st) st l) k.
Proof.
  revert st. induction l as [|u l IH]; intros st; [simpl; lia|].
  simpl. etrans; [|apply IH]. unfold total_of.
  rewrite finalize_stats_lookup. case_bool_decide; [|lia].
  subst. simpl. apply closed_stat_total.
Qed.

(** One step of the loop of [open_holds]. *)
Definition open_hold (api : Bot30.Api) (now_ts : Z)
    (st : gmap Z Bot30.UserStat) (uid : Z) : gmap Z Bot30.UserStat :=
  if Bot30.add_ok api uid then
    let st := Bot30.ensure_user_stat uid st in
    match st !! uid with
    | Some rec => <[uid := Bot30.mkStat (Bot30.seconds_total rec)
                                        (Some now_ts)]> st
    | None => st
    end
  else st.

Lemma open_holds_foldl api now_ts l st :
  Bot30.open_holds api now_ts l st = foldl (open_hold api now_ts) st l.
Proof. done. Qed.

Lemma open_hold_lookup api now_ts (st : gmap Z Bot30.UserStat) uid k :
  open_hold api now_ts st uid !! k
  = if bool_decide (k = uid) && Bot30.add_ok api uid
    then Some (Bot30.mkStat (total_of st uid) (Some now_ts))
    else st !! k.
Proof.
  unfold open_hold, Bot30.ensure_user_stat, total_of.
  destruct (Bot30.add_ok api uid); [|by rewrite andb_false_r].
  rewrite andb_true_r.
  destruct (st !! uid) as [rec|] eqn:Hu; simpl.
  - rewrite Hu. case_bool_decide as Hk; [subst; by rewrite lookup_insert_eq|].
    by rewrite lookup_insert_ne.
  - rewrite lookup_insert_eq. simpl.
    case_bool_decide as Hk; [subst; by rewrite lookup_insert_eq|].
    by rewrite !lookup_insert_ne.
Qed.

Lemma open_holds_total api now_ts l (st : gmap Z Bot30.UserStat) k :
  total_of (foldl (open_hold api now_ts) st l) k = total_of st k.
Proof.
  revert st. induction l as [|u l IH]; intros st; [done|].
  simpl. rewrite IH. unfold total_of at 1. rewrite open_hold_lookup.
  case_bool_decide as Hk; simpl; [|done].
  destruct (Bot30.add_ok api u); simpl; [by subst|done].
Qed.

Lemma open_holds_lookup api now_ts l (st : gmap Z Bot30.UserStat) k :
  foldl (open_hold api now_ts) st l !! k
  = if bool_decide (k ∈ l) && Bot30.add_ok api k
    then Some (Bot30.mkStat (total_of st k) (Some now_ts))
    else st !! k.
Proof.
  revert st. induction l as [|u l IH]; intros st.
  - cbn [foldl].
    by rewrite (bool_decide_eq_false_2 (k ∈ [])) by by intros ?%elem_of_nil.
  - cbn [foldl]. rewrite IH.
    pose proof (open_holds_total api now_ts [u] st k) as Ht. simpl in Ht.
    rewrite Ht, open_hold_lookup.
    destruct (decide (k = u)) as [->|Hne].
    + rewrite (bool_decide_eq_true_2 (u ∈ u :: l)) by by left.
      rewrite (bool_decide_eq_true_2 (u = u)) by done. simpl.
      destruct (Bot30.add_ok api u); [|by rewrite andb_false_r].
      by destruct (bool_decide (u ∈ l)).
    + rewrite (bool_decide_eq_false_2 (k = u)) by done. simpl.
      destruct (decide (k ∈ l)) as [Hin|Hnin].
      * rewrite (bool_decide_eq_true_2 (k ∈ l)) by done.
        by rewrite (bool_decide_eq_true_2 (k ∈ u :: l)) by by right.
      * rewrite (bool_decide_eq_false_2 (k ∈ l)) by done.
        rewrite (bool_decide_eq_false_2 (k ∈ u :: l)); [done|].
        by intros [?|?]%elem_of_cons.
Qed.

Lemma remove_role_b_spec guild role_b api now data :
  let res :=
    Bot30.remove_role_b_from_current_holders guild role_b api now data in
  Bot30.current_holders res.1 = []
  /\ (forall uid, is_open (Bot30.stats res.1) uid ->
        is_open (Bot30.stats data) uid
        /\ uid ∉ Bot30.current_holders data)
  /\ res.2 ⊆ Bot30.current_holders data
  /\ (forall uid, total_of (Bot30.stats data) uid
                  <= total_of (Bot30.stats res.1) uid)
  /\ Bot30.current_cycle res.1 = Bot30.current_cycle data
  /\ Bot30.picks_y res.1 = Bot30.picks_y data
  /\ Bot30.schedule res.1 = Bot30.schedule data
  /\ Bot30.next_run_ts res.1 = Bot30.next_run_ts data.
Proof.
  unfold Bot30.remove_role_b_from_current_holders.
  destruct (Bot30.current_holders data) as [|u l] eqn:Hh.
  - simpl. rewrite Hh. split; [done|]. split; [|split; [|split]].
    + intros uid Ho. split; [done|]. by intros ?%elem_of_nil.
    + by intros x ?%elem_of_nil.
    + intros. lia.
    + done.
  - cbn [fst snd]. split; [done|]. split; [|split; [|split]].
    4: done.
    + intros uid Ho. by apply (finalize_all_not_open now (u :: l)) in Ho.
    + intros x Hx. by apply list_elem_of_filter in Hx as [_ ?].
    + intros uid. apply (finalize_all_total now (u :: l)).
Qed.

(** X14.  What [remove_role_b_from_current_holders] of bot3.0.py leaves,
    whatever the Discord calls do: no recorded holder; an interval is open
    afterwards only if it was open before and its member was not a
    recorded holder; the role is taken from recorded holders only; no
    member's accumulated seconds decrease; the cycle, the pick count, the
    schedule and the next run are as before. *)
Theorem remove_role_b_leaves_no_holder guild role_b api now data :
  let res :=
    Bot30.remove_role_b_from_current_holders guild role_b api now data in
  Bot30.current_holders res.1 = []
  /\ (forall uid, is_open (Bot30.stats res.1) uid ->
        is_open (Bot30.stats data) uid
        /\ uid ∉ Bot30.current_holders data)
  /\ res.2 ⊆ Bot30.current_holders data
  /\ (forall uid, total_of (Bot30.stats data) uid
                  <= total_of (Bot30.stats res.1) uid)
  /\ Bot30.current_cycle res.1 = Bot30.current_cycle data
  /\ Bot30.picks_y res.1 = Bot30.picks_y data
  /\ Bot30.schedule res.1 = Bot30.schedule data
  /\ Bot30.next_run_ts res.1 = Bot30.next_run_ts data.
Proof. apply remove_role_b_spec. Qed.

(** Member 7 is the recorded holder; member 8 has an interval that was
    never closed. *)
Definition data_holder_7 : Bot30.Data :=
  Bot30.mkData (Some 1) schedule_off [7]
    (<[8 := Bot30.mkStat 5 (Some 900)]> stat_open)
    (Bot30.mkCycle [] 0) None.

Lemma remove_role_b_leaves_no_holder_witness :
  is_open (Bot30.stats data_holder_7) 8
  /\ 8 ∉ Bot30.current_holders data_holder_7.
Proof.
  apply (proj1 (proj2 (remove_role_b_leaves_no_holder
                         guild_holder 11 (Bot30.mkApi always always) 1100
                         data_holder_7)) 8).
  exists (Bot30.mkStat 5 (Some 900)). split; by vm_compute.
Defined.

Section Holders30.
Context {RNG : Type} (shuffle : RNG -> list Z -> list Z * RNG).

Lemma pick_next_batch_stats guild role_a role_b api now_ts data rng :
  let res :=
    Bot30.pick_next_batch shuffle guild role_a role_b api now_ts data rng in
  Bot30.current_holders res.1.2 = res.1.1
  /\ Bot30.stats res.1.2
     = foldl (open_hold api now_ts) (Bot30.stats data) res.1.1
  /\ Bot30.picks_y res.1.2 = Bot30.picks_y data
  /\ Bot30.schedule res.1.2 = Bot30.schedule data
  /\ Bot30.next_run_ts res.1.2 = Bot30.next_run_ts data.
Proof.
  unfold Bot30.pick_next_batch.
  destruct (Bot30.select_ids _ _ _ _ _) as [[sel cyc] rng']. done.
Qed.

(** X15.  Over a run of bot3.0.py, whatever the Discord calls do.  Without
    both roles the run changes nothing.  Otherwise, if before the run every
    member with an open interval was a recorded holder, then after it the
    members with an open interval are exactly the members of the batch
    whose grant succeeded (the clock not reading 0), each interval starting
    at the time of the pick; the recorded holders are the batch; no
    member's accumulated seconds decrease; the schedule and the next run
    are untouched. *)
Theorem open_intervals_after_a_run w data rng :
  (forall uid, is_open (Bot30.stats data) uid ->
               uid ∈ Bot30.current_holders data) ->
  let res := Bot30.run_rotation shuffle w data rng in
  let selected := res.1.1.1 in
  let data' := res.1.2 in
  match res.1.1.2 with
  | Some _ => data' = data /\ selected = []
  | None =>
      Bot30.current_holders data' = selected
      /\ (forall uid,
            is_open (Bot30.stats data') uid
            <-> uid ∈ selected
                /\ Bot30.add_ok (Bot30.w_api w) uid = true
                /\ Bot30.w_now_pick w <> 0)
      /\ (forall uid rec,
            is_open (Bot30.stats data') uid ->
            Bot30.stats data' !! uid = Some rec ->
            Bot30.hold_started_ts rec = Some (Bot30.w_now_pick w))
      /\ (forall uid, total_of (Bot30.stats data) uid
                      <= total_of (Bot30.stats data') uid)
      /\ Bot30.schedule data' = Bot30.schedule data
      /\ Bot30.next_run_ts data' = Bot30.next_run_ts data
  end.
Proof.
  intros Hinv. unfold Bot30.run_rotation.
  destruct (Bot30.w_role_a w) as [role_a|], (Bot30.w_role_b w) as [role_b|];
    [|done..].
  pose proof (remove_role_b_spec
                (Bot30.w_guild w) role_b (Bot30.w_api w)
                (Bot30.w_now_remove w) data) as Hrem.
  destruct (Bot30.remove_role_b_from_current_holders _ _ _ _ _)
    as [data1 revoked].
  simpl in Hrem. destruct Hrem as (_ & Hno & _ & Htot & _ & _ & Hs & Hn).
  pose proof (pick_next_batch_stats
                (Bot30.w_guild w) role_a role_b (Bot30.w_api w)
                (Bot30.w_now_pick w) data1 rng) as Hpick.
  destruct (Bot30.pick_next_batch _ _ _ _ _ _ _ _) as [[selected data2] rng2].
  simpl in Hpick. destruct Hpick as (Hh & Hst & _ & Hs2 & Hn2). simpl.
  assert (forall uid, ~ is_open (Bot30.stats data1) uid) as Hclosed.
  { intros uid Ho. apply Hno in Ho as [Ho Hnot]. by apply Hinv in Ho. }
  split; [done|]. split; [|split; [|split; [|split]]].
  - intros uid. split.
    + intros (rec & Hl & Ht). rewrite Hst, open_holds_lookup in Hl.
      destruct (bool_decide (uid ∈ selected)) eqn:Hin;
        destruct (Bot30.add_ok (Bot30.w_api w) uid) eqn:Hok; simpl in Hl;
        try (exfalso; apply (Hclosed uid); by exists rec).
      injection Hl as <-. simpl in Ht.
      apply bool_decide_eq_true in Hin.
      split; [done|]. split; [done|].
      intros H0. rewrite H0 in Ht. done.
    + intros (Hin & Hok & Hnow). eexists. split.
      * rewrite Hst, open_holds_lookup, Hok.
        case_bool_decide; [reflexivity | done].
      * simpl. by apply negb_true_iff, Z.eqb_neq.
  - intros uid rec (rec' & Hl' & Ht) Hl.
    rewrite Hst, open_holds_lookup in Hl, Hl'.
    destruct (bool_decide (uid ∈ selected) && _) eqn:Hc.
    + by injection Hl as <-.
    + exfalso. apply (Hclosed uid). by exists rec'.
  - intros uid. etrans; [apply Htot|].
    rewrite Hst, open_holds_total. lia.
  - congruence.
  - congruence.
Qed.

End Holders30.

(** Member 7 is the recorded holder, with an interval open since 1000. *)
Definition data_open_7 : Bot30.Data :=
  Bot30.mkData (Some 2) schedule_off [7] stat_open (Bot30.mkCycle [] 0) None.

Lemma open_intervals_after_a_run_witness :
  let res := Bot30.run_rotation reverse_shuffle
               (world30 guild3 api_refuses_2 1100) data_open_7 0%nat in
  res.1.1.2 = None
  /\ (is_open (Bot30.stats res.1.2) 1
      <-> 1 ∈ res.1.1.1 /\ Bot30.add_ok api_refuses_2 1 = true /\ 1100 <> 0)
  /\ total_of (Bot30.stats data_open_7) 7
     <= total_of (Bot30.stats res.1.2) 7.
Proof.
  pose proof (open_intervals_after_a_run reverse_shuffle
                (world30 guild3 api_refuses_2 1100) data_open_7 0%nat)
    as Hrun.
  cbv zeta in Hrun.
  assert ((Bot30.run_rotation reverse_shuffle
             (world30 guild3 api_refuses_2 1100) data_open_7
             0%nat).1.1.2 = None) as Hnone by by vm_compute.
  rewrite Hnone in Hrun.
  destruct Hrun as (_ & Hopen & _ & Htot & _).
  - intros uid (rec & Hl & Ht).
    destruct (decide (uid = 7)) as [->|H7]; [by left|].
    exfalso. unfold data_open_7, stat_open in Hl. cbn [Bot30.stats] in Hl.
    by rewrite lookup_singleton_ne in Hl.
  - cbv zeta. split; [done|]. split; [apply Hopen | apply Htot].
Defined.

(** X16.  The total [/stats] of bot3.0.py shows for a member: closing the
    interval at the time of the query does not move it, after the closing
    it stays where it is, while the interval is open it grows with time,
    and it is never below the accumulated seconds. *)
Theorem closing_keeps_the_total now later uid
    (st : gmap Z Bot30.UserStat) rec :
  st !! uid = Some rec -> now <= later ->
  exists rec',
    Bot30.finalize_stats now uid st !! uid = Some rec'
    /\ Bot30.stats_total now rec' = Bot30.stats_total now rec
    /\ Bot30.stats_total later rec' = Bot30.stats_total now rec
    /\ Bot30.stats_total now rec <= Bot30.stats_total later rec
    /\ Bot30.seconds_total rec <= Bot30.stats_total now rec.
Proof.
  intros Hrec Hle. rewrite finalize_stats_lookup, Hrec.
  rewrite bool_decide_eq_true_2 by done. eexists. split; [done|].
  unfold Bot30.stats_total, closed_stat.
  destruct rec as [acc [s|]]; simpl; [|lia].
  destruct (negb (s =? 0)) eqn:E; simpl; rewrite ?E; lia.
Qed.

Lemma closing_keeps_the_total_witness :
  exists rec',
    Bot30.finalize_stats 1100 7 stat_open !! 7 = Some rec'
    /\ Bot30.stats_total 1100 rec'
       = Bot30.stats_total 1100 (Bot30.mkStat 40 (Some 1000))
    /\ Bot30.stats_total 1200 rec'
       = Bot30.stats_total 1100 (Bot30.mkStat 40 (Some 1000))
    /\ Bot30.stats_total 1100 (Bot30.mkStat 40 (Some 1000))
       <= Bot30.stats_total 1200 (Bot30.mkStat 40 (Some 1000))
    /\ Bot30.seconds_total (Bot30.mkStat 40 (Some 1000))
       <= Bot30.stats_total 1100 (Bot30.mkStat 40 (Some 1000)).
Proof.
  apply (closing_keeps_the_total 1100 1200 7 stat_open
           (Bot30.mkStat 40 (Some 1000))); [by vm_compute | lia].
Defined.

(** ** The permission commands *)

Lemma add_if_absent_elem x arr v :
  v ∈ Commands30.add_if_absent x arr <-> v = x \/ v ∈ arr.
Proof.
  unfold Commands30.add_if_absent. case_bool_decide as Hx.
  - split; [by right|]. by intros [->|?].
  - rewrite elem_of_app, list_elem_of_singleton. tauto.
Qed.

Lemma add_if_absent_NoDup x arr :
  NoDup arr -> NoDup (Commands30.add_if_absent x arr).
Proof.
  intros Hnd. unfold Commands30.add_if_absent. case_bool_decide as Hx; [done|].
  apply NoDup_app. split; [done|]. split.
  - intros y Hy ->%list_elem_of_singleton. done.
  - apply NoDup_singleton.
Qed.

Lemma list_remove_first_elem x arr v :
  v ∈ Commands30.list_remove_first x arr -> v ∈ arr.
Proof.
  induction arr as [|y arr IH]; simpl; [done|].
  case_bool_decide as Hy; [by right|].
  intros [->|?]%elem_of_cons; [by left|right; auto].
Qed.

Lemma list_remove_first_other x arr v :
  v <> x -> v ∈ arr -> v ∈ Commands30.list_remove_first x arr.
Proof.
  intros Hne. induction arr as [|y arr IH]; simpl; [done|].
  intros [->|Hin]%elem_of_cons.
  - rewrite bool_decide_eq_false_2 by done. by left.
  - case_bool_decide; [done|]. right. auto.
Qed.

Lemma list_remove_first_NoDup x arr :
  NoDup arr ->
  NoDup (Commands30.list_remove_first x arr)
  /\ x ∉ Commands30.list_remove_first x arr.
Proof.
  induction 1 as [|y arr Hy Hnd IH]; simpl.
  - split; [constructor | by intros ?%elem_of_nil].
  - case_bool_decide as Hx; [subst; by split|].
    destruct IH as [IH1 IH2]. split.
    + constructor; [|done]. intros Hin. by apply list_remove_first_elem in Hin.
    + intros [->|?]%elem_of_cons; done.
Qed.

Lemma list_remove_first_length x arr :
  x ∈ arr -> S (length (Commands30.list_remove_first x arr)) = length arr.
Proof.
  induction arr as [|y arr IH]; simpl; [by intros ?%elem_of_nil|].
  case_bool_decide as Hy; [done|].
  intros [->|Hin]%elem_of_cons; [done|]. simpl. by rewrite IH.
Qed.

(** X17.  The permission commands of bot3.0.py (and bot2.0.py) on the list
    of permitted users.  A caller who is neither administrator nor
    permitted changes nothing.  For a caller who is: [add_user] leaves the
    user in the list, keeps everyone who was in it and adds no second
    copy; whoever was added is admitted afterwards; [remove_user] takes
    out one occurrence, so the user is out of a list without repeats, and
    nobody else is removed. *)
Theorem permitted_users_list caller user perm :
  (Commands30.is_admin_or_permitted perm caller = false ->
     Commands30.perm_add_user caller user perm = perm
     /\ Commands30.perm_remove_user caller user perm = perm)
  /\ (Commands30.is_admin_or_permitted perm caller = true ->
      let added := Commands30.perm_add_user caller user perm in
      let removed := Commands30.perm_remove_user caller user perm in
      (forall v, v ∈ Commands30.users added
                 <-> v = user \/ v ∈ Commands30.users perm)
      /\ (NoDup (Commands30.users perm) -> NoDup (Commands30.users added))
      /\ (forall who, Commands30.c_id who = user ->
                      Commands30.is_admin_or_permitted added who = true)
      /\ (forall v, v <> user ->
                    v ∈ Commands30.users removed
                    <-> v ∈ Commands30.users perm)
      /\ (NoDup (Commands30.users perm) ->
          NoDup (Commands30.users removed)
          /\ user ∉ Commands30.users removed)
      /\ Commands30.roles added = Commands30.roles perm
      /\ Commands30.roles removed = Commands30.roles perm).
Proof.
  unfold Commands30.perm_add_user, Commands30.perm_remove_user.
  split; intros Hc; rewrite Hc; simpl; [done|].
  split; [apply add_if_absent_elem|].
  split; [apply add_if_absent_NoDup|].
  split.
  { intros who Hwho. unfold Commands30.is_admin_or_permitted. simpl.
    destruct (Commands30.c_administrator who); [done|].
    rewrite bool_decide_eq_true_2; [done|].
    apply add_if_absent_elem. by left. }
  split.
  { intros v Hv. unfold Commands30.remove_if_present.
    case_bool_decide; [|done]. split.
    - apply list_remove_first_elem.
    - by apply list_remove_first_other. }
  split; [|done].
  intros Hnd. unfold Commands30.remove_if_present.
  case_bool_decide; [by apply list_remove_first_NoDup | done].
Qed.

(** Member 5 is permitted by id and role 20 by role; member 6 is not
    permitted and has role 21. *)
Definition perm_5_20 : Commands30.Permissions :=
  Commands30.mkPermissions [5] [20].
Definition member_5 : Commands30.Caller := Commands30.mkCaller 5 false [].
Definition member_6 : Commands30.Caller := Commands30.mkCaller 6 false [21].

Lemma permitted_users_list_witness :
  (Commands30.perm_add_user member_6 9 perm_5_20 = perm_5_20
   /\ Commands30.perm_remove_user member_6 9 perm_5_20 = perm_5_20)
  /\ 9 ∈ Commands30.users (Commands30.perm_add_user member_5 9 perm_5_20)
  /\ (NoDup (Commands30.users
               (Commands30.perm_remove_user member_5 5 perm_5_20))
      /\ 5 ∉ Commands30.users
               (Commands30.perm_remove_user member_5 5 perm_5_20)).
Proof.
  split; [|split].
  - apply (proj1 (permitted_users_list member_6 9 perm_5_20)).
    by vm_compute.
  - destruct (proj2 (permitted_users_list member_5 9 perm_5_20))
      as (Hadd & _); [by vm_compute|].
    apply Hadd. by left.
  - destruct (proj2 (permitted_users_list member_5 5 perm_5_20))
      as (_ & _ & _ & _ & Hrem & _); [by vm_compute|].
    apply Hrem. apply (bool_decide_unpack _). by vm_compute.
Defined.

(** X18.  The same commands on the list of permitted roles: nothing changes
    for a caller who is not admitted; a member who has a role that was
    added is admitted; no other role is removed; after [remove_role] on a
    list without repeats the role admits nobody any more: a member who is
    not administrator, is not permitted by id and has no other permitted
    role (whatever other roles the member has) is not admitted. *)
Theorem permitted_roles_list caller role perm :
  (Commands30.is_admin_or_permitted perm caller = false ->
     Commands30.perm_add_role caller role perm = perm
     /\ Commands30.perm_remove_role caller role perm = perm)
  /\ (Commands30.is_admin_or_permitted perm caller = true ->
      let added := Commands30.perm_add_role caller role perm in
      let removed := Commands30.perm_remove_role caller role perm in
      (forall v, v ∈ Commands30.roles added
                 <-> v = role \/ v ∈ Commands30.roles perm)
      /\ (NoDup (Commands30.roles perm) -> NoDup (Commands30.roles added))
      /\ (forall who, role ∈ Commands30.c_roles who ->
                      Commands30.is_admin_or_permitted added who = true)
      /\ (forall v, v <> role ->
                    v ∈ Commands30.roles removed
                    <-> v ∈ Commands30.roles perm)
      /\ (NoDup (Commands30.roles perm) ->
          forall who,
            Commands30.c_administrator who = false ->
            Commands30.c_id who ∉ Commands30.users perm ->
            (forall r, r ∈ Commands30.c_roles who ->
                       r ∈ Commands30.roles perm -> r = role) ->
            Commands30.is_admin_or_permitted removed who = false)
      /\ Commands30.users added = Commands30.users perm
      /\ Commands30.users removed = Commands30.users perm).
Proof.
  unfold Commands30.perm_add_role, Commands30.perm_remove_role.
  split; intros Hc; rewrite Hc; simpl; [done|].
  split; [apply add_if_absent_elem|].
  split; [apply add_if_absent_NoDup|].
  split.
  { intros who Hwho. unfold Commands30.is_admin_or_permitted. simpl.
    destruct (Commands30.c_administrator who); [done|].
    destruct (bool_decide (Commands30.c_id who ∈ Commands30.users perm));
      [done|].
    apply existsb_exists. exists role. split; [by apply list_elem_of_In|].
    apply bool_decide_eq_true_2, add_if_absent_elem. by left. }
  split.
  { intros v Hv. unfold Commands30.remove_if_present.
    case_bool_decide; [|done]. split.
    - apply list_remove_first_elem.
    - by apply list_remove_first_other. }
  split; [|done].
  intros Hnd who Hadm Hid Hroles.
  unfold Commands30.is_admin_or_permitted. simpl.
  rewrite Hadm, bool_decide_eq_false_2 by done.
  destruct (existsb _ _) eqn:Hex; [|done].
  apply existsb_exists in Hex as (r & Hr & Hin).
  apply list_elem_of_In in Hr. apply bool_decide_eq_true in Hin.
  unfold Commands30.remove_if_present in Hin.
  case_bool_decide as Hrole.
  - pose proof (list_remove_first_NoDup role _ Hnd) as [_ Hout].
    assert (r = role) as ->
      by (apply Hroles; [done | by eapply list_remove_first_elem]).
    done.
  - assert (r = role) as -> by by apply Hroles.
    done.
Qed.

Lemma permitted_roles_list_witness :
  (Commands30.perm_add_role member_6 21 perm_5_20 = perm_5_20
   /\ Commands30.perm_remove_role member_6 21 perm_5_20 = perm_5_20)
  /\ Commands30.is_admin_or_permitted
       (Commands30.perm_add_role member_5 21 perm_5_20) member_6 = true
  /\ Commands30.is_admin_or_permitted
       (Commands30.perm_remove_role member_5 20 perm_5_20)
       (Commands30.mkCaller 7 false [1; 20; 21]) = false.
Proof.
  split; [|split].
  - apply (proj1 (permitted_roles_list member_6 21 perm_5_20)).
    by vm_compute.
  - destruct (proj2 (permitted_roles_list member_5 21 perm_5_20))
      as (_ & _ & Hadm & _); [by vm_compute|].
    apply Hadm. apply (bool_decide_unpack _). by vm_compute.
  - destruct (proj2 (permitted_roles_list member_5 20 perm_5_20))
      as (_ & _ & _ & _ & Hrem & _); [by vm_compute|].
    apply Hrem.
    + apply (bool_decide_unpack _). by vm_compute.
    + reflexivity.
    + apply (bool_decide_unpack _). by vm_compute.
    + intros r _ Hr. simpl in Hr. by apply list_elem_of_singleton in Hr.
Defined.

Lemma admitted31_iff perm who :
  Commands31.is_admin_or_permitted perm who = true
  <-> Commands31.c_administrator who = true
      \/ Commands31.c_id who ∈ Commands31.allowed_user_ids perm
      \/ exists r, r ∈ Commands31.c_roles who
                   /\ r ∈ Commands31.allowed_role_ids perm.
Proof.
  unfold Commands31.is_admin_or_permitted.
  destruct (Commands31.c_administrator who); [by split; [left|]|].
  case_bool_decide as Hid; [by split; [right; left|]|].
  rewrite bool_decide_eq_true. split.
  - intros Hne. right. right.
    apply set_choose_L in Hne as [r Hr].
    apply elem_of_intersection in Hr as [Hr1 Hr2].
    apply elem_of_list_to_set in Hr2. by exists r.
  - intros [?|[?|(r & Hr1 & Hr2)]]; [done..|].
    intros Hempty.
    assert (r ∈ Commands31.allowed_role_ids perm
                ∩ list_to_set (Commands31.c_roles who)) as Hin.
    { apply elem_of_intersection. split; [done|].
      by apply elem_of_list_to_set. }
    rewrite Hempty in Hin. by apply elem_of_empty in Hin.
Qed.

Lemma admitted31_false perm who :
  Commands31.is_admin_or_permitted perm who = false
  <-> ~ (Commands31.c_administrator who = true
         \/ Commands31.c_id who ∈ Commands31.allowed_user_ids perm
         \/ exists r, r ∈ Commands31.c_roles who
                      /\ r ∈ Commands31.allowed_role_ids perm).
Proof.
  rewrite <- admitted31_iff.
  by destruct (Commands31.is_admin_or_permitted perm who).
Qed.

(** X19.  The permission commands of bot3.1.py, for any sets of permitted
    users and roles.  A caller who is not admitted changes nothing.  For a
    caller who is admitted: adding a user or a role takes the admission
    from nobody, removing gives it to nobody; [remove_user] changes the
    admission of no member but the one removed, [remove_role] that of no
    member without the role removed; adding an id that was not in the set
    and removing it again gives the sets back.  A caller who is not
    administrator, has no permitted role and removes the own id is locked
    out: not admitted afterwards, and none of the four commands of that
    caller changes anything from then on. *)
Theorem permitted_sets caller x perm :
  (Commands31.is_admin_or_permitted perm caller = false ->
     Commands31.perm_add_user caller x perm = perm
     /\ Commands31.perm_remove_user caller x perm = perm
     /\ Commands31.perm_add_role caller x perm = perm
     /\ Commands31.perm_remove_role caller x perm = perm)
  /\ (Commands31.is_admin_or_permitted perm caller = true ->
      (forall who,
          Commands31.is_admin_or_permitted perm who = true ->
          Commands31.is_admin_or_permitted
            (Commands31.perm_add_user caller x perm) who = true
          /\ Commands31.is_admin_or_permitted
               (Commands31.perm_add_role caller x perm) who = true)
      /\ (forall who,
             (Commands31.is_admin_or_permitted
                (Commands31.perm_remove_user caller x perm) who = true
              \/ Commands31.is_admin_or_permitted
                   (Commands31.perm_remove_role caller x perm) who = true) ->
             Commands31.is_admin_or_permitted perm who = true)
      /\ (forall who,
             Commands31.c_id who <> x ->
             Commands31.is_admin_or_permitted
               (Commands31.perm_remove_user caller x perm) who
             = Commands31.is_admin_or_permitted perm who)
      /\ (forall who,
             x ∉ Commands31.c_roles who ->
             Commands31.is_admin_or_permitted
               (Commands31.perm_remove_role caller x perm) who
             = Commands31.is_admin_or_permitted perm who)
      /\ (x ∉ Commands31.allowed_user_ids perm ->
          Commands31.perm_remove_user caller x
            (Commands31.perm_add_user caller x perm) = perm)
      /\ (x ∉ Commands31.allowed_role_ids perm ->
          Commands31.perm_remove_role caller x
            (Commands31.perm_add_role caller x perm) = perm)
      /\ (Commands31.c_administrator caller = false ->
          Commands31.c_id caller = x ->
          (forall r, r ∈ Commands31.c_roles caller ->
                     r ∉ Commands31.allowed_role_ids perm) ->
          let perm' := Commands31.perm_remove_user caller x perm in
          Commands31.is_admin_or_permitted perm' caller = false
          /\ forall y,
               Commands31.perm_add_user caller y perm' = perm'
               /\ Commands31.perm_remove_user caller y perm' = perm'
               /\ Commands31.perm_add_role caller y perm' = perm'
               /\ Commands31.perm_remove_role caller y perm' = perm')).
Proof.
  split.
  { unfold Commands31.perm_add_user, Commands31.perm_remove_user,
      Commands31.perm_add_role, Commands31.perm_remove_role.
    by intros ->. }
  intros Hadm.
  assert (Commands31.perm_add_user caller x perm
          = Commands31.mkPermissions
              ({[x]} ∪ Commands31.allowed_user_ids perm)
              (Commands31.allowed_role_ids perm)) as Hau
    by (unfold Commands31.perm_add_user; by rewrite Hadm).
  assert (Commands31.perm_add_role caller x perm
          = Commands31.mkPermissions
              (Commands31.allowed_user_ids perm)
              ({[x]} ∪ Commands31.allowed_role_ids perm)) as Har
    by (unfold Commands31.perm_add_role; by rewrite Hadm).
  assert (Commands31.perm_remove_user caller x perm
          = Commands31.mkPermissions
              (Commands31.allowed_user_ids perm ∖ {[x]})
              (Commands31.allowed_role_ids perm)) as Hru
    by (unfold Commands31.perm_remove_user; by rewrite Hadm).
  assert (Commands31.perm_remove_role caller x perm
          = Commands31.mkPermissions
              (Commands31.allowed_user_ids perm)
              (Commands31.allowed_role_ids perm ∖ {[x]})) as Hrr
    by (unfold Commands31.perm_remove_role; by rewrite Hadm).
  assert (forall who,
             Commands31.is_admin_or_permitted perm who = true ->
             Commands31.is_admin_or_permitted
               (Commands31.perm_add_user caller x perm) who = true
             /\ Commands31.is_admin_or_permitted
                  (Commands31.perm_add_role caller x perm) who = true)
    as Hmono.
  { intros who Hwho. rewrite Hau, Har. apply admitted31_iff in Hwho.
    split; apply admitted31_iff; simpl;
      (destruct Hwho as [?|[?|(r & Hr1 & Hr2)]];
       [by left | right; left | right; right]);
      first [ by apply elem_of_union_r
            | done
            | exists r; split; [done|]; first [done | by apply elem_of_union_r]
            ]. }
  split; [exact Hmono|].
  split.
  { intros who Hwho. apply admitted31_iff.
    rewrite Hru, Hrr in Hwho.
    destruct Hwho as [Hwho|Hwho]; apply admitted31_iff in Hwho; simpl in Hwho;
      (destruct Hwho as [?|[Hid|(r & Hr1 & Hr2)]];
       [by left | right; left | right; right]).
    - by apply elem_of_difference in Hid as [? _].
    - by exists r.
    - done.
    - exists r. split; [done|]. by apply elem_of_difference in Hr2 as [? _]. }
  split.
  { intros who Hne. rewrite Hru. apply Bool.eq_iff_eq_true.
    rewrite !admitted31_iff. simpl. rewrite elem_of_difference.
    rewrite elem_of_singleton. tauto. }
  split.
  { intros who Hne. rewrite Hrr. apply Bool.eq_iff_eq_true.
    rewrite !admitted31_iff. simpl. split.
    - intros [?|[?|(r & Hr1 & Hr2)]]; [by left | by right; left |].
      right. right. exists r. split; [done|].
      by apply elem_of_difference in Hr2 as [? _].
    - intros [?|[?|(r & Hr1 & Hr2)]]; [by left | by right; left |].
      right. right. exists r. split; [done|].
      apply elem_of_difference. split; [done|].
      intros ->%elem_of_singleton. done. }
  split.
  { intros Hx. unfold Commands31.perm_remove_user.
    rewrite (proj1 (Hmono caller Hadm)). rewrite Hau. simpl.
    destruct perm as [us rs]. simpl in *. f_equal.
    apply set_eq. intros v.
    rewrite elem_of_difference, elem_of_union, elem_of_singleton.
    split; [tauto|]. intros Hv. split; [by right|]. by intros ->. }
  split.
  { intros Hx. unfold Commands31.perm_remove_role.
    rewrite (proj2 (Hmono caller Hadm)). rewrite Har. simpl.
    destruct perm as [us rs]. simpl in *. f_equal.
    apply set_eq. intros v.
    rewrite elem_of_difference, elem_of_union, elem_of_singleton.
    split; [tauto|]. intros Hv. split; [by right|]. by intros ->. }
  intros Hna Hid Hroles. cbv zeta.
  assert (Commands31.is_admin_or_permitted
            (Commands31.perm_remove_user caller x perm) caller = false)
    as Hout.
  { rewrite Hru. apply admitted31_false. simpl.
    intros [?|[Hin|(r & Hr1 & Hr2)]]; [congruence| |by apply (Hroles r)].
    apply elem_of_difference in Hin as [_ Hin]. apply Hin.
    by apply elem_of_singleton. }
  split; [done|]. intros y.
  set (perm' := Commands31.perm_remove_user caller x perm) in *.
  unfold Commands31.perm_add_user, Commands31.perm_remove_user,
    Commands31.perm_add_role, Commands31.perm_remove_role.
  by rewrite Hout.
Qed.

Definition perm31_5_20 : Commands31.Permissions :=
  Commands31.mkPermissions {[5]} {[20]}.
Definition member31_5 : Commands31.Caller :=
  Commands31.mkCaller 5 false [1].
Definition member31_6 : Commands31.Caller :=
  Commands31.mkCaller 6 false [1; 21].

Lemma permitted_sets_witness :
  (Commands31.perm_add_user member31_6 9 perm31_5_20 = perm31_5_20
   /\ Commands31.perm_remove_user member31_6 9 perm31_5_20 = perm31_5_20
   /\ Commands31.perm_add_role member31_6 9 perm31_5_20 = perm31_5_20
   /\ Commands31.perm_remove_role member31_6 9 perm31_5_20 = perm31_5_20)
  /\ Commands31.perm_remove_user member31_5 9
       (Commands31.perm_add_user member31_5 9 perm31_5_20) = perm31_5_20
  /\ (Commands31.is_admin_or_permitted
        (Commands31.perm_remove_user member31_5 5 perm31_5_20) member31_5
      = false
      /\ forall y,
           Commands31.perm_add_user member31_5 y
             (Commands31.perm_remove_user member31_5 5 perm31_5_20)
           = Commands31.perm_remove_user member31_5 5 perm31_5_20
           /\ Commands31.perm_remove_user member31_5 y
                (Commands31.perm_remove_user member31_5 5 perm31_5_20)
              = Commands31.perm_remove_user member31_5 5 perm31_5_20
           /\ Commands31.perm_add_role member31_5 y
                (Commands31.perm_remove_user member31_5 5 perm31_5_20)
              = Commands31.perm_remove_user member31_5 5 perm31_5_20
           /\ Commands31.perm_remove_role member31_5 y
                (Commands31.perm_remove_user member31_5 5 perm31_5_20)
              = Commands31.perm_remove_user member31_5 5 perm31_5_20).
Proof.
  split; [|split].
  - apply (proj1 (permitted_sets member31_6 9 perm31_5_20)).
    by vm_compute.
  - destruct (proj2 (permitted_sets member31_5 9 perm31_5_20))
      as (_ & _ & _ & _ & Hround & _); [by vm_compute|].
    apply Hround. apply (bool_decide_unpack _). by vm_compute.
  - destruct (proj2 (permitted_sets member31_5 5 perm31_5_20))
      as (_ & _ & _ & _ & _ & _ & Hlock); [by vm_compute|].
    apply Hlock; [reflexivity | reflexivity |].
    intros r Hr. apply (bool_decide_unpack _). revert r Hr.
    apply Forall_forall. repeat constructor; by vm_compute.
Defined.

(** ** What a batch and the stored queue can hold *)

(** A batch and a remainder: no member twice in either, none in both, all
    from the pool. *)
Definition split_of_pool (pool picks rest : list Z) : Prop :=
  NoDup picks /\ NoDup rest
  /\ (forall x, x ∈ picks -> x ∉ rest)
  /\ (forall x, x ∈ picks -> x ∈ pool)
  /\ (forall x, x ∈ rest -> x ∈ pool).

Lemma take_drop_split (pool q : list Z) (n : nat) :
  NoDup q -> (forall x, x ∈ q -> x ∈ pool) ->
  split_of_pool pool (take n q) (drop n q).
Proof.
  intros Hnd Hin.
  pose proof Hnd as Hnd'. rewrite <- (take_drop n q) in Hnd'.
  apply NoDup_app in Hnd' as (H1 & H2 & H3).
  repeat split; [done..| |].
  - intros x Hx. apply Hin. by eapply subseteq_take.
  - intros x Hx. apply Hin. by eapply subseteq_drop.
Qed.

Lemma NoDup_len_le (z pool : list Z) :
  NoDup z -> (forall x, x ∈ z -> x ∈ pool) -> len z <= len pool.
Proof.
  intros Hnd Hin. unfold len.
  apply Nat2Z.inj_le, submseteq_length, NoDup_submseteq; done.
Qed.

Lemma top_up_split (z pi : list Z) (y : Z) :
  NoDup z -> NoDup pi -> (forall x, x ∈ z -> x ∈ pi) -> len z < y ->
  let new_cycle := filter (fun uid => uid ∉ z) pi in
  let need := y - len z in
  let res := if need <=? len new_cycle
             then (z ++ take (Z.to_nat need) new_cycle,
                   drop (Z.to_nat need) new_cycle)
             else (z ++ new_cycle, []) in
  split_of_pool pi res.1 res.2 /\ len res.1 = Z.min y (len pi).
Proof.
  intros Hz Hpi Hin Hlen. cbv zeta.
  pose proof (length_filter_not_in z pi Hz Hpi Hin) as Hnew.
  pose proof (NoDup_len_le z pi Hz Hin) as Hle.
  assert (NoDup (filter (fun uid => uid ∉ z) pi)) as Hndnew.
  { by apply NoDup_filter. }
  assert (forall x, x ∈ filter (fun uid => uid ∉ z) pi -> (x ∉ z) /\ x ∈ pi)
    as Hnewin by (intros x Hx; by apply list_elem_of_filter in Hx).
  set (new_cycle := filter _ pi) in *.
  destruct (Z.leb_spec (y - len z) (len new_cycle)) as [Hn|Hn]; simpl.
  - destruct (take_drop_split pi new_cycle (Z.to_nat (y - len z)) Hndnew)
      as (T1 & T2 & T3 & T4 & T5); [intros x Hx; by apply Hnewin|].
    split; [repeat split|].
    + apply NoDup_app. split; [done|]. split; [|done].
      intros x Hx Hx'. apply subseteq_take in Hx'.
      by apply Hnewin in Hx' as [? _].
    + done.
    + intros x [Hx|Hx]%elem_of_app; [|by apply T3].
      intros Hx'. apply subseteq_drop in Hx'.
      by apply Hnewin in Hx' as [? _].
    + intros x [Hx|Hx]%elem_of_app; [by apply Hin | by apply T4].
    + done.
    + unfold len in *. rewrite length_app, length_take. lia.
  - split; [repeat split|].
    + apply NoDup_app. split; [done|]. split; [|done].
      intros x Hx Hx'. by apply Hnewin in Hx' as [? _].
    + constructor.
    + intros x _ Hx. by apply elem_of_nil in Hx.
    + intros x [Hx|Hx]%elem_of_app; [by apply Hin|].
      by apply Hnewin in Hx as [_ ?].
    + by intros x Hx%elem_of_nil.
    + unfold len in *. rewrite length_app. lia.
Qed.

Section Batches31.
Context {RNG : Type} (shuffle : RNG -> list Z -> list Z * RNG).
Hypothesis shuffle_perm : forall g l, (shuffle g l).1 ≡ₚ l.

Lemma select_picks_split y a_ids pool0 rng :
  NoDup a_ids -> NoDup pool0 -> 1 <= y ->
  let sel := Bot31.select_picks shuffle y a_ids pool0 rng in
  split_of_pool a_ids sel.1.1 sel.1.2
  /\ len sel.1.1 = Z.min y (len a_ids).
Proof.
  intros Ha Hp Hy. cbv zeta.
  assert (forall g, NoDup (shuffle g a_ids).1) as Hsh
    by (intros g; by rewrite shuffle_perm).
  assert (forall g x, x ∈ (shuffle g a_ids).1 <-> x ∈ a_ids) as Hshin
    by (intros g x; by rewrite shuffle_perm).
  assert (forall g, len (shuffle g a_ids).1 = len a_ids) as Hshlen
    by (intros g; unfold len; by rewrite shuffle_perm).
  assert (NoDup (carried31 a_ids pool0)) as Hz by by apply NoDup_filter.
  assert (forall x, x ∈ carried31 a_ids pool0 -> x ∈ a_ids) as Hzin
    by (intros x Hx; by apply list_elem_of_filter in Hx as [? _]).
  pose proof (NoDup_len_le _ _ Hz Hzin) as Hzle.
  destruct (decide (carried31 a_ids pool0 = [])) as [He|Hne].
  - destruct (Z.le_gt_cases y (len (shuffle rng a_ids).1)) as [Hfull|Hshort].
    + rewrite select_picks_fresh_full by done. simpl. split.
      * apply take_drop_split; [done|]. intros x. apply Hshin.
      * rewrite Hshlen in Hfull. unfold len in *. rewrite length_take.
        rewrite <- (Permutation_length (shuffle_perm rng a_ids)). lia.
    + rewrite select_picks_fresh_short by done.
      pose proof (top_up_split (shuffle rng a_ids).1
                    (shuffle (shuffle rng a_ids).2 a_ids).1 y
                    (Hsh _) (Hsh _)) as Htop.
      cbv zeta in Htop. rewrite !Hshlen in *.
      destruct (_ <=? _); simpl in *;
        (destruct Htop as [(T1 & T2 & T3 & T4 & T5) T6];
         [intros x; rewrite !Hshin; done | lia |]);
        (split; [repeat split; try done; intros x Hx; eapply Hshin; eauto
                | done]).
  - destruct (Z.le_gt_cases y (len (carried31 a_ids pool0))) as [Hfull|Hshort].
    + rewrite select_picks_carry_full by done. simpl. split.
      * by apply take_drop_split.
      * unfold len in *. rewrite length_take. lia.
    + rewrite select_picks_carry_topup by done.
      pose proof (top_up_split (carried31 a_ids pool0)
                    (shuffle rng a_ids).1 y Hz (Hsh _)) as Htop.
      cbv zeta in Htop. rewrite !Hshlen in *.
      destruct (_ <=? _); simpl in *;
        (destruct Htop as [(T1 & T2 & T3 & T4 & T5) T6];
         [intros x Hx; apply Hshin; by apply Hzin | lia |]);
        (split; [repeat split; try done; intros x Hx; eapply Hshin; eauto
                | done]).
Qed.

(** X20.  A run of bot3.1.py in which every grant succeeds, from a stored
    pool without repeats and distinct members with role A: the batch has
    min(y, pool size) members, none twice, all with role A; the pool
    stored for the next runs has no repeats, only members with role A, and
    none of the batch. *)
Theorem batch_and_stored_pool_31 pool cfg w st rng :
  sees_pool31 pool cfg w -> grants_all31 pool w ->
  NoDup pool -> NoDup (Bot31.current_cycle_pool st) ->
  exists rep st' rng',
    Bot31.perform_run shuffle w cfg st rng = (Some rep, st', rng')
    /\ split_of_pool pool (Bot31.assigned rep) (Bot31.current_cycle_pool st')
    /\ len (Bot31.assigned rep)
       = Z.min (Bot31.effective_picks cfg) (len pool).
Proof.
  intros Hw Hok Hpool Hst.
  destruct (perform_run_selection shuffle shuffle_perm pool cfg w st rng
              Hw Hok) as (rep & st' & Hrun & Hasg & Hrest).
  pose proof (select_picks_split (Bot31.effective_picks cfg) pool
                (Bot31.current_cycle_pool st) rng Hpool Hst
                (effective_picks31_ge_1 cfg)) as [Hsplit Hlen].
  exists rep, st'. eexists. split; [exact Hrun|].
  by rewrite Hasg, Hrest.
Qed.

End Batches31.

Lemma batch_and_stored_pool_31_witness :
  exists rep st' rng',
    Bot31.perform_run reverse_shuffle (world31 guild5 always 100)
      (config31 4 "weekly") state31_two_left 0%nat
    = (Some rep, st', rng')
    /\ split_of_pool [1; 2; 3; 4; 5] (Bot31.assigned rep)
                     (Bot31.current_cycle_pool st')
    /\ len (Bot31.assigned rep)
       = Z.min (Bot31.effective_picks (config31 4 "weekly"))
               (len [1; 2; 3; 4; 5]).
Proof.
  apply (batch_and_stored_pool_31 reverse_shuffle reverse_shuffle_perm
           [1; 2; 3; 4; 5]).
  - repeat split; apply (bool_decide_unpack _); by vm_compute.
  - by intros uid _.
  - apply (bool_decide_unpack _). by vm_compute.
  - apply (bool_decide_unpack _). by vm_compute.
Defined.

Section Batches30.
Context {RNG : Type} (shuffle : RNG -> list Z -> list Z * RNG).
Hypothesis shuffle_perm : forall g l, (shuffle g l).1 ≡ₚ l.

(** What is left of a cycle: [queue[index:]]. *)
Definition queued (c : Bot30.Cycle) : list Z :=
  slice_from (Bot30.queue c) (Bot30.index c).

Lemma select_ids_bounds y a_ids cycle rng :
  NoDup a_ids -> NoDup (queued cycle) -> 1 <= y ->
  let sel := Bot30.select_ids shuffle y a_ids cycle rng in
  len sel.1.1 <= y
  /\ (y <= len a_ids -> len sel.1.1 = y)
  /\ NoDup (queued sel.1.2)
  /\ (forall x, x ∈ queued sel.1.2 -> x ∈ a_ids)
  /\ 0 <= Bot30.index sel.1.2.
Proof.
  intros Ha Hq Hy. cbv zeta.
  assert (forall g, NoDup (shuffle g a_ids).1) as Hsh
    by (intros g; by rewrite shuffle_perm).
  assert (forall g x, x ∈ (shuffle g a_ids).1 <-> x ∈ a_ids) as Hshin
    by (intros g x; by rewrite shuffle_perm).
  assert (forall g, len (shuffle g a_ids).1 = len a_ids) as Hshlen
    by (intros g; unfold len; by rewrite shuffle_perm).
  assert (NoDup (leftovers30 a_ids cycle)) as Hz
    by (unfold leftovers30, Bot30.repair_cycle_with_current_a; simpl;
        by apply NoDup_filter).
  assert (forall x, x ∈ leftovers30 a_ids cycle -> x ∈ a_ids) as Hzin.
  { intros x Hx. unfold leftovers30, Bot30.repair_cycle_with_current_a in Hx.
    simpl in Hx. by apply list_elem_of_filter in Hx as [? _]. }
  pose proof (NoDup_len_le _ _ Hz Hzin) as Hzle.
  pose proof (len_nonneg (leftovers30 a_ids cycle)) as Hz0.
  unfold queued.
  destruct (decide (leftovers30 a_ids cycle = [])) as [He|Hne].
  - destruct (Z.le_gt_cases y (len (shuffle rng a_ids).1)) as [Hfull|Hshort].
    + rewrite select_ids_fresh_full by done. simpl.
      rewrite slice_from_nonneg by lia.
      split; [|split; [|split; [|split]]].
      * unfold len. rewrite length_take. lia.
      * intros _. unfold len in *. rewrite length_take. lia.
      * by apply NoDup_drop_of.
      * intros x Hx%subseteq_drop. by eapply Hshin.
      * lia.
    + rewrite select_ids_fresh_topup by done. simpl.
      rewrite slice_from_0.
      split; [|split; [|split; [|split]]].
      * unfold len in *. rewrite length_app, length_take. lia.
      * rewrite Hshlen in Hshort. lia.
      * by apply NoDup_drop_of.
      * intros x Hx%subseteq_drop. by eapply Hshin.
      * lia.
  - destruct (Z.le_gt_cases y (len (leftovers30 a_ids cycle)))
      as [Hfull|Hshort].
    + rewrite select_ids_carry_full by done. simpl.
      rewrite slice_from_nonneg by lia.
      split; [|split; [|split; [|split]]].
      * unfold len. rewrite length_take. lia.
      * intros _. unfold len in *. rewrite length_take. lia.
      * by apply NoDup_drop_of.
      * intros x Hx%subseteq_drop. by apply Hzin.
      * lia.
    + rewrite select_ids_carry_topup by done. simpl.
      rewrite slice_from_0.
      split; [|split; [|split; [|split]]].
      * unfold len in *. rewrite length_app, length_take. lia.
      * intros Hyp. unfold len in *. rewrite length_app, length_take.
        pose proof (Hshlen rng) as Hl. unfold len in Hl. lia.
      * by apply NoDup_drop_of.
      * intros x Hx%subseteq_drop. by eapply Hshin.
      * lia.
Qed.

(** X21.  A run of bot3.0.py (the same selection is in bot2.0.py), whatever
    the Discord calls do, with distinct members in role A and no member
    queued twice: the batch has at most [y] entries, exactly [y] when the
    pool has at least [y] members, all of them members with role A; what
    stays queued has no repeats and only members with role A, and the
    stored index is not negative. *)
Theorem batch_and_queue_30 pool w data rng :
  sees_pool30 pool w ->
  NoDup pool -> NoDup (queued (Bot30.current_cycle data)) ->
  let y := Bot30.effective_picks data in
  exists selected data' rng',
    Bot30.run_rotation shuffle w data rng = (selected, None, data', rng')
    /\ Bot30.current_holders data' = selected
    /\ (forall x, x ∈ selected -> x ∈ pool)
    /\ len selected <= y
    /\ (y <= len pool -> len selected = y)
    /\ NoDup (queued (Bot30.current_cycle data'))
    /\ (forall x, x ∈ queued (Bot30.current_cycle data') -> x ∈ pool)
    /\ 0 <= Bot30.index (Bot30.current_cycle data').
Proof.
  intros Hw Hpool Hq. cbv zeta.
  destruct (run_rotation_selection shuffle pool w data rng Hw)
    as (data' & Hrun & Hh & Hc & _).
  pose proof (effective_picks30_ge_1 data) as Hy.
  pose proof (select_ids_bounds (Bot30.effective_picks data) pool
                (Bot30.current_cycle data) rng Hpool Hq Hy)
    as (B1 & B2 & B3 & B4 & B5).
  pose proof (select_ids_in_pool_nonempty shuffle shuffle_perm
                (Bot30.effective_picks data) pool
                (Bot30.current_cycle data) rng Hy) as [Hin _].
  cbv zeta in *. rewrite filter_all in Hrun, Hh by done.
  do 3 eexists. split; [exact Hrun|]. rewrite Hc.
  split; [done|]. split; [|done].
  intros x Hx. by eapply Forall_forall in Hin.
Qed.

End Batches30.

Lemma batch_and_queue_30_witness :
  exists selected data' rng',
    Bot30.run_rotation reverse_shuffle
      (world30 guild5 (Bot30.mkApi always always) 100) data_two_left 0%nat
    = (selected, None, data', rng')
    /\ Bot30.current_holders data' = selected
    /\ (forall x, x ∈ selected -> x ∈ [1; 2; 3; 4; 5])
    /\ len selected <= Bot30.effective_picks data_two_left
    /\ (Bot30.effective_picks data_two_left <= len [1; 2; 3; 4; 5] ->
        len selected = Bot30.effective_picks data_two_left)
    /\ NoDup (queued (Bot30.current_cycle data'))
    /\ (forall x, x ∈ queued (Bot30.current_cycle data') ->
                  x ∈ [1; 2; 3; 4; 5])
    /\ 0 <= Bot30.index (Bot30.current_cycle data').
Proof.
  apply (batch_and_queue_30 reverse_shuffle reverse_shuffle_perm
           [1; 2; 3; 4; 5]).
  - exists 10, 11. by vm_compute.
  - apply (bool_decide_unpack _). by vm_compute.
  - apply (bool_decide_unpack _). by vm_compute.
Defined.

(** X22.  [eligible_members_with_role_a] (bot3.0.py and bot2.0.py): the ids
    are in increasing order and are those of the members of the guild that
    have role A and are not bots; no id twice when the guild lists no
    member twice; never more ids than members. *)
Theorem eligible_members_sorted guild role_a :
  let ids := Bot30.eligible_members_with_role_a guild role_a in
  Sorted Z.le ids
  /\ (forall uid, uid ∈ ids
        <-> exists m, m ∈ guild /\ m_id m = uid
                      /\ has_role role_a m = true /\ m_bot m = false)
  /\ (NoDup (m_id <$> guild) -> NoDup ids)
  /\ len ids <= len guild.
Proof.
  cbv zeta. unfold Bot30.eligible_members_with_role_a.
  set (f := filter _ guild).
  assert (f `sublist_of` guild) as Hsub by apply sublist_filter.
  split; [|split; [|split]].
  - apply Sorted_merge_sort. intros x y. lia.
  - intros uid. rewrite merge_sort_Permutation, list_elem_of_fmap.
    split.
    + intros (m & -> & Hm). apply list_elem_of_filter in Hm as [Hp Hm].
      apply Is_true_true, andb_true_iff in Hp as [? ?%negb_true_iff].
      by exists m.
    + intros (m & Hm & <- & Hr & Hb). exists m. split; [done|].
      apply list_elem_of_filter. split; [|done].
      apply Is_true_true. by rewrite Hr, Hb.
  - intros Hnd. rewrite merge_sort_Permutation.
    eapply sublist_NoDup; [exact Hnd|]. by apply fmap_sublist.
  - unfold len. rewrite merge_sort_Permutation, length_fmap.
    apply Nat2Z.inj_le. by apply sublist_length.
Qed.

Lemma eligible_members_sorted_witness :
  NoDup (Bot30.eligible_members_with_role_a guild3 10).
Proof.
  apply (proj1 (proj2 (proj2 (eligible_members_sorted guild3 10)))).
  apply (bool_decide_unpack _). by vm_compute.
Defined.

(** ** The scheduler and the schedule commands of bot3.0.py *)

Section Scheduler30.
Context {RNG : Type} (shuffle : RNG -> list Z -> list Z * RNG).

Lemma run_rotation_keeps_schedule w data rng :
  let data' := (Bot30.run_rotation shuffle w data rng).1.2 in
  Bot30.schedule data' = Bot30.schedule data
  /\ Bot30.next_run_ts data' = Bot30.next_run_ts data.
Proof.
  cbv zeta. unfold Bot30.run_rotation.
  destruct (Bot30.w_role_a w) as [role_a|], (Bot30.w_role_b w) as [role_b|];
    [|done..].
  pose proof (remove_role_b_spec
                (Bot30.w_guild w) role_b (Bot30.w_api w)
                (Bot30.w_now_remove w) data) as Hrem.
  destruct (Bot30.remove_role_b_from_current_holders _ _ _ _ _)
    as [data1 revoked].
  simpl in Hrem. destruct Hrem as (_ & _ & _ & _ & _ & _ & Hs & Hn).
  pose proof (pick_next_batch_stats shuffle
                (Bot30.w_guild w) role_a role_b (Bot30.w_api w)
                (Bot30.w_now_pick w) data1 rng) as Hpick.
  destruct (Bot30.pick_next_batch _ _ _ _ _ _ _ _) as [[selected data2] rng2].
  simpl in Hpick. destruct Hpick as (_ & _ & _ & Hs2 & Hn2). simpl.
  split; congruence.
Qed.

Lemma run_guilds_keeps_schedule ws data rng :
  let data' := (Commands30.run_guilds shuffle ws data rng).1 in
  Bot30.schedule data' = Bot30.schedule data
  /\ Bot30.next_run_ts data' = Bot30.next_run_ts data.
Proof.
  cbv zeta. unfold Commands30.run_guilds.
  revert data rng. induction ws as [|w ws IH]; intros data rng; [done|].
  simpl.
  pose proof (run_rotation_keeps_schedule w data rng) as Hk.
  destruct (Bot30.run_rotation shuffle w data rng) as [[[sel err] d1] r1].
  simpl in Hk. destruct Hk as [Hs Hn].
  destruct (IH d1 r1) as [Hs' Hn']. split; congruence.
Qed.

(** X23.  One turn of [scheduler_loop] of bot3.0.py when a run is due, in a
    timezone of fixed UTC offset (no daylight-saving change).  The
    rotations are run.  If the next run can
    be computed the turn stores it and goes on at once, and a stored time
    is strictly after the clock; if [next_run_from_now] raises, the turn
    sleeps 10 seconds with the stored next run as it was and the schedule
    still enabled, so that the run is due again at the next turn. *)
Theorem scheduler_turn_when_due now now_dt ws data rng next_ts :
  Bot30.s_enabled (Bot30.schedule data) = Some true ->
  Bot30.next_run_ts data = Some next_ts -> next_ts <= now ->
  valid now_dt = true ->
  let ran := Commands30.run_guilds shuffle ws data rng in
  let turn := Commands30.scheduler_turn shuffle now now_dt ws data rng in
  turn.2 = ran.2
  /\ match Bot30.next_run_from_now (Bot30.schedule data) now_dt with
     | Ret r =>
         turn.1.1 = 0
         /\ turn.1.2 = Bot30.set_next_run_ts ran.1 r
         /\ (forall t, r = Some t -> timestamp_us now_dt < t * 1000000)
     | Raise _ =>
         turn.1.1 = 10
         /\ turn.1.2 = ran.1
         /\ Bot30.next_run_ts turn.1.2 = Some next_ts
         /\ Bot30.s_enabled (Bot30.schedule turn.1.2) = Some true
     | Fuel => False
     end.
Proof.
  intros He Hn Hdue Hv. cbv zeta.
  unfold Commands30.scheduler_turn. rewrite He, Hn. simpl.
  destruct (Z.leb_spec next_ts now); [|lia].
  pose proof (run_guilds_keeps_schedule ws data rng) as Hk.
  destruct (Commands30.run_guilds shuffle ws data rng) as [d1 r1].
  simpl in Hk. destruct Hk as [Hs Hn1].
  unfold Bot30.save_and_reschedule. rewrite Hs.
  pose proof (next_run_not_Fuel (Bot30.schedule data) now_dt Hv)
    as Hfuel.
  destruct (Bot30.next_run_from_now (Bot30.schedule data) now_dt)
    as [r|e|] eqn:Hnext; simpl; [| |done].
  - split; [done|]. split; [done|]. split; [done|].
    intros t ->. by eapply next_run_after_now.
  - split; [done|]. split; [done|]. split; [done|].
    split; [congruence|]. by rewrite Hs.
Qed.

(** X24.  A turn of [scheduler_loop] of bot3.0.py that is not a due run:
    the loop sleeps between 5 and 30 seconds and changes nothing but, when
    no next run is stored, the next run. *)
Theorem scheduler_turn_when_idle now now_dt ws data rng :
  (forall next_ts, Bot30.next_run_ts data = Some next_ts -> now < next_ts) ->
  let turn := Commands30.scheduler_turn shuffle now now_dt ws data rng in
  5 <= turn.1.1 <= 30
  /\ turn.2 = rng
  /\ Bot30.current_holders turn.1.2 = Bot30.current_holders data
  /\ Bot30.stats turn.1.2 = Bot30.stats data
  /\ Bot30.current_cycle turn.1.2 = Bot30.current_cycle data
  /\ Bot30.schedule turn.1.2 = Bot30.schedule data
  /\ (Bot30.next_run_ts data <> None -> turn.1.2 = data).
Proof.
  intros Hidle. cbv zeta. unfold Commands30.scheduler_turn.
  destruct (negb _); [simpl; repeat split; lia|].
  destruct (Bot30.next_run_ts data) as [next_ts|] eqn:Hn.
  - specialize (Hidle next_ts eq_refl).
    destruct (Z.leb_spec next_ts now); [lia|]. simpl.
    repeat split; lia.
  - unfold Bot30.save_and_reschedule.
    destruct (Bot30.next_run_from_now _ _); simpl; repeat split;
      try lia; done.
Qed.

(** X25.  [/schedule stop] of bot3.0.py: afterwards no next run is computed
    and the scheduler only sleeps, whatever was stored; the holders, the
    cycle and the stats are not touched. *)
Theorem schedule_stop_stops now now_dt ws data rng :
  let data' := Commands30.schedule_stop data in
  Bot30.next_run_from_now (Bot30.schedule data') now_dt = Ret None
  /\ Bot30.next_run_ts data' = None
  /\ Commands30.scheduler_turn shuffle now now_dt ws data' rng
     = (10, data', rng)
  /\ Bot30.current_holders data' = Bot30.current_holders data
  /\ Bot30.current_cycle data' = Bot30.current_cycle data
  /\ Bot30.stats data' = Bot30.stats data.
Proof. done. Qed.

End Scheduler30.

(** A run was due at 1000; the schedule is monthly on day 31 at 09:00. *)
Definition data_due : Bot30.Data :=
  Bot30.mkData (Some 2) (schedule_on "monthly") [] ∅ (Bot30.mkCycle [] 0)
               (Some 1000).

Lemma scheduler_turn_when_due_witness :
  let turn :=
    Commands30.scheduler_turn reverse_shuffle 1738321200
      (mkdt 2025 1 31 12 0 0 0 3600)
      [world30 guild3 (Bot30.mkApi always always) 1738321200]
      data_due 0%nat in
  turn.1.1 = 10
  /\ Bot30.next_run_ts turn.1.2 = Some 1000
  /\ Bot30.s_enabled (Bot30.schedule turn.1.2) = Some true.
Proof.
  destruct (scheduler_turn_when_due reverse_shuffle 1738321200
              (mkdt 2025 1 31 12 0 0 0 3600)
              [world30 guild3 (Bot30.mkApi always always) 1738321200]
              data_due 0%nat 1000) as [_ Hturn];
    [by vm_compute | by vm_compute | lia | by vm_compute |].
  assert (Bot30.next_run_from_now (Bot30.schedule data_due)
            (mkdt 2025 1 31 12 0 0 0 3600) = Raise ValueError) as Hraise
    by by vm_compute.
  rewrite Hraise in Hturn. cbv zeta.
  destruct Hturn as (H1 & _ & H3 & H4). by repeat split.
Defined.

Lemma scheduler_turn_when_idle_witness :
  let turn :=
    Commands30.scheduler_turn reverse_shuffle 990
      (mkdt 2025 1 31 12 0 0 0 3600)
      [world30 guild3 (Bot30.mkApi always always) 990] data_due 0%nat in
  5 <= turn.1.1 <= 30
  /\ turn.2 = 0%nat
  /\ Bot30.current_holders turn.1.2 = Bot30.current_holders data_due
  /\ Bot30.stats turn.1.2 = Bot30.stats data_due
  /\ Bot30.current_cycle turn.1.2 = Bot30.current_cycle data_due
  /\ Bot30.schedule turn.1.2 = Bot30.schedule data_due
  /\ (Bot30.next_run_ts data_due <> None -> turn.1.2 = data_due).
Proof.
  apply (scheduler_turn_when_idle reverse_shuffle 990
           (mkdt 2025 1 31 12 0 0 0 3600)
           [world30 guild3 (Bot30.mkApi always always) 990] data_due 0%nat).
  intros next_ts [= <-]. lia.
Defined.

Lemma schedule_set_fields_spec kind time n_days weekday dom s :
  let s' := Commands30.schedule_set_fields kind time n_days weekday dom s in
  Bot30.s_enabled s' = Some true
  /\ Bot30.s_type s' = Some kind
  /\ Bot30.s_time s' = time
  /\ (kind = "every_n_days"%string ->
      Bot30.s_n_days s' = Some (Commands30.or_3 n_days))
  /\ (kind = "monthly"%string -> Bot30.s_dom s' = Some (default 1 dom)).
Proof.
  cbv zeta. unfold Commands30.schedule_set_fields.
  destruct (String.eqb_spec kind "every_n_days");
    [by repeat split; intros ->|].
  destruct (String.eqb_spec kind "weekly"); [by repeat split; intros ->|].
  destruct (String.eqb_spec kind "monthly"); done.
Qed.

(** X26.  [/schedule set] of bot3.0.py, in a timezone of fixed UTC offset
    (no daylight-saving change), with the number of days and the day of
    month within the ranges Discord admits (1..60 and 1..31).  For the
    kinds daily, weekly and every_n_days and a time of day that exists,
    the command stores a next run strictly after the clock.  For a time of
    day that does not exist (such as 25:00, which [parse_hhmm] lets
    through) the command ends in an exception after it has written and
    enabled the schedule, the stored next run staying as it was:
    [ValueError] when hour and minute are within the range of a C [int]
    (-2^31 .. 2^31 - 1), [OverflowError] when one of them is outside. *)
Theorem schedule_set_outcome now kind hh mm n_days weekday dom data :
  valid now = true ->
  let res := Commands30.schedule_set now kind (hh, mm) n_days weekday dom
                                     data in
  (kind ∈ ["daily"; "weekly"; "every_n_days"]%string ->
   0 <= hh <= 23 -> 0 <= mm <= 59 ->
   (forall n, n_days = Some n -> 1 <= n <= 60) ->
   toordinal now + 60 <= MAXORDINAL ->
   exists r, res.2 = None
             /\ Bot30.next_run_ts res.1 = Some r
             /\ timestamp_us now < r * 1000000
             /\ Bot30.s_enabled (Bot30.schedule res.1) = Some true)
  /\ (kind ∈ ["daily"; "weekly"; "monthly"; "every_n_days"]%string ->
      ~ (0 <= hh <= 23 /\ 0 <= mm <= 59) ->
      (forall d, dom = Some d -> 1 <= d <= 31) ->
      res.2 = Some (if in_range INT_MIN INT_MAX hh
                       && in_range INT_MIN INT_MAX mm
                    then ValueError else OverflowError)
      /\ Bot30.next_run_ts res.1 = Bot30.next_run_ts data
      /\ Bot30.s_enabled (Bot30.schedule res.1) = Some true
      /\ Bot30.s_type (Bot30.schedule res.1) = Some kind).
Proof.
  intros Hv. cbv zeta. unfold Commands30.schedule_set,
    Bot30.save_and_reschedule. simpl.
  pose proof (schedule_set_fields_spec kind (hh, mm) n_days weekday dom
                (Bot30.schedule data)) as Hf. cbv zeta in Hf.
  set (s' := Commands30.schedule_set_fields _ _ _ _ _ _) in *.
  destruct Hf as (He & Ht & Htime & Hnd & Hdom).
  split.
  - intros Hk Hh Hm Hn Hroom.
    destruct (next_run_total s' now) as (r & Hr & Hlt);
      try done.
    + by rewrite Htime.
    + by rewrite Htime.
    + by rewrite Ht.
    + lia.
    + rewrite Ht. simpl. intros ->. rewrite Hnd by done. simpl.
      unfold Commands30.or_3. destruct n_days as [n|]; [|lia].
      specialize (Hn n eq_refl). destruct (n =? 0); lia.
    + rewrite Hr. simpl. by exists r.
  - intros Hk Hbad Hd.
    rewrite (next_run_bad_time s' now hh mm); try done; [|by rewrite Ht].
    unfold bad_time_error. rewrite Htime, Ht. simpl.
    assert (negb (String.eqb kind "monthly")
            || (INT_MIN <=? default 1 (Bot30.s_dom s')) = true) as ->;
      [|by rewrite andb_true_r].
    destruct (String.eqb_spec kind "monthly") as [Hm | Hm]; [|done].
    rewrite Hdom by done. simpl. apply Z.leb_le. unfold INT_MIN.
    destruct dom as [d|]; simpl; [|lia]. specialize (Hd d eq_refl). lia.
Qed.

Lemma schedule_set_outcome_witness :
  (exists r,
      (Commands30.schedule_set monday_13h "weekly" (9, 0) None (Some 4) None
                               (data_picks 2)).2 = None
      /\ Bot30.next_run_ts
           (Commands30.schedule_set monday_13h "weekly" (9, 0) None
                                    (Some 4) None (data_picks 2)).1
         = Some r
      /\ timestamp_us monday_13h < r * 1000000
      /\ Bot30.s_enabled
           (Bot30.schedule
              (Commands30.schedule_set monday_13h "weekly" (9, 0) None
                                       (Some 4) None (data_picks 2)).1)
         = Some true)
  /\
  (((Commands30.schedule_set monday_13h "daily" (25, 0) None None None
                             (data_picks 2)).2 = Some ValueError
    /\ (Commands30.schedule_set monday_13h "monthly" (2147483648, 0) None
                                None (Some 31) (data_picks 2)).2
       = Some OverflowError)
   /\ Bot30.next_run_ts
        (Commands30.schedule_set monday_13h "daily" (25, 0) None None None
                                 (data_picks 2)).1
      = Bot30.next_run_ts (data_picks 2)
   /\ Bot30.s_enabled
        (Bot30.schedule
           (Commands30.schedule_set monday_13h "daily" (25, 0) None None
                                    None (data_picks 2)).1)
      = Some true
   /\ Bot30.s_type
        (Bot30.schedule
           (Commands30.schedule_set monday_13h "daily" (25, 0) None None
                                    None (data_picks 2)).1)
      = Some "daily"%string).
Proof.
  split.
  - apply (proj1 (schedule_set_outcome monday_13h "weekly" 9 0 None (Some 4)
                    None (data_picks 2) eq_refl)).
    + apply (bool_decide_unpack _). by vm_compute.
    + lia.
    + lia.
    + by intros n [=].
    + by vm_compute.
  - split; [split|].
    + apply (proj2 (schedule_set_outcome monday_13h "daily" 25 0 None None
                      None (data_picks 2) eq_refl)).
      * apply (bool_decide_unpack _). by vm_compute.
      * lia.
      * by intros d [=].
    + apply (proj2 (schedule_set_outcome monday_13h "monthly" 2147483648 0
                      None None (Some 31) (data_picks 2) eq_refl)).
      * apply (bool_decide_unpack _). by vm_compute.
      * lia.
      * intros d [= <-]. lia.
    + apply (proj2 (schedule_set_outcome monday_13h "daily" 25 0 None None
                      None (data_picks 2) eq_refl)).
      * apply (bool_decide_unpack _). by vm_compute.
      * lia.
      * by intros d [=].
Defined.

Section Run30.
Context {RNG : Type} (shuffle : RNG -> list Z -> list Z * RNG).
Hypothesis shuffle_perm : forall g l, (shuffle g l).1 ≡ₚ l.

(** X27.  What [/run] of bot3.0.py answers (once the caller is admitted).
    When a role is missing: the error, and nothing is changed.  When both
    roles resolve: the "no eligible users" text exactly when no member has
    role A, else the members of the batch, which are then the recorded
    holders. *)
Theorem cmd_run_replies w data rng :
  let res := Bot30.cmd_run shuffle w data rng in
  ((Bot30.w_role_a w = None \/ Bot30.w_role_b w = None) ->
   res = (Bot30.reply_error Bot30.missing_roles, data, rng))
  /\ (forall pool, sees_pool30 pool w ->
       (pool = [] ->
        res.1.1 = Bot30.reply_run_none
        /\ Bot30.current_holders res.1.2 = [])
       /\ (pool <> [] ->
           exists selected,
             selected <> []
             /\ res.1.1 = Bot30.reply_run_done selected
             /\ Bot30.current_holders res.1.2 = selected
             /\ forall x, x ∈ selected -> x ∈ pool)).
Proof.
  cbv zeta. split.
  - unfold Bot30.cmd_run, Bot30.run_rotation.
    intros [-> | Hb]; [done|]. rewrite Hb. by destruct (Bot30.w_role_a w).
  - intros pool Hw.
    destruct (run_rotation_selection shuffle pool w data rng Hw)
      as (data' & Hrun & Hh & _).
    pose proof (effective_picks30_ge_1 data) as Hy.
    pose proof (select_ids_in_pool_nonempty shuffle shuffle_perm
                  (Bot30.effective_picks data) pool
                  (Bot30.current_cycle data) rng Hy) as [Hin Hne].
    cbv zeta in *. rewrite filter_all in Hrun, Hh by done.
    unfold Bot30.cmd_run. rewrite Hrun.
    set (sel := (Bot30.select_ids shuffle _ pool _ rng).1.1) in *.
    split.
    + intros ->. assert (sel = []) as ->.
      { destruct sel as [|x l]; [done|].
        apply Forall_cons in Hin as [Hx _]. by apply elem_of_nil in Hx. }
      simpl. by rewrite Hh.
    + intros Hp. specialize (Hne Hp). exists sel.
      destruct sel as [|x l] eqn:Hsel; [done|]. simpl.
      split; [done|]. split; [done|]. split; [done|].
      intros y Hy'. by eapply Forall_forall in Hin.
Qed.

End Run30.

Lemma cmd_run_replies_witness :
  Bot30.cmd_run reverse_shuffle
    (Bot30.mkWorld guild3 (Some 10) None (Bot30.mkApi always always)
                   100 100)
    (data_picks 2) 0%nat
  = (Bot30.reply_error Bot30.missing_roles, data_picks 2, 0%nat)
  /\ exists selected,
       selected <> []
       /\ (Bot30.cmd_run reverse_shuffle
             (world30 guild3 (Bot30.mkApi always always) 100)
             (data_picks 2) 0%nat).1.1
          = Bot30.reply_run_done selected
       /\ Bot30.current_holders
            (Bot30.cmd_run reverse_shuffle
               (world30 guild3 (Bot30.mkApi always always) 100)
               (data_picks 2) 0%nat).1.2
          = selected
       /\ forall x, x ∈ selected -> x ∈ [1; 2; 3].
Proof.
  split.
  - apply (proj1 (cmd_run_replies reverse_shuffle reverse_shuffle_perm
                    (Bot30.mkWorld guild3 (Some 10) None
                                   (Bot30.mkApi always always) 100 100)
                    (data_picks 2) 0%nat)).
    by right.
  - apply (proj2 (cmd_run_replies reverse_shuffle reverse_shuffle_perm
                    (world30 guild3 (Bot30.mkApi always always) 100)
                    (data_picks 2) 0%nat) [1; 2; 3]).
    + exists 10, 11. by vm_compute.
    + done.
Defined.

(** ** bot2.0.py against bot3.0.py *)

Lemma closed_stat_idem now o :
  closed_stat now (Some (closed_stat now o)) = closed_stat now o.
Proof.
  unfold closed_stat at 1. by rewrite closed_stat_not_open.
Qed.

Lemma finalize_all_lookup_in now (l : list Z) (st : gmap Z Bot30.UserStat) k :
  foldl (fun st uid => Bot30.finalize_stats now uid st) st l !! k
  = if bool_decide (k ∈ l) then Some (closed_stat now (st !! k))
    else st !! k.
Proof.
  revert st. induction l as [|u l IH]; intros st.
  - cbn [foldl].
    by rewrite (bool_decide_eq_false_2 (k ∈ [])) by by intros ?%elem_of_nil.
  - cbn [foldl]. rewrite IH, finalize_stats_lookup.
    destruct (decide (k = u)) as [->|Hne].
    + rewrite (bool_decide_eq_true_2 (u ∈ u :: l)) by by left.
      rewrite (bool_decide_eq_true_2 (u = u)) by done.
      case_bool_decide; [|done]. by rewrite closed_stat_idem.
    + rewrite (bool_decide_eq_false_2 (k = u)) by done.
      destruct (decide (k ∈ l)) as [Hin|Hnin].
      * rewrite (bool_decide_eq_true_2 (k ∈ l)) by done.
        by rewrite (bool_decide_eq_true_2 (k ∈ u :: l)) by by right.
      * rewrite (bool_decide_eq_false_2 (k ∈ l)) by done.
        rewrite (bool_decide_eq_false_2 (k ∈ u :: l)); [done|].
        by intros [?|?]%elem_of_cons.
Qed.

(** The step of the loop of bot2.0.py for one recorded holder. *)
Definition finalize_step_20 (guild : Guild) (now : Z)
    (st : gmap Z Bot30.UserStat) (uid : Z) : gmap Z Bot30.UserStat :=
  match get_member guild uid with
  | None => Bot20.finalize_stats_left now uid st
  | Some _ => Bot30.finalize_stats now uid st
  end.

(** What that step leaves for the member it is run for. *)
Definition closed_stat_20 (guild : Guild) (now uid : Z)
    (o : option Bot30.UserStat) : option Bot30.UserStat :=
  match get_member guild uid, o with
  | None, None => None
  | _, _ => Some (closed_stat now o)
  end.

Lemma finalize_step_20_lookup guild now (st : gmap Z Bot30.UserStat) uid k :
  finalize_step_20 guild now st uid !! k
  = if bool_decide (k = uid) then closed_stat_20 guild now uid (st !! uid)
    else st !! k.
Proof.
  unfold finalize_step_20, closed_stat_20.
  destruct (get_member guild uid) as [m|].
  { rewrite finalize_stats_lookup. by destruct (st !! uid). }
  unfold Bot20.finalize_stats_left, closed_stat.
  destruct (st !! uid) as [[acc [s|]]|] eqn:Hu; simpl.
  - destruct (negb (s =? 0)) eqn:Hs.
    + case_bool_decide as Hk; [subst; by rewrite lookup_insert_eq|].
      by rewrite lookup_insert_ne.
    + case_bool_decide as Hk; [by subst|done].
  - case_bool_decide as Hk; [by subst|done].
  - case_bool_decide as Hk; [by subst|done].
Qed.

Lemma closed_stat_20_idem guild now uid o :
  closed_stat_20 guild now uid (closed_stat_20 guild now uid o)
  = closed_stat_20 guild now uid o.
Proof.
  unfold closed_stat_20.
  destruct (get_member guild uid), o; rewrite ?closed_stat_idem; done.
Qed.

Lemma finalize_all_20_lookup guild now (l : list Z)
    (st : gmap Z Bot30.UserStat) k :
  foldl (finalize_step_20 guild now) st l !! k
  = if bool_decide (k ∈ l) then closed_stat_20 guild now k (st !! k)
    else st !! k.
Proof.
  revert st. induction l as [|u l IH]; intros st.
  - cbn [foldl].
    by rewrite (bool_decide_eq_false_2 (k ∈ [])) by by intros ?%elem_of_nil.
  - cbn [foldl]. rewrite IH, finalize_step_20_lookup.
    destruct (decide (k = u)) as [->|Hne].
    + rewrite (bool_decide_eq_true_2 (u ∈ u :: l)) by by left.
      rewrite (bool_decide_eq_true_2 (u = u)) by done.
      case_bool_decide; [|done]. by rewrite closed_stat_20_idem.
    + rewrite (bool_decide_eq_false_2 (k = u)) by done.
      destruct (decide (k ∈ l)) as [Hin|Hnin].
      * rewrite (bool_decide_eq_true_2 (k ∈ l)) by done.
        by rewrite (bool_decide_eq_true_2 (k ∈ u :: l)) by by right.
      * rewrite (bool_decide_eq_false_2 (k ∈ l)) by done.
        rewrite (bool_decide_eq_false_2 (k ∈ u :: l)); [done|].
        by intros [?|?]%elem_of_cons.
Qed.

(** X28.  [remove_role_b_from_current_holders] of bot2.0.py and of
    bot3.0.py take the role from the same members and leave the same data,
    but for one thing: for a recorded holder who left the guild and has no
    stats entry, bot3.0.py creates an empty entry and bot2.0.py creates
    none. *)
Theorem removal_in_bot20_and_bot30 guild role_b api now data :
  let r20 := Bot20.remove_role_b_from_current_holders
               guild role_b api now data in
  let r30 := Bot30.remove_role_b_from_current_holders
               guild role_b api now data in
  r20.2 = r30.2
  /\ Bot30.current_holders r20.1 = Bot30.current_holders r30.1
  /\ Bot30.current_cycle r20.1 = Bot30.current_cycle r30.1
  /\ Bot30.picks_y r20.1 = Bot30.picks_y r30.1
  /\ Bot30.schedule r20.1 = Bot30.schedule r30.1
  /\ Bot30.next_run_ts r20.1 = Bot30.next_run_ts r30.1
  /\ forall k,
       Bot30.stats r20.1 !! k
       = if bool_decide (k ∈ Bot30.current_holders data)
            && bool_decide (get_member guild k = None)
            && bool_decide (Bot30.stats data !! k = None)
         then None
         else Bot30.stats r30.1 !! k.
Proof.
  cbv zeta. unfold Bot20.remove_role_b_from_current_holders,
    Bot30.remove_role_b_from_current_holders.
  destruct (Bot30.current_holders data) as [|u l] eqn:Hh.
  - simpl. by repeat split.
  - cbn [fst snd]. repeat split. intros k.
    change (Bot30.stats (Bot30.set_current_holders
                           (Bot30.set_stats data ?st) [])) with st.
    cbn [Bot30.stats Bot30.set_current_holders Bot30.set_stats].
    pose proof (finalize_all_20_lookup guild now (u :: l)
                  (Bot30.stats data) k) as H20.
    unfold finalize_step_20 in H20. rewrite H20.
    rewrite finalize_all_lookup_in.
    case_bool_decide as Hin; simpl; [|done].
    unfold closed_stat_20.
    destruct (get_member guild k) as [m|] eqn:Hm.
    + by rewrite (bool_decide_eq_false_2 (Some m = None)) by done.
    + rewrite (bool_decide_eq_true_2 (None = None)) by done. simpl.
      destruct (Bot30.stats data !! k) as [rec|] eqn:Hk.
      * by rewrite (bool_decide_eq_false_2 (Some rec = None)) by done.
      * by rewrite (bool_decide_eq_true_2 (None = None)) by done.
Qed.

Section Twice20.
Context {RNG : Type} (shuffle : RNG -> list Z -> list Z * RNG).

Lemma effective_picks20_ge_1 data : 1 <= Bot20.effective_picks data.
Proof.
  unfold Bot20.effective_picks.
  destruct (Z.ltb_spec (default Bot20.DEFAULT_PICKS_Y (Bot30.picks_y data)) 1);
    lia.
Qed.

Lemma pick_next_batch_selection guild role_a role_b api now_ts data rng :
  let pool := Bot30.eligible_members_with_role_a guild role_a in
  let sel := Bot30.select_ids shuffle (Bot20.effective_picks data) pool
               (Bot30.current_cycle data) rng in
  let res := Bot20.pick_next_batch shuffle guild role_a role_b api now_ts
               data rng in
  res.1.1 = filter (fun uid => uid ∈ pool) sel.1.1
  /\ res.2 = sel.2
  /\ Bot30.current_holders res.1.2 = res.1.1
  /\ Bot30.current_cycle res.1.2 = sel.1.2
  /\ Bot30.picks_y res.1.2 = Bot30.picks_y data.
Proof.
  cbv zeta. unfold Bot20.pick_next_batch.
  destruct (Bot30.select_ids _ _ _ _ _) as [[sel cyc] rng']. done.
Qed.

Lemma remove_20_keeps guild role_b api now data :
  let data' := (Bot20.remove_role_b_from_current_holders
                  guild role_b api now data).1 in
  Bot30.current_cycle data' = Bot30.current_cycle data
  /\ Bot30.picks_y data' = Bot30.picks_y data.
Proof.
  cbv zeta. unfold Bot20.remove_role_b_from_current_holders.
  by destruct (Bot30.current_holders data).
Qed.

(** X29.  One trigger of the scheduler of bot2.0.py rotates twice: once
    under the lock and once more after it, and only the second batch is
    announced.  With [y] the pick count of bot2.0.py (the configured
    [picks_y], 1 when it is missing or below 1), at least [2 y] members
    queued, all still in role A, and no member queued twice: the batch
    announced and recorded is the second group of [y] in the queue, the
    first group of [y] is passed over (none of them is a recorded holder
    afterwards), and the queue has moved on by [2 y]. *)
Theorem scheduled_run_rotates_twice w1 w2 data rng role_a role_b pool :
  Bot30.w_role_a w1 = Some role_a -> Bot30.w_role_b w1 = Some role_b ->
  Bot30.eligible_members_with_role_a (Bot30.w_guild w1) role_a = pool ->
  Bot30.eligible_members_with_role_a (Bot30.w_guild w2) role_a = pool ->
  let y := Bot20.effective_picks data in
  let rest := queued (Bot30.current_cycle data) in
  Forall (fun uid => uid ∈ pool) rest -> NoDup rest ->
  2 * y <= len rest ->
  let res := Bot20.scheduled_run shuffle w1 w2 data rng in
  let second := take (Z.to_nat y) (drop (Z.to_nat y) rest) in
  res.1.1 = Bot30.reply_run_done second
  /\ res.2 = rng
  /\ Bot30.current_holders res.1.2 = second
  /\ (forall uid, uid ∈ take (Z.to_nat y) rest ->
                  uid ∉ Bot30.current_holders res.1.2)
  /\ queued (Bot30.current_cycle res.1.2) = drop (Z.to_nat (2 * y)) rest.
Proof.
  intros Ha Hb Hp1 Hp2. cbv zeta. intros Hin Hnd Hlen.
  pose proof (effective_picks20_ge_1 data) as Hy.
  set (y := Bot20.effective_picks data) in *.
  set (rest := queued (Bot30.current_cycle data)) in *.
  unfold Bot20.scheduled_run. rewrite Ha, Hb.
  (* first rotation *)
  pose proof (remove_20_keeps (Bot30.w_guild w1) role_b (Bot30.w_api w1)
                (Bot30.w_now_remove w1) data) as Hk1.
  destruct (Bot20.remove_role_b_from_current_holders
              (Bot30.w_guild w1) _ _ _ data) as [d1 rev1].
  simpl in Hk1. destruct Hk1 as [Hc1 Hy1].
  pose proof (pick_next_batch_selection (Bot30.w_guild w1) role_a role_b
                (Bot30.w_api w1) (Bot30.w_now_pick w1) d1 rng) as Hs1.
  destruct (Bot20.pick_next_batch shuffle (Bot30.w_guild w1) _ _ _ _ d1 rng)
    as [[sel1 d2] rng2].
  cbv zeta in Hs1. simpl in Hs1. rewrite Hp1, Hc1 in Hs1.
  assert (Bot20.effective_picks d1 = y) as Hy1'
    by (unfold y, Bot20.effective_picks; by rewrite Hy1).
  rewrite Hy1' in Hs1.
  assert (leftovers30 pool (Bot30.current_cycle data) = rest) as Hl.
  { unfold leftovers30, Bot30.repair_cycle_with_current_a. simpl.
    by apply filter_all. }
  assert (rest <> []) as Hne.
  { intros Hr. rewrite Hr in Hlen. unfold len in Hlen. simpl in Hlen. lia. }
  rewrite select_ids_carry_full in Hs1 by (rewrite ?Hl; first [done | lia]).
  simpl in Hs1. rewrite Hl in Hs1.
  destruct Hs1 as (_ & -> & _ & Hc2 & Hy2).
  (* second rotation *)
  pose proof (remove_20_keeps (Bot30.w_guild w2) role_b (Bot30.w_api w2)
                (Bot30.w_now_remove w2) d2) as Hk2.
  destruct (Bot20.remove_role_b_from_current_holders
              (Bot30.w_guild w2) _ _ _ d2) as [d3 rev2].
  simpl in Hk2. destruct Hk2 as [Hc3 Hy3].
  pose proof (pick_next_batch_selection (Bot30.w_guild w2) role_a role_b
                (Bot30.w_api w2) (Bot30.w_now_pick w2) d3 rng) as Hs2.
  destruct (Bot20.pick_next_batch shuffle (Bot30.w_guild w2) _ _ _ _ d3 rng)
    as [[sel2 d4] rng4].
  cbv zeta in Hs2. simpl in Hs2. rewrite Hp2, Hc3, Hc2 in Hs2.
  assert (Bot20.effective_picks d3 = y) as Hy3'
    by (unfold y, Bot20.effective_picks; by rewrite Hy3, Hy2, Hy1).
  rewrite Hy3' in Hs2.
  assert (leftovers30 pool (Bot30.mkCycle rest y) = drop (Z.to_nat y) rest)
    as Hl2 by (apply leftovers30_after_full; [lia | done]).
  assert (len (drop (Z.to_nat y) rest) = len rest - y) as Hdl
    by (unfold len in *; rewrite length_drop; lia).
  assert (drop (Z.to_nat y) rest <> []) as Hne2.
  { intros Hr. rewrite Hr in Hdl. unfold len in *. simpl in Hdl. lia. }
  rewrite select_ids_carry_full in Hs2 by (rewrite ?Hl2; first [done | lia]).
  simpl in Hs2. rewrite Hl2 in Hs2.
  destruct Hs2 as (-> & -> & Hh4 & Hc4 & _).
  assert (Forall (fun uid => uid ∈ pool)
                 (take (Z.to_nat y) (drop (Z.to_nat y) rest))) as Hin2.
  { apply Forall_take_of. apply Forall_forall. intros x Hx%subseteq_drop.
    by eapply Forall_forall in Hin. }
  rewrite filter_all in * by done.
  assert (take (Z.to_nat y) (drop (Z.to_nat y) rest) <> []) as Hne3.
  { intros Hr. apply (f_equal length) in Hr.
    rewrite length_take, length_drop in Hr. unfold len in *.
    simpl in Hr. lia. }
  destruct (take (Z.to_nat y) (drop (Z.to_nat y) rest)) as [|x0 l0] eqn:Hsec;
    [done|]. rewrite <- Hsec in *. simpl.
  split; [by rewrite Hsec|]. split; [done|]. split; [done|]. split.
  - intros uid Hu. rewrite Hh4. intros Hu'.
    pose proof Hnd as Hnd'. rewrite <- (take_drop (Z.to_nat y) rest) in Hnd'.
    apply NoDup_app in Hnd' as (_ & Hdis & _).
    apply (Hdis uid Hu). by eapply subseteq_take.
  - unfold queued. rewrite Hc4. simpl.
    rewrite slice_from_nonneg by lia. rewrite drop_drop.
    f_equal. lia.
Qed.

End Twice20.

(** Five members queued, two picks per run. *)
Definition data_five_queued : Bot30.Data :=
  Bot30.mkData (Some 2) schedule_off [] ∅
               (Bot30.mkCycle [1; 2; 3; 4; 5] 0) None.

Lemma scheduled_run_rotates_twice_witness :
  let res :=
    Bot20.scheduled_run reverse_shuffle
      (world30 guild5 (Bot30.mkApi always always) 100)
      (world30 guild5 (Bot30.mkApi always always) 101)
      data_five_queued 0%nat in
  res.1.1 = Bot30.reply_run_done [3; 4]
  /\ Bot30.current_holders res.1.2 = [3; 4]
  /\ (1 ∉ Bot30.current_holders res.1.2)
  /\ queued (Bot30.current_cycle res.1.2) = [5].
Proof.
  destruct (scheduled_run_rotates_twice reverse_shuffle
              (world30 guild5 (Bot30.mkApi always always) 100)
              (world30 guild5 (Bot30.mkApi always always) 101)
              data_five_queued 0%nat 10 11 [1; 2; 3; 4; 5])
    as (Hreply & _ & Hholders & Hskipped & Hqueue).
  - reflexivity.
  - reflexivity.
  - by vm_compute.
  - by vm_compute.
  - apply (bool_decide_unpack _). by vm_compute.
  - apply (bool_decide_unpack _). by vm_compute.
  - by vm_compute.
  - cbv zeta. split; [exact Hreply|]. split; [exact Hholders|].
    split; [|exact Hqueue].
    apply Hskipped. apply (bool_decide_unpack _). by vm_compute.
Defined.

(** ** Hold intervals and totals in bot3.1.py *)

(** The accumulated seconds and the start of the open interval of a
    member, without an entry 0 and none. *)
Definition total31 (st : gmap Z Bot31.UserStats) (uid : Z) : Z :=
  from_option Bot31.total_seconds_with_b 0 (st !! uid).
Definition started31 (st : gmap Z Bot31.UserStats) (uid : Z) : option Z :=
  st !! uid ≫= Bot31.last_assigned_at.

(** The record [finalize_stats] leaves for a member. *)
Definition closed_stat31 (now_ts : Z) (o : option Bot31.UserStats)
  : Bot31.UserStats :=
  let us := default (Bot31.mkUserStats 0 None) o in
  match Bot31.last_assigned_at us with
  | Some started =>
      Bot31.mkUserStats
        (Bot31.total_seconds_with_b us + Bot31.int_seconds now_ts started)
        None
  | None => us
  end.

Lemma finalize_stats31_lookup now_ts uid (st : gmap Z Bot31.UserStats) k :
  Bot31.finalize_stats now_ts uid st !! k
  = if bool_decide (k = uid) then Some (closed_stat31 now_ts (st !! uid))
    else st !! k.
Proof.
  unfold Bot31.finalize_stats, closed_stat31.
  case_bool_decide as Hk.
  - subst. by rewrite lookup_insert_eq.
  - by rewrite lookup_insert_ne.
Qed.

Lemma closed_stat31_idem now_ts o :
  closed_stat31 now_ts (Some (closed_stat31 now_ts o))
  = closed_stat31 now_ts o.
Proof.
  unfold closed_stat31. simpl.
  by destruct (Bot31.last_assigned_at (default _ o)) eqn:E; simpl;
    rewrite ?E.
Qed.

Lemma finalize_all31_lookup now_ts (l : list Z)
    (st : gmap Z Bot31.UserStats) k :
  foldl (fun st uid => Bot31.finalize_stats now_ts uid st) st l !! k
  = if bool_decide (k ∈ l) then Some (closed_stat31 now_ts (st !! k))
    else st !! k.
Proof.
  revert st. induction l as [|u l IH]; intros st.
  - cbn [foldl].
    by rewrite (bool_decide_eq_false_2 (k ∈ [])) by by intros ?%elem_of_nil.
  - cbn [foldl]. rewrite IH, finalize_stats31_lookup.
    destruct (decide (k = u)) as [->|Hne].
    + rewrite (bool_decide_eq_true_2 (u ∈ u :: l)) by by left.
      rewrite (bool_decide_eq_true_2 (u = u)) by done.
      case_bool_decide; [|done]. by rewrite closed_stat31_idem.
    + rewrite (bool_decide_eq_false_2 (k = u)) by done.
      destruct (decide (k ∈ l)) as [Hin|Hnin].
      * rewrite (bool_decide_eq_true_2 (k ∈ l)) by done.
        by rewrite (bool_decide_eq_true_2 (k ∈ u :: l)) by by right.
      * rewrite (bool_decide_eq_false_2 (k ∈ l)) by done.
        rewrite (bool_decide_eq_false_2 (k ∈ u :: l)); [done|].
        by intros [?|?]%elem_of_cons.
Qed.

Lemma remove_loop31_stats (w : Bot31.World) now_ts (l : list Member) :
  forall s acc,
  (foldl (fun '(s, removed_mentions) m =>
            let s := Bot31.finalize_stats now_ts (m_id m) s in
            if Bot31.w_remove_ok w (m_id m)
            then (s, removed_mentions ++ [m_id m])
            else (s, removed_mentions))
         (s, acc) l).1
  = foldl (fun st uid => Bot31.finalize_stats now_ts uid st) s (m_id <$> l).
Proof.
  induction l as [|m l IH]; intros s acc; [done|].
  cbn [foldl fmap list_fmap]. cbv zeta.
  destruct (Bot31.w_remove_ok w (m_id m)); apply IH.
Qed.

Lemma open_stats31_lookup now_ts uid (st : gmap Z Bot31.UserStats) k :
  Bot31.open_stats now_ts uid st !! k
  = if bool_decide (k = uid)
    then Some (Bot31.mkUserStats (total31 st uid) (Some now_ts))
    else st !! k.
Proof.
  unfold Bot31.open_stats, total31.
  case_bool_decide as Hk.
  - subst. rewrite lookup_insert_eq. by destruct (st !! uid).
  - by rewrite lookup_insert_ne.
Qed.

Lemma open_all31_lookup now_ts (l : list Z) (st : gmap Z Bot31.UserStats) k :
  foldl (fun st uid => Bot31.open_stats now_ts uid st) st l !! k
  = if bool_decide (k ∈ l)
    then Some (Bot31.mkUserStats (total31 st k) (Some now_ts))
    else st !! k.
Proof.
  revert st. induction l as [|u l IH]; intros st.
  - cbn [foldl].
    by rewrite (bool_decide_eq_false_2 (k ∈ [])) by by intros ?%elem_of_nil.
  - cbn [foldl]. rewrite IH.
    unfold total31 at 1. rewrite !open_stats31_lookup.
    destruct (decide (k = u)) as [->|Hne].
    + rewrite (bool_decide_eq_true_2 (u ∈ u :: l)) by by left.
      rewrite (bool_decide_eq_true_2 (u = u)) by done. simpl.
      by case_bool_decide.
    + rewrite (bool_decide_eq_false_2 (k = u)) by done.
      destruct (decide (k ∈ l)) as [Hin|Hnin].
      * rewrite (bool_decide_eq_true_2 (k ∈ l)) by done.
        by rewrite (bool_decide_eq_true_2 (k ∈ u :: l)) by by right.
      * rewrite (bool_decide_eq_false_2 (k ∈ l)) by done.
        rewrite (bool_decide_eq_false_2 (k ∈ u :: l)); [done|].
        by intros [?|?]%elem_of_cons.
Qed.

Lemma assign_loop31_stats (w : Bot31.World) now_ts (picks : list Z) :
  forall s acc,
  exists granted,
    foldl (fun '(s, assigned_mentions) uid =>
             match get_member (Bot31.w_members w) uid with
             | None => (s, assigned_mentions)
             | Some member =>
                 if Bot31.w_add_ok w (m_id member)
                 then (Bot31.open_stats now_ts (m_id member) s,
                       assigned_mentions ++ [m_id member])
                 else (s, assigned_mentions)
             end) (s, acc) picks
    = (foldl (fun st uid => Bot31.open_stats now_ts uid st) s granted,
       acc ++ granted).
Proof.
  induction picks as [|uid picks IH]; intros s acc.
  - exists []. by rewrite app_nil_r.
  - cbn [foldl].
    destruct (get_member (Bot31.w_members w) uid) as [m|].
    + destruct (Bot31.w_add_ok w (m_id m)).
      * destruct (IH (Bot31.open_stats now_ts (m_id m) s) (acc ++ [m_id m]))
          as [granted ->].
        exists (m_id m :: granted). by rewrite <- app_assoc.
      * apply IH.
    + apply IH.
Qed.

(** The ids of the members who have role B when the run starts. *)
Definition holders_b (cfg : Bot31.GuildConfig) (w : Bot31.World) : list Z :=
  m_id <$> filter (fun m => Is_true (has_role (Bot31.role_b_id cfg) m))
                  (Bot31.w_members w).

Section Stats31.
Context {RNG : Type} (shuffle : RNG -> list Z -> list Z * RNG).

(** X30.  The stats over a run of bot3.1.py, whatever the Discord calls do.
    Timestamps are floats (here counted in microseconds).  When a role is
    not found, nothing changes.  Otherwise, for every member: the interval
    is open after the run exactly when the role was given to the member in
    this run, and then it starts at the time of the run; the accumulated
    seconds grow by [int(now - start)] of the interval that was open at
    the start of the run, that is by its length in seconds truncated
    towards zero, if the member had role B then, and are unchanged
    otherwise (also for a member whose recorded interval is open but who
    no longer has role B). *)
Theorem stats_over_a_run_31 w cfg st rng :
  let res := Bot31.perform_run shuffle w cfg st rng in
  match res.1.1 with
  | None => res.1.2 = st /\ res.2 = rng
  | Some rep =>
      forall uid,
        started31 (Bot31.stats res.1.2) uid
        = (if bool_decide (uid ∈ Bot31.assigned rep)
           then Some (Bot31.w_now_ts w)
           else if bool_decide (uid ∈ holders_b cfg w) then None
           else started31 (Bot31.stats st) uid)
        /\ total31 (Bot31.stats res.1.2) uid
           = total31 (Bot31.stats st) uid
             + (if bool_decide (uid ∈ holders_b cfg w)
                then match started31 (Bot31.stats st) uid with
                     | Some started =>
                         Z.quot (Bot31.w_now_ts w - started) 1000000
                     | None => 0
                     end
                else 0)
  end.
Proof.
  cbv zeta. unfold Bot31.perform_run, Bot31.get_role.
  case_bool_decide as Ha; [|done]. case_bool_decide as Hb; [|done].
  set (prev := filter (fun m => Is_true (has_role (Bot31.role_b_id cfg) m))
                      (Bot31.w_members w)).
  pose proof (remove_loop31_stats w (Bot31.w_now_ts w) prev
                (Bot31.stats st) []) as Hrem.
  destruct (foldl _ (Bot31.stats st, []) prev) as [stats1 removed].
  simpl in Hrem.
  destruct (Bot31.select_picks _ _ _ _ _) as [[picks pool] rng'].
  destruct (assign_loop31_stats w (Bot31.w_now_ts w) picks stats1 [])
    as [granted Hasg].
  rewrite Hasg. simpl. intros uid.
  unfold started31 at 1, total31 at 1.
  rewrite open_all31_lookup, Hrem.
  unfold started31, total31. rewrite !finalize_all31_lookup.
  change (m_id <$> prev) with (holders_b cfg w).
  unfold closed_stat31, Bot31.int_seconds.
  destruct (bool_decide (uid ∈ granted));
    destruct (bool_decide (uid ∈ holders_b cfg w));
    destruct (Bot31.stats st !! uid) as [[acc [s|]]|]; simpl;
    split; (done || lia).
Qed.

End Stats31.
